(** * Habit tracker: the today page, the history page and their store

    A shallow embedding of the two Svelte pages of the habit tracker,
    [src/routes/+page.svelte] (the today page) and
    [src/routes/previous-days/+page.svelte] (the history page), together
    with the part of the platform they call: JavaScript strings and dates,
    and the SQLite tables reached through the SQL plugin.  Of the two
    variants of the today page the one with the separate [master] table is
    embedded; the variant with the [completed] column inside [habits] has
    no history and is left out.

    Conventions.
    - A JavaScript string is the list of its UTF-16 code units.
    - A JavaScript number that holds a row id, a streak or a 0/1 flag is an
      integer, modelled in [Z]; the progress percentage is the only
      fractional number and has its own section.
    - Every [await] is sequential: one user action runs to its end before
      the next one starts.  A call that is not awaited is run to its end as
      well, with its rejection reaching nobody.
    - The value of the date input is the empty string or a day
      [YYYY-MM-DD] with a year of four digits.  [new Date] is embedded on
      these values; a statement that depends on the conversion of the
      selected date says so with [isDay], or is about the empty value.
    - The clock is an input of the actions that read it, and so is the
      answer of the user to a dialog.
    - Every call to the store may fail.  The outcomes of the store calls an
      action makes are an input of the action, a list of booleans consumed
      one per call ([true]: this call throws); the empty list is a store
      that answers every call. *)

From Stdlib Require Import String Ascii ZArith NArith QArith Qround Lia Bool List.
Import ListNotations.

Set Implicit Arguments.

(* ===================================================================== *)
(** ** JavaScript strings and dates *)
(* ===================================================================== *)

Module Js.

Definition jsstring := list N.

(** ASCII literals, for readable examples. *)
Definition lit (s : string) : jsstring :=
  map N_of_ascii (list_ascii_of_string s).

Definition code_T : N := 84.      (* "T" *)
Definition code_Z : N := 90.      (* "Z" *)
Definition code_dash : N := 45.   (* "-" *)
Definition code_colon : N := 58.  (* ":" *)
Definition code_dot : N := 46.    (* "." *)
Definition code_0 : N := 48.      (* "0" *)

(** [s.startsWith(p)]. *)
Fixpoint startsWith (p s : jsstring) : bool :=
  match p, s with
  | [], _ => true
  | x :: p', y :: s' => N.eqb x y && startsWith p' s'
  | _ :: _, [] => false
  end.

(** White space and line terminators of ECMAScript, the code units that
    [String.prototype.trim] strips. *)
Definition isWhiteSpace (c : N) : bool :=
  ((9 <=? c) && (c <=? 13)           (* TAB LF VT FF CR *)
   || (c =? 32)                      (* SPACE *)
   || (c =? 160)                     (* NO-BREAK SPACE *)
   || (c =? 5760)                    (* OGHAM SPACE MARK *)
   || ((8192 <=? c) && (c <=? 8202)) (* EN QUAD .. HAIR SPACE *)
   || (c =? 8232) || (c =? 8233)     (* LINE / PARAGRAPH SEPARATOR *)
   || (c =? 8239)                    (* NARROW NO-BREAK SPACE *)
   || (c =? 8287)                    (* MEDIUM MATHEMATICAL SPACE *)
   || (c =? 12288)                   (* IDEOGRAPHIC SPACE *)
   || (c =? 65279))%N.               (* ZERO WIDTH NO-BREAK SPACE *)

Fixpoint trimStart (s : jsstring) : jsstring :=
  match s with
  | [] => []
  | c :: s' => if isWhiteSpace c then trimStart s' else s
  end.

Definition trimEnd (s : jsstring) : jsstring := rev (trimStart (rev s)).

(** [s.trim()]. *)
Definition trim (s : jsstring) : jsstring := trimEnd (trimStart s).

(** Truthiness of a string: the empty string is the only falsy one. *)
Definition truthy (s : jsstring) : bool :=
  match s with [] => false | _ :: _ => true end.

(** [Boolean(n)] on an integer. *)
Definition Boolean (n : Z) : bool := negb (n =? 0)%Z.

(** [s.split("T")[0]]: the code units before the first "T". *)
Fixpoint beforeT (s : jsstring) : jsstring :=
  match s with
  | [] => []
  | c :: s' => if (c =? code_T)%N then [] else c :: beforeT s'
  end.

(** *** Dates

    A [Date] is kept as its UTC calendar fields.  The model covers the
    years 0000 to 9999, which [toISOString] prints with four digits. *)

Record Date := mkDate {
  year : N; month : N; day : N;
  hours : N; minutes : N; seconds : N; milliseconds : N
}.

Definition digit (n : N) : N := (code_0 + n mod 10)%N.
Definition pad2 (n : N) : jsstring := [digit (n / 10); digit n].
Definition pad3 (n : N) : jsstring := digit (n / 100) :: pad2 n.
Definition pad4 (n : N) : jsstring := digit (n / 1000) :: pad3 n.

(** The calendar day [YYYY-MM-DD] of a date. *)
Definition isoDay (d : Date) : jsstring :=
  pad4 (year d) ++ code_dash :: pad2 (month d) ++ code_dash :: pad2 (day d).

Definition isoTime (d : Date) : jsstring :=
  pad2 (hours d) ++ code_colon :: pad2 (minutes d) ++ code_colon ::
  pad2 (seconds d) ++ code_dot :: pad3 (milliseconds d) ++ [code_Z].

(** [d.toISOString()], [YYYY-MM-DDTHH:mm:ss.sssZ]. *)
Definition toISOString (d : Date) : jsstring :=
  isoDay d ++ code_T :: isoTime d.

(** Reading a decimal digit. *)
Definition digitValue (c : N) : option N :=
  if ((code_0 <=? c) && (c <=? code_0 + 9))%N then Some (c - code_0)%N
  else None.

Definition isLeapYear (y : N) : bool :=
  ((y mod 4 =? 0) && negb (y mod 100 =? 0) || (y mod 400 =? 0))%N.

Definition daysInMonth (y m : N) : N :=
  if (m =? 2)%N then (if isLeapYear y then 29 else 28)%N
  else if ((m =? 4) || (m =? 6) || (m =? 9) || (m =? 11))%N then 30%N
  else 31%N.

(** [new Date(s)] for the value of a date input, within the years 0000 to
    9999.  Such a value is either the empty string, an invalid date, or a
    valid date string [YYYY-MM-DD]; a date-only string denotes midnight
    UTC of that day.  The strings a date input cannot hold, and its values
    with a year of more than four digits, are outside this embedding: they
    are read as invalid dates here, and [isDay] marks the values on which
    the embedding speaks for the code. *)
Definition parseDate (s : jsstring) : option Date :=
  match s with
  | [y1; y2; y3; y4; s1; m1; m2; s2; d1; d2] =>
      match digitValue y1, digitValue y2, digitValue y3, digitValue y4,
            digitValue m1, digitValue m2, digitValue d1, digitValue d2 with
      | Some a, Some b, Some c, Some d, Some e, Some f, Some g, Some h =>
          let y := (1000 * a + 100 * b + 10 * c + d)%N in
          let m := (10 * e + f)%N in
          let dd := (10 * g + h)%N in
          if ((s1 =? code_dash) && (s2 =? code_dash)
              && (1 <=? m) && (m <=? 12)
              && (1 <=? dd) && (dd <=? daysInMonth y m))%N
          then Some (mkDate y m dd 0 0 0 0)
          else None
      | _, _, _, _, _, _, _, _ => None
      end
  | _ => None
  end.

End Js.

(* ===================================================================== *)
(** ** The store: two SQLite tables *)
(* ===================================================================== *)

Module Sql.
Import Js.

Definition code_percent : N := 37.     (* "%" *)
Definition code_underscore : N := 95.  (* "_" *)

(** SQLite folds the ASCII letters when it compares with LIKE. *)
Definition upper (c : N) : N :=
  if ((97 <=? c) && (c <=? 122))%N then (c - 32)%N else c.

(** [s LIKE p] without ESCAPE: "%" matches any run of code units, "_"
    any single one, every other code unit itself up to ASCII case. *)
Fixpoint like (p s : jsstring) : bool :=
  match p with
  | [] => match s with [] => true | _ :: _ => false end
  | c :: p' =>
      if (c =? code_percent)%N then
        (fix skip (t : jsstring) : bool :=
           like p' t || match t with [] => false | _ :: t' => skip t' end) s
      else
        match s with
        | [] => false
        | x :: s' =>
            ((c =? code_underscore) || (upper c =? upper x))%N && like p' s'
        end
  end.

(** The pattern [`${day}%`] the pages build. *)
Definition dayPattern (day : jsstring) : jsstring := day ++ [code_percent].

(** habits(id INTEGER PRIMARY KEY AUTOINCREMENT, name TEXT NOT NULL,
    streak INTEGER NOT NULL DEFAULT 0) *)
Record HabitRow := mkHabitRow {
  h_id : Z; h_name : jsstring; h_streak : Z
}.

(** master(id INTEGER PRIMARY KEY AUTOINCREMENT, habit_id INTEGER NOT
    NULL, completed INTEGER NOT NULL DEFAULT 0, completed_repeats INTEGER
    NOT NULL DEFAULT 0, date STRING) *)
Record MasterRow := mkMasterRow {
  m_id : Z; m_habit_id : Z; m_completed : Z; m_completed_repeats : Z;
  m_date : jsstring
}.

(** The database file.  A table is the list of its rows in rowid order,
    the order in which a SELECT without ORDER BY scans them; an INSERT
    appends.  AUTOINCREMENT keeps, per table, the largest rowid ever
    handed out, so that no id is used twice. *)
Record Db := mkDb {
  habits_tbl : list HabitRow;
  master_tbl : list MasterRow;
  habits_seq : Z;
  master_seq : Z
}.

Definition empty : Db := mkDb [] [] 0 0.

(** SELECT * FROM habits *)
Definition select_habits (d : Db) : list HabitRow := habits_tbl d.

(** SELECT * FROM master *)
Definition select_master (d : Db) : list MasterRow := master_tbl d.

(** SELECT * FROM master WHERE date LIKE $1 *)
Definition select_master_like (pat : jsstring) (d : Db) : list MasterRow :=
  filter (fun m => like pat (m_date m)) (master_tbl d).

(** SELECT * FROM master WHERE habit_id = $1 AND date LIKE $2 LIMIT 1 *)
Definition select_master_of (habit : Z) (pat : jsstring) (d : Db)
  : list MasterRow :=
  firstn 1 (filter (fun m => (m_habit_id m =? habit)%Z && like pat (m_date m))
                   (master_tbl d)).

(** UPDATE master SET completed = $1, date = $2 WHERE id = $3 *)
Definition update_master (completed : Z) (date : jsstring) (rid : Z) (d : Db)
  : Db :=
  mkDb (habits_tbl d)
       (map (fun m => if (m_id m =? rid)%Z
                      then mkMasterRow (m_id m) (m_habit_id m) completed
                                       (m_completed_repeats m) date
                      else m) (master_tbl d))
       (habits_seq d) (master_seq d).

(** INSERT INTO master (habit_id, completed, date) VALUES ($1, $2, $3) *)
Definition insert_master (habit completed : Z) (date : jsstring) (d : Db)
  : Db :=
  let rid := (master_seq d + 1)%Z in
  mkDb (habits_tbl d)
       (master_tbl d ++ [mkMasterRow rid habit completed 0 date])
       (habits_seq d) rid.

(** UPDATE habits SET streak = $1 WHERE id = $2 *)
Definition update_streak (streak hid : Z) (d : Db) : Db :=
  mkDb (map (fun h => if (h_id h =? hid)%Z
                      then mkHabitRow (h_id h) (h_name h) streak
                      else h) (habits_tbl d))
       (master_tbl d) (habits_seq d) (master_seq d).

(** INSERT INTO habits (name, streak) VALUES ($1, $2) *)
Definition insert_habit (name : jsstring) (streak : Z) (d : Db) : Db :=
  let hid := (habits_seq d + 1)%Z in
  mkDb (habits_tbl d ++ [mkHabitRow hid name streak])
       (master_tbl d) hid (master_seq d).

(** DELETE FROM habits WHERE id = $1 *)
Definition delete_habit (hid : Z) (d : Db) : Db :=
  mkDb (filter (fun h => negb (h_id h =? hid)%Z) (habits_tbl d))
       (master_tbl d) (habits_seq d) (master_seq d).

(** DELETE FROM master WHERE habit_id = $1 *)
Definition delete_master_of (hid : Z) (d : Db) : Db :=
  mkDb (habits_tbl d)
       (filter (fun m => negb (m_habit_id m =? hid)%Z) (master_tbl d))
       (habits_seq d) (master_seq d).

End Sql.

(* ===================================================================== *)
(** ** Running a page: state, store failures and exceptions *)
(* ===================================================================== *)

(** The [Habit] interface both pages declare: a habits row merged with the
    completion flag of the displayed day. *)
Record Habit := mkHabit {
  id : Z; name : Js.jsstring; streak : Z; completed : bool
}.

Inductive Error : Type :=
| StoreError   (* the store rejected a call *)
| TypeError    (* a property read on [undefined] *)
| RangeError.  (* [toISOString] on an invalid date *)

Inductive Res (A : Type) : Type :=
| Ok (a : A)
| Throw (e : Error).
Arguments Ok {A} a.
Arguments Throw {A} e.

Section Script.

(** [V] holds the variables of one page component. *)
Variable V : Type.

Record World := mkWorld { disk : Sql.Db; vars : V }.

(** A computation reads the outcomes of the coming store calls, changes
    the database file and the page variables, and returns or throws.  A
    throw keeps what was written before it. *)
Definition M (A : Type) : Type :=
  list bool -> World -> Res A * list bool * World.

Definition ret {A} (a : A) : M A := fun fs w => (Ok a, fs, w).

Definition bind {A B} (m : M A) (k : A -> M B) : M B :=
  fun fs w =>
    match m fs w with
    | (Ok a, fs', w') => k a fs' w'
    | (Throw e, fs', w') => (Throw e, fs', w')
    end.

Definition throw {A} (e : Error) : M A := fun fs w => (Throw e, fs, w).

(** [try { m } catch (err) { console.error(..) }] *)
Definition try_catch (m : M unit) : M unit :=
  fun fs w =>
    match m fs w with
    | (Ok a, fs', w') => (Ok a, fs', w')
    | (Throw _, fs', w') => (Ok tt, fs', w')
    end.

(** [m()] with no [await] and no [catch]: the caller goes on without the
    promise of [m].  What [m] does is done before the next action starts;
    a rejection of [m] is reported by the runtime as unhandled and reaches
    no handler of the page, so the caller never throws on its account. *)
Definition detached (m : M unit) : M unit :=
  fun fs w =>
    match m fs w with
    | (Ok _, fs', w') => (Ok tt, fs', w')
    | (Throw _, fs', w') => (Ok tt, fs', w')
    end.

Definition get : M V := fun fs w => (Ok (vars w), fs, w).

Definition modify (f : V -> V) : M unit :=
  fun fs w => (Ok tt, fs, mkWorld (disk w) (f (vars w))).

(** One call to the store.  It throws when its outcome says so and has
    no effect then. *)
Definition call {A} (q : Sql.Db -> A * Sql.Db) : M A :=
  fun fs w =>
    match fs with
    | true :: fs' => (Throw StoreError, fs', w)
    | false :: fs' =>
        let (a, d) := q (disk w) in (Ok a, fs', mkWorld d (vars w))
    | [] =>
        let (a, d) := q (disk w) in (Ok a, [], mkWorld d (vars w))
    end.

(** [db.select(..)] and [db.execute(..)] through a handle that is
    [undefined] until the database is loaded. *)
Definition select {A} (handle : bool) (q : Sql.Db -> A) : M A :=
  if handle then call (fun d => (q d, d)) else throw TypeError.

Definition execute (handle : bool) (q : Sql.Db -> Sql.Db) : M unit :=
  if handle then call (fun d => (tt, q d)) else throw TypeError.

(** [Database.load("sqlite:mydata.db")] *)
Definition load : M unit := call (fun d => (tt, d)).

(** Running an action of the page: what it returned and what it left. *)
Definition exec {A} (m : M A) (fs : list bool) (w : World) : Res A * World :=
  let '(r, _, w') := m fs w in (r, w').

End Script.

Arguments ret {V A} a.
Arguments throw {V A} e.
Arguments get {V}.
Arguments call {V A} q.
Arguments select {V A} handle q.
Arguments execute {V} handle q.
Arguments load {V}.

Notation "x <- m ;; k" := (bind m (fun x => k))
  (at level 61, m at next level, right associativity).
Notation "m ;;; k" := (bind m (fun _ => k))
  (at level 61, right associativity).

(** [a.findIndex(p)], with [None] for -1. *)
Fixpoint findIndex {A} (p : A -> bool) (l : list A) : option nat :=
  match l with
  | [] => None
  | x :: l' => if p x then Some O
               else match findIndex p l' with
                    | Some i => Some (S i)
                    | None => None
                    end
  end.

(** [a[i] = x] on an index inside the array. *)
Fixpoint setAt {A} (i : nat) (x : A) (l : list A) : list A :=
  match l, i with
  | [], _ => []
  | _ :: l', O => x :: l'
  | y :: l', S i' => y :: setAt i' x l'
  end.

(** The merge both pages perform: each habits row with the completion flag
    of the first fetched master row of that habit, [false] without one. *)
Definition mergeHabits (habitRows : list Sql.HabitRow)
                       (masterRows : list Sql.MasterRow) : list Habit :=
  map (fun row =>
         let masterRecord :=
           find (fun m => (Sql.m_habit_id m =? Sql.h_id row)%Z) masterRows in
         mkHabit (Sql.h_id row) (Sql.h_name row) (Sql.h_streak row)
                 match masterRecord with
                 | Some m => Js.Boolean (Sql.m_completed m)
                 | None => false
                 end)
      habitRows.

(* ===================================================================== *)
(** ** The today page, [src/routes/+page.svelte] *)
(* ===================================================================== *)

Module Today.
Import Js Sql.

(** The variables of the component.  [db] tells whether the connection
    handle is set. *)
Record Vars := mkVars {
  db : bool;
  habits : list Habit;
  newHabitName : jsstring;
  isAddingHabit : bool
}.

Definition initial : Vars := mkVars false [] [] false.

Definition set_db (b : bool) (v : Vars) : Vars :=
  mkVars b (habits v) (newHabitName v) (isAddingHabit v).
Definition set_habits (hs : list Habit) (v : Vars) : Vars :=
  mkVars (db v) hs (newHabitName v) (isAddingHabit v).
Definition set_newHabitName (s : jsstring) (v : Vars) : Vars :=
  mkVars (db v) (habits v) s (isAddingHabit v).
Definition set_isAddingHabit (b : bool) (v : Vars) : Vars :=
  mkVars (db v) (habits v) (newHabitName v) b.

Definition dbSelect {A} (q : Db -> A) : M Vars A :=
  v <- get ;; select (db v) q.
Definition dbExecute (q : Db -> Db) : M Vars unit :=
  v <- get ;; execute (db v) q.

(** The two CREATE TABLE IF NOT EXISTS statements leave existing tables
    as they are; a fresh database file has both tables empty. *)
Definition initDatabase : M Vars bool :=
  load ;;;
  modify (set_db true) ;;;
  dbExecute (fun d => d) ;;;
  dbExecute (fun d => d) ;;;
  v <- get ;; ret (db v).

Definition getHabits (now : Date) : M Vars (list Habit) :=
  habitRows <- dbSelect select_habits ;;
  let today := beforeT (toISOString now) in
  masterRows <- dbSelect (select_master_like (dayPattern today)) ;;
  ret (mergeHabits habitRows masterRows).

Definition printTables : M Vars unit :=
  try_catch (dbSelect select_habits ;;; dbSelect select_master ;;; ret tt).

Definition onMount (now : Date) : M Vars unit :=
  try_catch (
    h <- initDatabase ;;
    modify (set_db h) ;;;
    hs <- getHabits now ;;
    modify (set_habits hs) ;;;
    printTables).

Definition toggleHabit (hid : Z) (now : Date) : M Vars unit :=
  v <- get ;;
  match findIndex (fun h => (id h =? hid)%Z) (habits v) with
  | None => ret tt
  | Some habitIndex =>
      let currentDate := toISOString now in
      let today := beforeT currentDate in
      masterRecords <- dbSelect (select_master_of hid (dayPattern today)) ;;
      updatedCompleted <-
        match masterRecords with
        | m :: _ =>
            let currentStatus := Boolean (m_completed m) in
            let updatedCompleted := negb currentStatus in
            dbExecute (update_master (if updatedCompleted then 1 else 0)
                                     currentDate (m_id m)) ;;;
            ret updatedCompleted
        | [] =>
            dbExecute (insert_master hid 1 currentDate) ;;;
            ret true
        end ;;
      v <- get ;;
      match nth_error (habits v) habitIndex with
      | None => throw TypeError
      | Some h =>
          let newStreak :=
            if updatedCompleted then (streak h + 1)%Z
            else Z.max (streak h - 1) 0 in
          dbExecute (update_streak newStreak hid) ;;;
          modify (fun v =>
            match nth_error (habits v) habitIndex with
            | Some h =>
                set_habits
                  (setAt habitIndex
                         (mkHabit (id h) (name h) newStreak updatedCompleted)
                         (habits v)) v
            | None => v
            end) ;;;
          printTables
      end
  end.

Definition addHabit (now : Date) : M Vars unit :=
  v <- get ;;
  if negb (truthy (trim (newHabitName v))) then ret tt
  else
    try_catch (
      dbExecute (insert_habit (trim (newHabitName v)) 0) ;;;
      hs <- getHabits now ;;
      modify (set_habits hs) ;;;
      modify (set_newHabitName []) ;;;
      modify (set_isAddingHabit false) ;;;
      printTables).

(** [answer] is what the user replies to the [confirm] dialog. *)
Definition deleteHabit (hid : Z) (answer : bool) : M Vars unit :=
  if answer then
    try_catch (
      dbExecute (delete_habit hid) ;;;
      dbExecute (delete_master_of hid) ;;;
      modify (fun v =>
        set_habits (filter (fun h => negb (id h =? hid)%Z) (habits v)) v) ;;;
      printTables)
  else ret tt.

End Today.

(* ===================================================================== *)
(** ** The history page, [src/routes/previous-days/+page.svelte] *)
(* ===================================================================== *)

Module History.
Import Js Sql.

Record Vars := mkVars {
  db : bool;
  habitsForDate : list Habit;
  selectedDate : jsstring
}.

(** [selectedDate] starts as the day of the clock. *)
Definition initial (now : Date) : Vars :=
  mkVars false [] (beforeT (toISOString now)).

Definition set_db (b : bool) (v : Vars) : Vars :=
  mkVars b (habitsForDate v) (selectedDate v).
Definition set_habitsForDate (hs : list Habit) (v : Vars) : Vars :=
  mkVars (db v) hs (selectedDate v).
Definition set_selectedDate (s : jsstring) (v : Vars) : Vars :=
  mkVars (db v) (habitsForDate v) s.

Definition dbSelect {A} (q : Db -> A) : M Vars A :=
  v <- get ;; select (db v) q.
Definition dbExecute (q : Db -> Db) : M Vars unit :=
  v <- get ;; execute (db v) q.

Definition initDatabase : M Vars bool :=
  load ;;;
  modify (set_db true) ;;;
  dbExecute (fun d => d) ;;;
  dbExecute (fun d => d) ;;;
  v <- get ;; ret (db v).

Definition getHabitsForDate (date : jsstring) : M Vars (list Habit) :=
  habitRows <- dbSelect select_habits ;;
  masterRows <- dbSelect (select_master_like (dayPattern date)) ;;
  ret (mergeHabits habitRows masterRows).

Definition fetchHabits : M Vars unit :=
  v <- get ;;
  if negb (db v) then ret tt
  else
    hs <- getHabitsForDate (selectedDate v) ;;
    modify (set_habitsForDate hs).

Definition onMount : M Vars unit :=
  try_catch (
    h <- initDatabase ;;
    modify (set_db h) ;;;
    fetchHabits).

(** [value] is the value of the date input.  The handler is not [async]:
    it stores the date, starts [fetchHabits()] without awaiting it and
    returns.  The state after the action is the state once that listing
    has settled. *)
Definition handleDateChange (value : jsstring) : M Vars unit :=
  modify (set_selectedDate value) ;;;
  detached fetchHabits.

(** [new Date(selectedDate).toISOString()] *)
Definition isoOfSelected (s : jsstring) : M Vars jsstring :=
  match parseDate s with
  | Some d => ret (toISOString d)
  | None => throw RangeError
  end.

Definition toggleHabit (hid : Z) : M Vars unit :=
  v <- get ;;
  match findIndex (fun h => (id h =? hid)%Z) (habitsForDate v) with
  | None => ret tt
  | Some habitIndex =>
      currentDate <- isoOfSelected (selectedDate v) ;;
      let datePrefix := selectedDate v in
      masterRecords <-
        dbSelect (select_master_of hid (dayPattern datePrefix)) ;;
      updatedCompleted <-
        match masterRecords with
        | m :: _ =>
            let currentStatus := Boolean (m_completed m) in
            let updatedCompleted := negb currentStatus in
            dbExecute (update_master (if updatedCompleted then 1 else 0)
                                     currentDate (m_id m)) ;;;
            ret updatedCompleted
        | [] =>
            dbExecute (insert_master hid 1 currentDate) ;;;
            ret true
        end ;;
      v <- get ;;
      match nth_error (habitsForDate v) habitIndex with
      | None => throw TypeError
      | Some habit =>
          let newStreak :=
            if updatedCompleted then (streak habit + 1)%Z
            else Z.max (streak habit - 1) 0 in
          dbExecute (update_streak newStreak hid) ;;;
          modify (fun v =>
            match nth_error (habitsForDate v) habitIndex with
            | Some h =>
                set_habitsForDate
                  (setAt habitIndex
                         (mkHabit (id h) (name h) newStreak updatedCompleted)
                         (habitsForDate v)) v
            | None => v
            end)
      end
  end.

End History.

(* ===================================================================== *)
(** ** The derived progress figures of both pages *)
(* ===================================================================== *)

Module Progress.
Section Doubles.

(** The percentage is computed on doubles.  An arithmetic operation
    returns the exact result rounded to a double: [round]. *)
Variable round : Q -> Q.

(** [habits.filter((habit) => habit.completed).length] *)
Definition completedCount (habits : list Habit) : nat :=
  length (filter completed habits).

Definition number (n : nat) : Q := inject_Z (Z.of_nat n).

(** [a / b].  A zero divisor gives NaN or an infinity, not a number of
    the scale: [None]. *)
Definition divide (a b : Q) : option Q :=
  if Qeq_bool b 0 then None else Some (round (a / b)).

Definition times (a b : Q) : Q := round (a * b).

(** [habits.length ? (completedCount / habits.length) * 100 : 0] *)
Definition progressPercent (habits : list Habit) : option Q :=
  if (length habits =? 0)%nat then Some 0
  else
    match divide (number (completedCount habits))
                 (number (length habits)) with
    | Some ratio => Some (times ratio 100)
    | None => None
    end.

End Doubles.
End Progress.

(* ===================================================================== *)
(** ** What the progress bar shows *)
(* ===================================================================== *)

Module Display.

(** The class of the progress bar. *)
Definition progressColor (progressPercent : Q) : string :=
  if Qle_bool 80 progressPercent then "bg-green-500"%string
  else if Qle_bool 50 progressPercent then "bg-blue-500"%string
  else if Qle_bool 30 progressPercent then "bg-yellow-500"%string
  else "bg-red-500"%string.

(** [Math.round(x)]: the integer nearest to [x], a tie going up. *)
Definition mathRound (x : Q) : Z := Qfloor (x + (1 # 2)).

End Display.

(* ===================================================================== *)
(** ** The application: one database file, one page mounted at a time *)
(* ===================================================================== *)

Module App.

Inductive Page : Type :=
| OnToday (v : Today.Vars)
| OnHistory (v : History.Vars).

Record State := mkState { file : Sql.Db; page : Page }.

(** A fresh install: an empty database file, the today page not yet
    mounted. *)
Definition init : State := mkState Sql.empty (OnToday Today.initial).

(** What the user and the router can do.  [now] is the clock when the
    action runs, [fs] the outcomes of its store calls. *)
Inductive Op : Type :=
| VisitToday (now : Js.Date) (fs : list bool)
| ShowForm
| TypeName (s : Js.jsstring)
| CancelForm
| AddHabit (now : Js.Date) (fs : list bool)
| ToggleToday (hid : Z) (now : Js.Date) (fs : list bool)
| DeleteHabit (hid : Z) (answer : bool) (fs : list bool)
| VisitHistory (now : Js.Date) (fs : list bool)
| PickDate (value : Js.jsstring) (fs : list bool)
| ToggleHistory (hid : Z) (fs : list bool).

Definition runToday (m : M Today.Vars unit) (fs : list bool)
                    (f : Sql.Db) (v : Today.Vars) : State :=
  let w := snd (exec m fs (mkWorld f v)) in
  mkState (disk w) (OnToday (vars w)).

Definition runHistory (m : M History.Vars unit) (fs : list bool)
                      (f : Sql.Db) (v : History.Vars) : State :=
  let w := snd (exec m fs (mkWorld f v)) in
  mkState (disk w) (OnHistory (vars w)).

(** An action of a page that is not mounted cannot be triggered. *)
Definition step (s : State) (op : Op) : State :=
  match op, page s with
  | VisitToday now fs, _ =>
      runToday (Today.onMount now) fs (file s) Today.initial
  | VisitHistory now fs, _ =>
      runHistory History.onMount fs (file s) (History.initial now)
  | ShowForm, OnToday v =>
      mkState (file s) (OnToday (Today.set_isAddingHabit true v))
  | TypeName n, OnToday v =>
      mkState (file s) (OnToday (Today.set_newHabitName n v))
  | CancelForm, OnToday v =>
      mkState (file s)
        (OnToday (Today.set_newHabitName [] (Today.set_isAddingHabit false v)))
  | AddHabit now fs, OnToday v =>
      runToday (Today.addHabit now) fs (file s) v
  | ToggleToday hid now fs, OnToday v =>
      runToday (Today.toggleHabit hid now) fs (file s) v
  | DeleteHabit hid answer fs, OnToday v =>
      runToday (Today.deleteHabit hid answer) fs (file s) v
  | PickDate value fs, OnHistory v =>
      runHistory (History.handleDateChange value) fs (file s) v
  | ToggleHistory hid fs, OnHistory v =>
      runHistory (History.toggleHabit hid) fs (file s) v
  | _, _ => s
  end.

Definition run (ops : list Op) (s : State) : State := fold_left step ops s.

(** The outcomes of the store calls an action is given. *)
Definition outcomes (op : Op) : list bool :=
  match op with
  | VisitToday _ fs | AddHabit _ fs | ToggleToday _ _ fs
  | DeleteHabit _ _ fs | VisitHistory _ fs | PickDate _ fs
  | ToggleHistory _ fs => fs
  | ShowForm | TypeName _ | CancelForm => []
  end.

(** The connection handle of the mounted page is set. *)
Definition loaded (s : State) : bool :=
  match page s with
  | OnToday v => Today.db v
  | OnHistory v => History.db v
  end.

(** The habits the mounted page shows. *)
Definition shown (s : State) : list Habit :=
  match page s with
  | OnToday v => Today.habits v
  | OnHistory v => History.habitsForDate v
  end.

End App.

(* ===================================================================== *)
(** ** A sample run *)
(* ===================================================================== *)

Module Sample.

Definition morning : Js.Date := Js.mkDate 2025 4 14 9 30 15 123.
Definition evening : Js.Date := Js.mkDate 2025 4 14 18 0 0 7.
Definition nextDay : Js.Date := Js.mkDate 2025 4 15 8 0 0 0.

(** The today page mounted on a fresh install. *)
Definition mounted : World Today.Vars :=
  snd (exec (Today.onMount morning) [] (mkWorld Sql.empty Today.initial)).

Definition typed (s : string) (w : World Today.Vars) : World Today.Vars :=
  mkWorld (disk w) (Today.set_newHabitName (Js.lit s) (vars w)).

(** Two habits added: 1 "Drink water" and 2 "Read". *)
Definition added : World Today.Vars :=
  snd (exec (Today.addHabit morning) []
         (typed "Read"
            (snd (exec (Today.addHabit morning) []
                    (typed "  Drink water " mounted))))).

(** Habit 1 toggled in the morning. *)
Definition toggled : World Today.Vars :=
  snd (exec (Today.toggleHabit 1 morning) [] added).

(** Habit 1 deleted with the second write of the delete failing: its row
    is gone, its entry is still on the page. *)
Definition halfDeleted : World Today.Vars :=
  snd (exec (Today.deleteHabit 1 true) [false; true] added).

(** The history page mounted the next day on the same file. *)
Definition history : World History.Vars :=
  snd (exec History.onMount []
         (mkWorld (disk toggled) (History.initial nextDay))).

(** The date input set to a day. *)
Definition picked (s : string) : World History.Vars :=
  snd (exec (History.handleDateChange (Js.lit s)) [] history).

(** The rounding that keeps three decimals. *)
Definition milli (x : Q) : Q := Qfloor (x * 1000) # 1000.

End Sample.

(* ===================================================================== *)
(** ** Vocabulary of the statements *)
(* ===================================================================== *)

Import Js Sql.

(** The code units of a calendar day [YYYY-MM-DD]: digits and dashes. *)
Definition plain (c : N) : bool :=
  ((code_0 <=? c) && (c <=? code_0 + 9) || (c =? code_dash))%N.

Definition plainDay (s : jsstring) : bool := forallb plain s.

(** A valid date string, the non-empty value of a date input. *)
Definition isDay (s : jsstring) : bool :=
  match parseDate s with Some _ => true | None => false end.

(** The stored date of a master row starts with the text of the day. *)
Definition onDay (day : jsstring) (m : MasterRow) : bool :=
  startsWith day (m_date m).

(** The day's record of a habit: the first master row of the habit whose
    date starts with the day. *)
Definition recordOf (hid : Z) (day : jsstring) (d : Db) : option MasterRow :=
  find (fun m => (m_habit_id m =? hid)%Z && onDay day m) (master_tbl d).

(** The completion flag of a habit on a day, as a listing of that day
    shows it. *)
Definition completedOn (hid : Z) (day : jsstring) (d : Db) : bool :=
  match recordOf hid day d with
  | Some m => Boolean (m_completed m)
  | None => false
  end.

(** The stored streak of a habit. *)
Definition streakOf (hid : Z) (d : Db) : option Z :=
  option_map h_streak (find (fun h => (h_id h =? hid)%Z) (habits_tbl d)).

(** The entry of a habit in the list a page shows. *)
Definition shownAs (hid : Z) (hs : list Habit) : option Habit :=
  find (fun h => (id h =? hid)%Z) hs.

(** The streak after a toggle that left the day's flag at [flag]. *)
Definition adjust (flag : bool) (s : Z) : Z :=
  if flag then (s + 1)%Z else Z.max (s - 1) 0.

(** What a toggle does to the master table: the day's record, when there
    is one, is rewritten in place with the flag flipped and the new stamp;
    otherwise one row is appended with the flag set. *)
Definition recordToggled (hid : Z) (day stamp : jsstring) (f f' : Db) : Prop :=
  match recordOf hid day f with
  | Some m =>
      master_tbl f' =
        map (fun r => if (m_id r =? m_id m)%Z
                      then mkMasterRow (m_id r) (m_habit_id r)
                             (if Boolean (m_completed m) then 0 else 1)%Z
                             (m_completed_repeats r) stamp
                      else r) (master_tbl f)
      /\ length (master_tbl f') = length (master_tbl f)
  | None =>
      master_tbl f' =
        master_tbl f ++ [mkMasterRow (master_seq f + 1) hid 1 0 stamp]
  end.

(** Streaks are never negative, in the store and on the page. *)
Definition streaksOk (f : Db) (hs : list Habit) : Prop :=
  Forall (fun r => (0 <= h_streak r)%Z) (habits_tbl f)
  /\ Forall (fun h => (0 <= streak h)%Z) hs.

(** No id is ahead of the AUTOINCREMENT counter of the habits table. *)
Definition idsIssued (f : Db) (hs : list Habit) : Prop :=
  Forall (fun r => (h_id r <= habits_seq f)%Z) (habits_tbl f)
  /\ Forall (fun m => (m_habit_id m <= habits_seq f)%Z) (master_tbl f)
  /\ Forall (fun h => (id h <= habits_seq f)%Z) hs.

(** The two facts every run keeps, whatever the store answers. *)
Definition sound (f : Db) (hs : list Habit) : Prop :=
  streaksOk f hs /\ idsIssued f hs.

(** Every master row belongs to a stored habit. *)
Definition noOrphans (f : Db) : Prop :=
  forall m, In m (master_tbl f) -> In (m_habit_id m) (map h_id (habits_tbl f)).

(** The constraints of the schema and what the pages add to them: primary
    keys are distinct, the keys of master are behind its counter, and no
    master row is an orphan. *)
Definition storeOk (f : Db) : Prop :=
  NoDup (map h_id (habits_tbl f))
  /\ NoDup (map m_id (master_tbl f))
  /\ Forall (fun m => (m_id m <= master_seq f)%Z) (master_tbl f)
  /\ noOrphans f.

(** The page lists the stored habits, row by row. *)
Definition showsStore (f : Db) (hs : list Habit) : Prop :=
  map (fun h => (id h, name h, streak h)) hs
  = map (fun r => (h_id r, h_name r, h_streak r)) (habits_tbl f).

(** A habits row as a page shows it when the day has no record of it. *)
Definition unchecked (r : HabitRow) : Habit :=
  mkHabit (h_id r) (h_name r) (h_streak r) false.

(** The store after the record write of a toggle. *)
Definition recordWritten (hid : Z) (day stamp : jsstring) (f : Db) : Db :=
  match recordOf hid day f with
  | Some m =>
      update_master (if negb (Boolean (m_completed m)) then 1 else 0)%Z
                    stamp (m_id m) f
  | None => insert_master hid 1 stamp f
  end.

(** The list of a page after a toggle rewrote entry [i]. *)
Definition entryWritten (i : nat) (h : Habit) (flag : bool) (hs : list Habit)
  : list Habit :=
  setAt i (mkHabit (id h) (name h) (adjust flag (streak h)) flag) hs.

(** The frame of a toggle of habit [hid] that moved a store from [f] to
    [f']: the records of another day [day2], the rows and the records of
    the other habits are the same, and the one streak of the habit went
    from [s] to [adjust flag s]. *)
Definition toggleFrame (hid : Z) (day2 : jsstring) (s : Z) (flag : bool)
                       (f f' : Db) : Prop :=
  (forall k, completedOn k day2 f' = completedOn k day2 f)
  /\ filter (onDay day2) (master_tbl f') = filter (onDay day2) (master_tbl f)
  /\ filter (fun r => negb (h_id r =? hid)%Z) (habits_tbl f')
     = filter (fun r => negb (h_id r =? hid)%Z) (habits_tbl f)
  /\ filter (fun m => negb (m_habit_id m =? hid)%Z) (master_tbl f')
     = filter (fun m => negb (m_habit_id m =? hid)%Z) (master_tbl f)
  /\ (streakOf hid f <> None -> streakOf hid f' = Some (adjust flag s)).

(** A pair of toggles of habit [hid] on [day] that moved a store from [f]
    to [f'] and a list of the page to [hs'], seen from the entry [h] the
    page showed before: flag and streak are back. *)
Definition pairRestores (hid : Z) (day : jsstring) (h : Habit)
                        (f f' : Db) (hs' : list Habit) : Prop :=
  completedOn hid day f' = completedOn hid day f
  /\ streakOf hid f' = streakOf hid f
  /\ shownAs hid hs'
     = Some (mkHabit (id h) (name h) (streak h) (completedOn hid day f)).

(** The invariant, on the world of each page. *)
Definition todaySound (w : World Today.Vars) : Prop :=
  sound (disk w) (Today.habits (vars w)).

Definition historySound (w : World History.Vars) : Prop :=
  sound (disk w) (History.habitsForDate (vars w)).

(** Weakest precondition of a computation: whatever the store answers,
    returning establishes [Q] and throwing establishes [E]. *)
Definition wp {V A} (m : M V A) (Q : A -> World V -> Prop)
                    (E : World V -> Prop) (w : World V) : Prop :=
  forall fs,
    match m fs w with
    | (Ok a, _, w') => Q a w'
    | (Throw _, _, w') => E w'
    end.

(* ===================================================================== *)
(** ** Vocabulary of the further properties *)
(* ===================================================================== *)

(** What a predicate on the database file and on the list of a page must
    satisfy to be kept by every action of both pages: it is closed under
    each write the pages make, in the circumstances in which they make
    it. *)
Record Kept (I : Db -> list Habit -> Prop) : Prop := mkKept {
  kept_nil : forall f hs, I f hs -> I f [];
  kept_list : forall f hs ms,
    I f hs -> I f (mergeHabits (select_habits f) ms);
  kept_filter : forall f hs p, I f hs -> I f (filter p hs);
  kept_insert_habit : forall f hs s,
    I f hs -> trim s <> [] -> I (insert_habit (trim s) 0 f) hs;
  kept_delete_habit : forall f hs hid,
    I f hs -> I (delete_habit hid f) hs;
  kept_delete_master : forall f hs hid,
    I f hs -> I (delete_master_of hid f) hs;
  kept_record : forall f hs hid i day stamp,
    I f hs ->
    findIndex (fun x => (id x =? hid)%Z) hs = Some i ->
    plainDay day = true -> length day = 10%nat ->
    startsWith day stamp = true ->
    I (recordWritten hid day stamp f) hs;
  kept_streak : forall f hs hid i h flag,
    I f hs ->
    findIndex (fun x => (id x =? hid)%Z) hs = Some i ->
    nth_error hs i = Some h ->
    I (update_streak (adjust flag (streak h)) hid f)
      (entryWritten i h flag hs)
}.

(** The first code unit of a string is there and is not white space. *)
Definition firstOk (s : jsstring) : bool :=
  match s with [] => false | c :: _ => negb (isWhiteSpace c) end.

(** A name as [trim] leaves it when something is left: not empty, and
    without white space at either end. *)
Definition trimmedName (s : jsstring) : bool := firstOk s && firstOk (rev s).

Definition namesOk (f : Db) (hs : list Habit) : Prop :=
  Forall (fun r => trimmedName (h_name r) = true) (habits_tbl f)
  /\ Forall (fun h => trimmedName (name h) = true) hs.

(** The primary keys of both tables are distinct and those of master are
    behind its counter. *)
Definition keysOk (f : Db) : Prop :=
  NoDup (map h_id (habits_tbl f))
  /\ NoDup (map m_id (master_tbl f))
  /\ Forall (fun m => (m_id m <= master_seq f)%Z) (master_tbl f).

(** The habit of a master row and the first ten code units of its date,
    the place of the calendar day in a timestamp. *)
Definition dayKey (m : MasterRow) : Z * jsstring :=
  (m_habit_id m, firstn 10 (m_date m)).

(** No two master rows have the same habit and the same day. *)
Definition onePerDay (f : Db) : Prop := NoDup (map dayKey (master_tbl f)).

Definition orderly (f : Db) (hs : list Habit) : Prop :=
  sound f hs /\ namesOk f hs /\ keysOk f /\ onePerDay f.

(** The id [k] has been issued (it is not above [K], itself not above the
    counter) and no habit has it. *)
Definition gone (K k : Z) (f : Db) (hs : list Habit) : Prop :=
  (k <= K)%Z /\ (K <= habits_seq f)%Z /\ ~ In k (map h_id (habits_tbl f)).

(** A value of the date input: a day [YYYY-MM-DD] or the empty string. *)
Definition dateValue (s : jsstring) : bool :=
  isDay s || match s with [] => true | _ :: _ => false end.

(** The date an action picks, when it picks one, is a value of the date
    input. *)
Definition fromDateInput (op : App.Op) : bool :=
  match op with
  | App.PickDate value _ => dateValue value
  | _ => true
  end.

(** The number of days recorded as completed for a habit. *)
Definition completedDays (hid : Z) (f : Db) : Z :=
  Z.of_nat
    (length (filter (fun m => (m_habit_id m =? hid)%Z
                              && Boolean (m_completed m))
                    (master_tbl f))).

(** Every stored streak is the number of completed days of its habit. *)
Definition streakCounts (f : Db) : Prop :=
  Forall (fun r => h_streak r = completedDays (h_id r) f) (habits_tbl f).

(** The list of a day: every habits row with the day's flag. *)
Definition listing (f : Db) (day : jsstring) : list Habit :=
  map (fun r => mkHabit (h_id r) (h_name r) (h_streak r)
                        (completedOn (h_id r) day f))
      (habits_tbl f).

(* ===================================================================== *)
(** ** Strings, days and LIKE *)
(* ===================================================================== *)

Unset Implicit Arguments.

(** Boolean tests on code units, turned into arithmetic facts. *)
Ltac unbool :=
  repeat match goal with
         | H : (_ && _) = true |- _ => apply andb_true_iff in H; destruct H
         | H : (_ || _) = true |- _ => apply orb_true_iff in H; destruct H
         | H : (_ && _) = false |- _ => apply andb_false_iff in H; destruct H
         | H : (_ || _) = false |- _ => apply orb_false_iff in H; destruct H
         | H : negb _ = true |- _ => apply negb_true_iff in H
         | H : negb _ = false |- _ => apply negb_false_iff in H
         | H : (_ <=? _)%N = true |- _ => apply N.leb_le in H
         | H : (_ <=? _)%N = false |- _ => apply N.leb_gt in H
         | H : (_ =? _)%N = true |- _ => apply N.eqb_eq in H
         | H : (_ =? _)%N = false |- _ => apply N.eqb_neq in H
         end.

Lemma startsWith_app (p r : jsstring) : startsWith p (p ++ r) = true.
Proof.
  induction p as [|c p IH]; simpl; [reflexivity|].
  now rewrite N.eqb_refl, IH.
Qed.

Lemma startsWith_firstn (p s : jsstring) :
  startsWith p s = true <-> firstn (length p) s = p.
Proof.
  revert s; induction p as [|c p IH]; intros [|x s]; simpl; try easy.
  rewrite andb_true_iff, N.eqb_eq, IH. split.
  - intros [-> ->]. reflexivity.
  - intros H. injection H as -> H. now rewrite H.
Qed.

(** Two prefixes of one string that have the same length are equal. *)
Lemma startsWith_same_length (a b s : jsstring) :
  startsWith a s = true -> startsWith b s = true ->
  length a = length b -> a = b.
Proof.
  rewrite !startsWith_firstn. intros Ha Hb Hl.
  rewrite <- Ha, <- Hb, Hl. reflexivity.
Qed.

Lemma upper_plain (c x : N) :
  plain c = true -> (upper c =? upper x)%N = (c =? x)%N.
Proof.
  unfold plain, upper, code_0, code_dash. intros H.
  destruct (N.eqb_spec c x) as [->|Hne].
  - apply N.eqb_refl.
  - apply N.eqb_neq.
    repeat match goal with
           | |- context [if ?b then _ else _] => destruct b eqn:?
           end; unbool; lia.
Qed.

Lemma plain_not_wildcard (c : N) :
  plain c = true ->
  (c =? code_percent)%N = false /\ (c =? code_underscore)%N = false.
Proof.
  unfold plain, code_percent, code_underscore, code_0, code_dash.
  intros H. split; apply N.eqb_neq; unbool; lia.
Qed.

Lemma like_percent (s : jsstring) : like [code_percent] s = true.
Proof.
  induction s as [|x s IH]; [reflexivity|].
  simpl in *. exact IH.
Qed.

(** On a pattern made of a plain day and a final "%", LIKE is the test
    that the text starts with the day. *)
Lemma like_dayPattern (p s : jsstring) :
  plainDay p = true -> like (dayPattern p) s = startsWith p s.
Proof.
  unfold plainDay, dayPattern. revert s.
  induction p as [|c p IH]; intros s Hp.
  - apply like_percent.
  - simpl in Hp. apply andb_true_iff in Hp as [Hc Hp].
    destruct (plain_not_wildcard c Hc) as [H1 H2].
    change ((c :: p) ++ [code_percent]) with (c :: (p ++ [code_percent])).
    cbn [like startsWith]. rewrite H1.
    destruct s as [|x s]; [reflexivity|].
    rewrite H2, (upper_plain c x Hc), IH by assumption. reflexivity.
Qed.

Lemma digit_plain (n : N) : plain (digit n) = true.
Proof.
  unfold plain, digit, code_0, code_dash.
  assert (n mod 10 < 10)%N as Hlt by (apply N.mod_upper_bound; lia).
  revert Hlt. generalize (n mod 10)%N. intros k Hlt.
  apply orb_true_iff; left. apply andb_true_iff; split; apply N.leb_le; lia.
Qed.

Lemma isoDay_plain (d : Date) : plainDay (isoDay d) = true.
Proof.
  unfold plainDay, isoDay, pad4, pad3, pad2. simpl.
  rewrite !digit_plain. reflexivity.
Qed.

Lemma isoDay_length (d : Date) : length (isoDay d) = 10%nat.
Proof. reflexivity. Qed.

Lemma beforeT_plain (p r : jsstring) :
  plainDay p = true -> beforeT (p ++ code_T :: r) = p.
Proof.
  unfold plainDay. induction p as [|c p IH]; simpl; intros Hp.
  - reflexivity.
  - apply andb_true_iff in Hp as [Hc Hp].
    assert ((c =? code_T)%N = false) as ->.
    { apply N.eqb_neq. unfold plain, code_0, code_dash, code_T in *.
      unbool; lia. }
    now rewrite IH.
Qed.

(** The day the today page works on is the calendar day of the clock. *)
Lemma beforeT_toISOString (d : Date) : beforeT (toISOString d) = isoDay d.
Proof. apply beforeT_plain, isoDay_plain. Qed.

Lemma startsWith_toISOString (d : Date) :
  startsWith (isoDay d) (toISOString d) = true.
Proof. apply startsWith_app. Qed.

(** Printing what was read: the digits of a number below ten thousand. *)
Lemma digits_of_sum (a b c d : N) :
  (a < 10 -> b < 10 -> c < 10 -> d < 10 ->
   let n := 1000 * a + 100 * b + 10 * c + d in
   (n / 1000) mod 10 = a /\ (n / 100) mod 10 = b /\
   (n / 10) mod 10 = c /\ n mod 10 = d)%N.
Proof.
  intros Ha Hb Hc Hd n. subst n.
  assert (forall x q r k : N, (k <> 0 -> r < k -> x = k * q + r ->
                               x / k = q)%N) as Hdiv.
  { intros x q r k Hk Hr ->. symmetry. now apply N.div_unique with r. }
  assert (forall x q r k : N, (k <> 0 -> r < k -> x = k * q + r ->
                               x mod k = r)%N) as Hmod.
  { intros x q r k Hk Hr ->. symmetry. now apply N.mod_unique with q. }
  rewrite (Hdiv _ a (100 * b + 10 * c + d) 1000)%N by lia.
  rewrite (Hdiv _ (10 * a + b) (10 * c + d) 100)%N by lia.
  rewrite (Hdiv _ (100 * a + 10 * b + c) d 10)%N by lia.
  rewrite (Hmod a 0 a 10)%N by lia.
  rewrite (Hmod (10 * a + b) a b 10)%N by lia.
  rewrite (Hmod (100 * a + 10 * b + c) (10 * a + b) c 10)%N by lia.
  rewrite (Hmod _ (100 * a + 10 * b + c) d 10)%N by lia.
  repeat split.
Qed.

Lemma digitValue_Some (c a : N) :
  digitValue c = Some a -> (c = code_0 + a /\ a < 10)%N.
Proof.
  unfold digitValue, code_0.
  destruct ((48 <=? c) && (c <=? 48 + 9))%N eqn:E; [|discriminate].
  intros [= <-]. unbool. lia.
Qed.

Lemma pad4_digits (a b c d : N) :
  (a < 10 -> b < 10 -> c < 10 -> d < 10 ->
   pad4 (1000 * a + 100 * b + 10 * c + d)
   = [code_0 + a; code_0 + b; code_0 + c; code_0 + d])%N.
Proof.
  intros Ha Hb Hc Hd.
  destruct (digits_of_sum a b c d Ha Hb Hc Hd) as (H1 & H2 & H3 & H4).
  unfold pad4, pad3, pad2, digit. rewrite H1, H2, H3, H4. reflexivity.
Qed.

Lemma pad2_digits (a b : N) :
  (a < 10 -> b < 10 -> pad2 (10 * a + b) = [code_0 + a; code_0 + b])%N.
Proof.
  intros Ha Hb. unfold pad2, digit.
  assert ((10 * a + b) / 10 = a)%N as ->.
  { symmetry. apply N.div_unique with b; [assumption|reflexivity]. }
  assert ((10 * a + b) mod 10 = b)%N as ->.
  { symmetry. apply N.mod_unique with a; [assumption|reflexivity]. }
  rewrite N.mod_small by assumption. reflexivity.
Qed.

(** A valid date string is read as midnight UTC of its day, and printing
    that instant gives the string back, followed by the time. *)
Lemma parseDate_Some (s : jsstring) (d : Date) :
  parseDate s = Some d ->
  isoDay d = s /\ toISOString d = s ++ lit "T00:00:00.000Z" /\
  plainDay s = true /\ length s = 10%nat.
Proof.
  unfold parseDate.
  destruct s as [|y1 [|y2 [|y3 [|y4 [|s1 [|m1 [|m2 [|s2 [|d1 [|d2 [|? ?]]]]]]]]]]];
    try discriminate.
  destruct (digitValue y1) as [a|] eqn:Ey1; [|discriminate].
  destruct (digitValue y2) as [b|] eqn:Ey2; [|discriminate].
  destruct (digitValue y3) as [c|] eqn:Ey3; [|discriminate].
  destruct (digitValue y4) as [e|] eqn:Ey4; [|discriminate].
  destruct (digitValue m1) as [f|] eqn:Em1; [|discriminate].
  destruct (digitValue m2) as [g|] eqn:Em2; [|discriminate].
  destruct (digitValue d1) as [h|] eqn:Ed1; [|discriminate].
  destruct (digitValue d2) as [i|] eqn:Ed2; [|discriminate].
  cbv zeta.
  remember (1000 * a + 100 * b + 10 * c + e)%N as yy eqn:Hyy.
  remember (10 * f + g)%N as mm eqn:Hmm.
  remember (10 * h + i)%N as dd eqn:Hdd.
  match goal with |- (if ?t then _ else _) = _ -> _ => destruct t eqn:Hc end;
    [|discriminate].
  intros [= <-]. subst yy mm dd.
  apply digitValue_Some in Ey1 as [-> Ha], Ey2 as [-> Hb], Ey3 as [-> Hc3],
    Ey4 as [-> He], Em1 as [-> Hf], Em2 as [-> Hg], Ed1 as [-> Hh],
    Ed2 as [-> Hi].
  apply andb_true_iff in Hc as [Hc _]. apply andb_true_iff in Hc as [Hc _].
  apply andb_true_iff in Hc as [Hc _]. apply andb_true_iff in Hc as [Hc _].
  apply andb_true_iff in Hc as [Hs1 Hs2].
  apply N.eqb_eq in Hs1, Hs2. subst s1 s2.
  assert (isoDay (mkDate (1000 * a + 100 * b + 10 * c + e) (10 * f + g)
                         (10 * h + i) 0 0 0 0)
          = [code_0 + a; code_0 + b; code_0 + c; code_0 + e; code_dash;
             code_0 + f; code_0 + g; code_dash; code_0 + h; code_0 + i]%N)
    as Hday.
  { unfold isoDay. cbn [year month day].
    rewrite pad4_digits, !pad2_digits by assumption. reflexivity. }
  split; [exact Hday|]. split.
  - unfold toISOString. rewrite Hday. reflexivity.
  - split; [|reflexivity].
    rewrite <- Hday. apply isoDay_plain.
Qed.

Lemma isDay_plain (s : jsstring) : isDay s = true -> plainDay s = true.
Proof.
  unfold isDay. destruct (parseDate s) as [d|] eqn:E; [|discriminate].
  intros _. now apply parseDate_Some in E.
Qed.

Lemma isDay_length (s : jsstring) : isDay s = true -> length s = 10%nat.
Proof.
  unfold isDay. destruct (parseDate s) as [d|] eqn:E; [|discriminate].
  intros _. now apply parseDate_Some in E.
Qed.

(** A text cannot start with two different days. *)
Lemma two_days_apart (a b s : jsstring) :
  length a = 10%nat -> length b = 10%nat -> a <> b ->
  startsWith a s = true -> startsWith b s = false.
Proof.
  intros Ha Hb Hne Hs.
  destruct (startsWith b s) eqn:E; [|reflexivity].
  exfalso. apply Hne. apply startsWith_same_length with s; congruence.
Qed.

(* ===================================================================== *)
(** ** Lists and tables *)
(* ===================================================================== *)

Lemma firstn_1_filter {A} (p : A -> bool) (l : list A) :
  firstn 1 (filter p l) = match find p l with Some x => [x] | None => [] end.
Proof.
  induction l as [|x l IH]; simpl; [reflexivity|].
  destruct (p x); simpl; [reflexivity|exact IH].
Qed.

Lemma find_filter {A} (p q : A -> bool) (l : list A) :
  find p (filter q l) = find (fun x => q x && p x) l.
Proof.
  induction l as [|x l IH]; simpl; [reflexivity|].
  destruct (q x); simpl; [destruct (p x); auto|exact IH].
Qed.

Lemma find_ext {A} (p q : A -> bool) (l : list A) :
  (forall x, p x = q x) -> find p l = find q l.
Proof.
  intros H. induction l as [|x l IH]; simpl; [reflexivity|].
  rewrite H, IH. reflexivity.
Qed.

Lemma find_none_all {A} (p : A -> bool) (l : list A) :
  find p l = None <-> forall x, In x l -> p x = false.
Proof.
  split.
  - intros H x Hx. exact (find_none p l H x Hx).
  - induction l as [|x l IH]; simpl; intros H; [reflexivity|].
    rewrite (H x) by now left. apply IH. intros y Hy. apply H. now right.
Qed.

Lemma findIndex_find {A} (p : A -> bool) (l : list A) :
  match find p l with
  | Some x => exists i, findIndex p l = Some i /\ nth_error l i = Some x
  | None => findIndex p l = None
  end.
Proof.
  induction l as [|y l IH]; simpl; [reflexivity|].
  destruct (p y).
  - exists O. split; reflexivity.
  - destruct (find p l) as [x|].
    + destruct IH as (i & -> & Hi). exists (S i). split; [reflexivity|exact Hi].
    + now rewrite IH.
Qed.

Lemma findIndex_Some {A} (p : A -> bool) (l : list A) (i : nat) :
  findIndex p l = Some i ->
  exists x, nth_error l i = Some x /\ find p l = Some x /\ p x = true.
Proof.
  revert i. induction l as [|y l IH]; simpl; intros i; [discriminate|].
  destruct (p y) eqn:Ey.
  - intros [= <-]. exists y. auto.
  - destruct (findIndex p l) as [j|]; [|discriminate].
    intros [= <-]. destruct (IH j eq_refl) as (x & H1 & H2 & H3).
    exists x. auto.
Qed.

Lemma setAt_length {A} (i : nat) (x : A) (l : list A) :
  length (setAt i x l) = length l.
Proof.
  revert i. induction l as [|y l IH]; intros [|i]; simpl; auto.
Qed.

Lemma setAt_Forall {A} (P : A -> Prop) (i : nat) (x : A) (l : list A) :
  P x -> Forall P l -> Forall P (setAt i x l).
Proof.
  intros Hx Hl. revert i.
  induction Hl as [|y l Hy Hl IH]; intros [|i]; simpl; auto.
Qed.

(** Rewriting entry [i] keeps the index at which an id is found, as long
    as the new entry carries the id of the old one. *)
Lemma findIndex_setAt (hid : Z) (i : nat) (h h' : Habit) (hs : list Habit) :
  findIndex (fun x => (id x =? hid)%Z) hs = Some i ->
  nth_error hs i = Some h -> id h' = id h ->
  findIndex (fun x => (id x =? hid)%Z) (setAt i h' hs) = Some i
  /\ nth_error (setAt i h' hs) i = Some h'.
Proof.
  revert i. induction hs as [|y hs IH]; intros i; simpl; [discriminate|].
  destruct (id y =? hid)%Z eqn:Ey.
  - intros [= <-] [= <-] Hid. simpl. rewrite Hid, Ey. auto.
  - destruct (findIndex _ hs) as [j|] eqn:Ej; [|discriminate].
    intros [= <-] Hn Hid. simpl in *. rewrite Ey.
    destruct (IH j eq_refl Hn Hid) as [-> H2]. auto.
Qed.

(** With a plain day, the two SELECTs on master are prefix tests. *)
Lemma select_master_of_plain (hid : Z) (day : jsstring) (f : Db) :
  plainDay day = true ->
  select_master_of hid (dayPattern day) f
  = match recordOf hid day f with Some m => [m] | None => [] end.
Proof.
  intros Hp. unfold select_master_of, recordOf. rewrite firstn_1_filter.
  rewrite (find_ext _ (fun m => (m_habit_id m =? hid)%Z && onDay day m)).
  - reflexivity.
  - intros m. unfold onDay. now rewrite like_dayPattern.
Qed.

Lemma select_master_like_plain (day : jsstring) (f : Db) :
  plainDay day = true ->
  select_master_like (dayPattern day) f = filter (onDay day) (master_tbl f).
Proof.
  intros Hp. unfold select_master_like. apply filter_ext.
  intros m. unfold onDay. now apply like_dayPattern.
Qed.

(** The merged list of a day shows, for each row, the day's flag. *)
Lemma mergeHabits_completedOn (day : jsstring) (f : Db) :
  mergeHabits (habits_tbl f) (filter (onDay day) (master_tbl f))
  = map (fun r => mkHabit (h_id r) (h_name r) (h_streak r)
                          (completedOn (h_id r) day f)) (habits_tbl f).
Proof.
  unfold mergeHabits. apply map_ext. intros r.
  unfold completedOn, recordOf. rewrite find_filter.
  rewrite (find_ext _ (fun m => (m_habit_id m =? h_id r)%Z && onDay day m)).
  - reflexivity.
  - intros m. apply andb_comm.
Qed.

(* ===================================================================== *)
(** ** The actions on a store that answers every call *)
(* ===================================================================== *)

Arguments toISOString : simpl never.
Arguments isoDay : simpl never.
Arguments beforeT : simpl never.
Arguments like : simpl never.
Arguments dayPattern : simpl never.
Arguments select_master_of : simpl never.
Arguments select_master_like : simpl never.
Arguments update_master : simpl never.
Arguments insert_master : simpl never.
Arguments update_streak : simpl never.
Arguments insert_habit : simpl never.
Arguments delete_habit : simpl never.
Arguments delete_master_of : simpl never.
Arguments mergeHabits : simpl never.
Arguments trim : simpl never.
Arguments Z.max : simpl never.
Arguments Z.add : simpl never.

(** The today page: one toggle, all store calls answered. *)
Lemma today_toggle_reliable (hid : Z) (now : Date) (f : Db) (v : Today.Vars)
      (i : nat) (h : Habit) :
  Today.db v = true ->
  findIndex (fun x => (id x =? hid)%Z) (Today.habits v) = Some i ->
  nth_error (Today.habits v) i = Some h ->
  let day := isoDay now in
  let flag := negb (completedOn hid day f) in
  exec (Today.toggleHabit hid now) [] (mkWorld f v)
  = (Ok tt,
     mkWorld (update_streak (adjust flag (streak h)) hid
                (recordWritten hid day (toISOString now) f))
             (Today.set_habits (entryWritten i h flag (Today.habits v)) v)).
Proof.
  intros Hdb Hi Hh day flag. subst day flag.
  unfold exec, Today.toggleHabit, bind at 1, get at 1. cbn [vars].
  rewrite Hi. rewrite beforeT_toISOString.
  unfold Today.dbSelect, Today.dbExecute, Today.printTables, try_catch,
    select, execute, bind, get, call, modify, ret. cbn [vars disk].
  rewrite Hdb. cbn [vars disk].
  rewrite select_master_of_plain by apply isoDay_plain.
  unfold completedOn, recordWritten, entryWritten.
  destruct (recordOf hid (isoDay now) f) as [m|];
    repeat (cbn; rewrite ?Hdb, ?Hh).
  - destruct (Boolean (m_completed m)); reflexivity.
  - reflexivity.
Qed.

(** The history page: one toggle, all store calls answered. *)
Lemma history_toggle_reliable (hid : Z) (f : Db) (v : History.Vars)
      (i : nat) (h : Habit) (d : Date) :
  History.db v = true ->
  findIndex (fun x => (id x =? hid)%Z) (History.habitsForDate v) = Some i ->
  nth_error (History.habitsForDate v) i = Some h ->
  parseDate (History.selectedDate v) = Some d ->
  let day := History.selectedDate v in
  let flag := negb (completedOn hid day f) in
  exec (History.toggleHabit hid) [] (mkWorld f v)
  = (Ok tt,
     mkWorld (update_streak (adjust flag (streak h)) hid
                (recordWritten hid day (day ++ lit "T00:00:00.000Z") f))
             (History.set_habitsForDate
                (entryWritten i h flag (History.habitsForDate v)) v)).
Proof.
  intros Hdb Hi Hh Hd day flag. subst day flag.
  destruct (parseDate_Some _ _ Hd) as (_ & Hiso & Hplain & _).
  unfold exec, History.toggleHabit, bind at 1, get at 1. cbn [vars].
  rewrite Hi. unfold History.isoOfSelected. rewrite Hd, Hiso.
  unfold History.dbSelect, History.dbExecute, select, execute, bind, get,
    call, modify, ret. cbn [vars disk].
  rewrite Hdb. cbn [vars disk].
  rewrite select_master_of_plain by exact Hplain.
  unfold completedOn, recordWritten, entryWritten.
  destruct (recordOf hid (History.selectedDate v) f) as [m|];
    repeat (cbn; rewrite ?Hdb, ?Hh).
  - destruct (Boolean (m_completed m)); reflexivity.
  - reflexivity.
Qed.

(** Listing on the today page, all store calls answered. *)
Lemma today_getHabits_reliable (now : Date) (f : Db) (v : Today.Vars) :
  Today.db v = true ->
  exec (Today.getHabits now) [] (mkWorld f v)
  = (Ok (map (fun r => mkHabit (h_id r) (h_name r) (h_streak r)
                               (completedOn (h_id r) (isoDay now) f))
             (habits_tbl f)),
     mkWorld f v).
Proof.
  intros Hdb.
  unfold exec, Today.getHabits, Today.dbSelect, select, bind, get, call, ret.
  cbn [vars disk]. rewrite Hdb. cbn [vars disk]. rewrite Hdb.
  rewrite beforeT_toISOString.
  rewrite select_master_like_plain by apply isoDay_plain.
  unfold select_habits. now rewrite mergeHabits_completedOn.
Qed.

(** Listing on the history page, all store calls answered. *)
Lemma history_getHabitsForDate_reliable (day : jsstring) (f : Db)
      (v : History.Vars) :
  History.db v = true -> plainDay day = true ->
  exec (History.getHabitsForDate day) [] (mkWorld f v)
  = (Ok (map (fun r => mkHabit (h_id r) (h_name r) (h_streak r)
                               (completedOn (h_id r) day f))
             (habits_tbl f)),
     mkWorld f v).
Proof.
  intros Hdb Hp.
  unfold exec, History.getHabitsForDate, History.dbSelect, select, bind, get,
    call, ret.
  cbn [vars disk]. rewrite Hdb. cbn [vars disk]. rewrite Hdb.
  rewrite select_master_like_plain by exact Hp.
  unfold select_habits. now rewrite mergeHabits_completedOn.
Qed.

(** Adding on the today page, all store calls answered. *)
Lemma today_addHabit_reliable (now : Date) (f : Db) (v : Today.Vars) :
  Today.db v = true ->
  trim (Today.newHabitName v) <> [] ->
  let f' := insert_habit (trim (Today.newHabitName v)) 0 f in
  exec (Today.addHabit now) [] (mkWorld f v)
  = (Ok tt,
     mkWorld f'
       (Today.mkVars true
          (map (fun r => mkHabit (h_id r) (h_name r) (h_streak r)
                                 (completedOn (h_id r) (isoDay now) f'))
               (habits_tbl f'))
          [] false)).
Proof.
  intros Hdb Hne f'. subst f'.
  unfold exec, Today.addHabit, bind at 1, get at 1. cbn [vars].
  destruct (trim (Today.newHabitName v)) as [|c s] eqn:Et; [congruence|].
  cbn [truthy negb].
  unfold Today.getHabits, Today.printTables, Today.dbSelect, Today.dbExecute,
    try_catch, select, execute, bind, get, call, modify, ret.
  repeat (cbn; rewrite ?Hdb).
  rewrite beforeT_toISOString.
  rewrite select_master_like_plain by apply isoDay_plain.
  unfold select_habits. rewrite mergeHabits_completedOn.
  repeat (cbn; rewrite ?Hdb).
  unfold Today.set_isAddingHabit, Today.set_newHabitName, Today.set_habits.
  cbn. rewrite Hdb. reflexivity.
Qed.

(** Deleting on the today page once the user confirmed, all store calls
    answered. *)
Lemma today_deleteHabit_reliable (hid : Z) (f : Db) (v : Today.Vars) :
  Today.db v = true ->
  exec (Today.deleteHabit hid true) [] (mkWorld f v)
  = (Ok tt,
     mkWorld (delete_master_of hid (delete_habit hid f))
       (Today.set_habits
          (filter (fun h => negb (id h =? hid)%Z) (Today.habits v)) v)).
Proof.
  intros Hdb.
  unfold exec, Today.deleteHabit, Today.printTables, Today.dbSelect,
    Today.dbExecute, try_catch, select, execute, bind, get, call, modify, ret.
  repeat (cbn; rewrite ?Hdb). reflexivity.
Qed.

(* ===================================================================== *)
(** ** Reasoning about actions on a store that may fail *)
(* ===================================================================== *)

Section WpRules.
Context {V : Type}.
Implicit Types (w : World V) (E : World V -> Prop).

Lemma world_eta w : mkWorld (disk w) (vars w) = w.
Proof. now destruct w. Qed.

Lemma wp_ret {A} (a : A) (Q : A -> World V -> Prop) E w :
  Q a w -> wp (ret a) Q E w.
Proof. intros H fs. exact H. Qed.

Lemma wp_throw {A} (e : Error) (Q : A -> World V -> Prop) E w :
  E w -> wp (throw e) Q E w.
Proof. intros H fs. exact H. Qed.

Lemma wp_bind {A B} (m : M V A) (k : A -> M V B)
      (Q : B -> World V -> Prop) E w :
  wp m (fun a w' => wp (k a) Q E w') E w -> wp (bind m k) Q E w.
Proof.
  intros H fs. unfold bind. specialize (H fs).
  destruct (m fs w) as [[[a|e] fs'] w']; [apply H|exact H].
Qed.

Lemma wp_try_catch (m : M V unit) (Q : unit -> World V -> Prop) E w :
  wp m Q (Q tt) w -> wp (try_catch m) Q E w.
Proof.
  intros H fs. unfold try_catch. specialize (H fs).
  destruct (m fs w) as [[[a|e] fs'] w']; exact H.
Qed.

Lemma wp_detached (m : M V unit) (Q : unit -> World V -> Prop) E w :
  wp m (fun _ => Q tt) (Q tt) w -> wp (detached m) Q E w.
Proof.
  intros H fs. unfold detached. specialize (H fs).
  destruct (m fs w) as [[[a|e] fs'] w']; exact H.
Qed.

Lemma wp_get (Q : V -> World V -> Prop) E w :
  Q (vars w) w -> wp get Q E w.
Proof. intros H fs. exact H. Qed.

Lemma wp_modify (f : V -> V) (Q : unit -> World V -> Prop) E w :
  Q tt (mkWorld (disk w) (f (vars w))) -> wp (modify f) Q E w.
Proof. intros H fs. exact H. Qed.

Lemma wp_call {A} (q : Db -> A * Db) (Q : A -> World V -> Prop) E w :
  E w ->
  Q (fst (q (disk w))) (mkWorld (snd (q (disk w))) (vars w)) ->
  wp (call q) Q E w.
Proof.
  intros HE HQ fs. unfold call.
  destruct fs as [|[|] fs']; [|exact HE|]; now destruct (q (disk w)).
Qed.

Lemma wp_select {A} (handle : bool) (q : Db -> A)
      (Q : A -> World V -> Prop) E w :
  E w -> Q (q (disk w)) w -> wp (select handle q) Q E w.
Proof.
  intros HE HQ. unfold select. destruct handle.
  - apply wp_call; [exact HE|]. cbn [fst snd]. now rewrite world_eta.
  - now apply wp_throw.
Qed.

Lemma wp_execute (handle : bool) (q : Db -> Db)
      (Q : unit -> World V -> Prop) E w :
  E w -> Q tt (mkWorld (q (disk w)) (vars w)) ->
  wp (execute handle q) Q E w.
Proof.
  intros HE HQ. unfold execute. destruct handle.
  - now apply wp_call.
  - now apply wp_throw.
Qed.

Lemma wp_load (Q : unit -> World V -> Prop) E w :
  E w -> Q tt w -> wp load Q E w.
Proof.
  intros HE HQ. apply wp_call; [exact HE|]. cbn [fst snd].
  now rewrite world_eta.
Qed.

(** What [wp] says of a run. *)
Lemma wp_exec {A} (m : M V A) (I : World V -> Prop) w fs :
  wp m (fun _ => I) I w -> I (snd (exec m fs w)).
Proof.
  intros H. specialize (H fs). unfold exec.
  destruct (m fs w) as [[[a|e] fs'] w']; exact H.
Qed.

End WpRules.

(** One backward step through a computation. *)
Ltac wp_step :=
  lazymatch goal with
  | |- wp (bind _ _) _ _ _ => apply wp_bind
  | |- wp get _ _ _ => apply wp_get
  | |- wp (ret _) _ _ _ => apply wp_ret
  | |- wp (modify _) _ _ _ => apply wp_modify
  | |- wp (try_catch _) _ _ _ => apply wp_try_catch
  | |- wp (detached _) _ _ _ => apply wp_detached
  | |- wp (throw _) _ _ _ => apply wp_throw
  | |- wp (select _ _) _ _ _ => apply wp_select
  | |- wp (execute _ _) _ _ _ => apply wp_execute
  | |- wp load _ _ _ => apply wp_load
  end;
  cbn beta; cbn [disk vars].

Ltac wp_run :=
  repeat first
    [ wp_step
    | lazymatch goal with
      | |- wp (if ?b then _ else _) _ _ _ => destruct b eqn:?
      | |- wp (match ?x with _ => _ end) _ _ _ => destruct x eqn:?
      | |- wp (Today.dbSelect _) _ _ _ => unfold Today.dbSelect
      | |- wp (Today.dbExecute _) _ _ _ => unfold Today.dbExecute
      | |- wp Today.printTables _ _ _ => unfold Today.printTables
      | |- wp (Today.getHabits _) _ _ _ => unfold Today.getHabits
      | |- wp Today.initDatabase _ _ _ => unfold Today.initDatabase
      | |- wp (History.dbSelect _) _ _ _ => unfold History.dbSelect
      | |- wp (History.dbExecute _) _ _ _ => unfold History.dbExecute
      | |- wp (History.getHabitsForDate _) _ _ _ =>
          unfold History.getHabitsForDate
      | |- wp History.fetchHabits _ _ _ => unfold History.fetchHabits
      | |- wp History.initDatabase _ _ _ => unfold History.initDatabase
      | |- wp (History.isoOfSelected _) _ _ _ => unfold History.isoOfSelected
      end ].

(* ===================================================================== *)
(** ** What every statement and every page action keeps *)
(* ===================================================================== *)

Lemma Forall_filter {A} (P : A -> Prop) (p : A -> bool) (l : list A) :
  Forall P l -> Forall P (filter p l).
Proof.
  intros H. apply (incl_Forall (l1 := l)); [|exact H].
  apply incl_filter.
Qed.

Lemma sound_update_master (c : Z) (dt : jsstring) (k : Z) f hs :
  sound f hs -> sound (update_master c dt k f) hs.
Proof.
  intros [[H1 H2] (H3 & H4 & H5)]. unfold sound, streaksOk, idsIssued.
  unfold update_master; cbn [habits_tbl master_tbl habits_seq].
  repeat split; try assumption.
  apply Forall_map. revert H4. apply Forall_impl. intros m Hm.
  destruct (m_id m =? k)%Z; exact Hm.
Qed.

Lemma sound_insert_master (hid c : Z) (dt : jsstring) f hs :
  sound f hs -> (hid <= habits_seq f)%Z -> sound (insert_master hid c dt f) hs.
Proof.
  intros [[H1 H2] (H3 & H4 & H5)] Hle. unfold sound, streaksOk, idsIssued.
  unfold insert_master; cbn [habits_tbl master_tbl habits_seq].
  repeat split; try assumption.
  apply Forall_app. split; [assumption|]. constructor; [exact Hle|constructor].
Qed.

Lemma sound_update_streak (ns hid : Z) f hs :
  sound f hs -> (0 <= ns)%Z -> sound (update_streak ns hid f) hs.
Proof.
  intros [[H1 H2] (H3 & H4 & H5)] Hns. unfold sound, streaksOk, idsIssued.
  unfold update_streak; cbn [habits_tbl master_tbl habits_seq].
  repeat split; try assumption; apply Forall_map.
  - revert H1. apply Forall_impl. intros r Hr.
    destruct (h_id r =? hid)%Z; [exact Hns|exact Hr].
  - revert H3. apply Forall_impl. intros r Hr.
    destruct (h_id r =? hid)%Z; exact Hr.
Qed.

Lemma sound_insert_habit (nm : jsstring) f hs :
  sound f hs -> sound (insert_habit nm 0 f) hs.
Proof.
  intros [[H1 H2] (H3 & H4 & H5)]. unfold sound, streaksOk, idsIssued.
  unfold insert_habit; cbn [habits_tbl master_tbl habits_seq h_streak h_id].
  repeat split; try assumption.
  - apply Forall_app. split; [assumption|]. constructor; [|constructor].
    cbn. lia.
  - apply Forall_app. split.
    + revert H3. apply Forall_impl. intros; lia.
    + constructor; [cbn; lia|constructor].
  - revert H4. apply Forall_impl. intros; lia.
  - revert H5. apply Forall_impl. intros; lia.
Qed.

Lemma sound_delete_habit (hid : Z) f hs :
  sound f hs -> sound (delete_habit hid f) hs.
Proof.
  intros [[H1 H2] (H3 & H4 & H5)]. unfold sound, streaksOk, idsIssued.
  unfold delete_habit; cbn [habits_tbl master_tbl habits_seq].
  repeat split; try assumption; now apply Forall_filter.
Qed.

Lemma sound_delete_master_of (hid : Z) f hs :
  sound f hs -> sound (delete_master_of hid f) hs.
Proof.
  intros [[H1 H2] (H3 & H4 & H5)]. unfold sound, streaksOk, idsIssued.
  unfold delete_master_of; cbn [habits_tbl master_tbl habits_seq].
  repeat split; try assumption; now apply Forall_filter.
Qed.

Lemma sound_merge (rows : list MasterRow) f hs :
  sound f hs -> sound f (mergeHabits (select_habits f) rows).
Proof.
  intros [[H1 H2] (H3 & H4 & H5)]. unfold sound, streaksOk, idsIssued.
  unfold mergeHabits, select_habits.
  repeat split; try assumption; apply Forall_map; cbn [streak id].
  - exact H1.
  - exact H3.
Qed.

Lemma sound_nil f hs : sound f hs -> sound f [].
Proof.
  intros [[H1 H2] (H3 & H4 & H5)]. unfold sound, streaksOk, idsIssued.
  repeat split; try assumption; constructor.
Qed.

Lemma sound_filter (p : Habit -> bool) f hs :
  sound f hs -> sound f (filter p hs).
Proof.
  intros [[H1 H2] (H3 & H4 & H5)]. unfold sound, streaksOk, idsIssued.
  repeat split; try assumption; now apply Forall_filter.
Qed.

Lemma sound_setAt (i : nat) (h : Habit) (ns : Z) (u : bool) f hs :
  sound f hs -> nth_error hs i = Some h -> (0 <= ns)%Z ->
  sound f (setAt i (mkHabit (id h) (name h) ns u) hs).
Proof.
  intros [[H1 H2] (H3 & H4 & H5)] Hn Hns. unfold sound, streaksOk, idsIssued.
  apply nth_error_In in Hn.
  pose proof (proj1 (Forall_forall _ _) H5 h Hn) as Hid.
  repeat split; try assumption; apply setAt_Forall; try assumption; cbn;
    assumption.
Qed.

Lemma sound_entry (i : nat) (h : Habit) f hs :
  sound f hs -> nth_error hs i = Some h ->
  (0 <= streak h)%Z /\ (id h <= habits_seq f)%Z.
Proof.
  intros [[_ H2] (_ & _ & H5)] Hn. apply nth_error_In in Hn.
  rewrite Forall_forall in H2, H5. auto.
Qed.

Create HintDb sound.

#[local] Hint Resolve sound_update_master sound_insert_master
  sound_update_streak sound_insert_habit sound_delete_habit
  sound_delete_master_of : sound.

#[local] Hint Extern 1 (sound _ (mergeHabits _ _)) =>
  eapply sound_merge : sound.
#[local] Hint Extern 1 (sound _ []) => eapply sound_nil : sound.
#[local] Hint Extern 1 (sound _ (filter _ _)) => apply sound_filter : sound.
#[local] Hint Extern 1 (sound _ (setAt _ _ _)) => apply sound_setAt : sound.

#[local] Hint Extern 2 (0 <= if ?b then _ else _)%Z =>
  destruct b; lia : sound.

#[local] Hint Extern 3 (_ <= _)%Z => lia : sound.

(** The facts the invariant gives on the entries read from the list. *)
Ltac entry_facts HI :=
  repeat match goal with
         | H : nth_error _ _ = Some ?h |- _ =>
             lazymatch goal with
             | _ : (0 <= streak h)%Z |- _ => fail
             | _ => destruct (sound_entry _ _ _ _ HI H)
             end
         end.

Ltac sound_done HI :=
  entry_facts HI;
  repeat match goal with
         | H : ?t = _ |- context [match ?t with _ => _ end] => rewrite H
         end;
  cbn [Today.habits Today.set_habits Today.set_db Today.set_newHabitName
       Today.set_isAddingHabit History.habitsForDate
       History.set_habitsForDate History.set_db History.set_selectedDate];
  eauto 10 with sound.

Lemma today_toggle_sound (hid : Z) (now : Date) (w : World Today.Vars) :
  todaySound w ->
  wp (Today.toggleHabit hid now) (fun _ => todaySound) todaySound w.
Proof.
  intros HI. unfold Today.toggleHabit. wp_step. wp_step.
  destruct (findIndex _ _) as [i|] eqn:Hi; [|wp_step; exact HI].
  destruct (findIndex_Some _ _ _ Hi) as (x & Hx & _ & Hid).
  apply Z.eqb_eq in Hid.
  destruct (sound_entry _ _ _ _ HI Hx) as [Hs Hle]. rewrite Hid in Hle.
  unfold todaySound in *.
  wp_run; sound_done HI.
Qed.

Lemma today_onMount_sound (now : Date) (w : World Today.Vars) :
  todaySound w ->
  wp (Today.onMount now) (fun _ => todaySound) todaySound w.
Proof.
  intros HI. unfold Today.onMount, todaySound in *.
  wp_run; sound_done HI.
Qed.

Lemma today_addHabit_sound (now : Date) (w : World Today.Vars) :
  todaySound w ->
  wp (Today.addHabit now) (fun _ => todaySound) todaySound w.
Proof.
  intros HI. unfold Today.addHabit, todaySound in *.
  wp_run; sound_done HI.
Qed.

Lemma today_deleteHabit_sound (hid : Z) (answer : bool)
      (w : World Today.Vars) :
  todaySound w ->
  wp (Today.deleteHabit hid answer) (fun _ => todaySound) todaySound w.
Proof.
  intros HI. unfold Today.deleteHabit, todaySound in *.
  destruct answer; wp_run; sound_done HI.
Qed.

Lemma history_onMount_sound (w : World History.Vars) :
  historySound w ->
  wp History.onMount (fun _ => historySound) historySound w.
Proof.
  intros HI. unfold History.onMount, historySound in *.
  wp_run; sound_done HI.
Qed.

Lemma history_handleDateChange_sound (value : jsstring)
      (w : World History.Vars) :
  historySound w ->
  wp (History.handleDateChange value) (fun _ => historySound) historySound w.
Proof.
  intros HI. unfold History.handleDateChange, historySound in *.
  wp_run; sound_done HI.
Qed.

Lemma history_toggle_sound (hid : Z) (w : World History.Vars) :
  historySound w ->
  wp (History.toggleHabit hid) (fun _ => historySound) historySound w.
Proof.
  intros HI. unfold History.toggleHabit. wp_step. wp_step.
  destruct (findIndex _ _) as [i|] eqn:Hi; [|wp_step; exact HI].
  destruct (findIndex_Some _ _ _ Hi) as (x & Hx & _ & Hid).
  apply Z.eqb_eq in Hid.
  destruct (sound_entry _ _ _ _ HI Hx) as [Hs Hle]. rewrite Hid in Hle.
  unfold historySound in *.
  wp_run; sound_done HI.
Qed.

(** The invariant of the application: streaks are non-negative and ids are
    behind the counter, in the database file and on the mounted page. *)
Lemma step_sound (s : App.State) (op : App.Op) :
  sound (App.file s) (App.shown s) ->
  sound (App.file (App.step s op)) (App.shown (App.step s op)).
Proof.
  intros HI. destruct s as [f pg]. unfold App.shown in *. cbn [App.file App.page] in *.
  assert (sound f []) as Hnil by (eapply sound_nil; exact HI).
  destruct op, pg as [v|v]; cbn [App.step App.page App.file]; try exact HI;
    unfold App.runToday, App.runHistory; cbn [App.file App.page];
    try (apply (wp_exec _ todaySound);
         first [ apply today_onMount_sound | apply today_addHabit_sound
               | apply today_toggle_sound | apply today_deleteHabit_sound ];
         assumption);
    try (apply (wp_exec _ historySound);
         first [ apply history_onMount_sound
               | apply history_handleDateChange_sound
               | apply history_toggle_sound ];
         assumption).
Qed.

Lemma run_sound (ops : list App.Op) (s : App.State) :
  sound (App.file s) (App.shown s) ->
  sound (App.file (App.run ops s)) (App.shown (App.run ops s)).
Proof.
  revert s. induction ops as [|op ops IH]; intros s HI; [exact HI|].
  cbn [App.run fold_left]. apply IH. now apply step_sound.
Qed.

Lemma init_sound : sound (App.file App.init) (App.shown App.init).
Proof. repeat split; constructor. Qed.

(* ===================================================================== *)
(** ** The record write and the streak write of a toggle *)
(* ===================================================================== *)

Lemma update_streak_master (ns hid : Z) (f : Db) :
  master_tbl (update_streak ns hid f) = master_tbl f.
Proof. reflexivity. Qed.

Lemma recordWritten_habits (hid : Z) (day stamp : jsstring) (f : Db) :
  habits_tbl (recordWritten hid day stamp f) = habits_tbl f.
Proof. unfold recordWritten. now destruct (recordOf hid day f). Qed.

Lemma completedOn_update_streak (k : Z) (day : jsstring) (ns hid : Z) (f : Db) :
  completedOn k day (update_streak ns hid f) = completedOn k day f.
Proof. reflexivity. Qed.

Lemma streakOf_update_streak (ns hid : Z) (f : Db) :
  streakOf hid (update_streak ns hid f)
  = option_map (fun _ => ns) (streakOf hid f).
Proof.
  unfold streakOf, update_streak. cbn [habits_tbl].
  induction (habits_tbl f) as [|r l IH]; [reflexivity|].
  cbn [map find]. destruct (h_id r =? hid)%Z eqn:E; cbn [h_id]; rewrite E.
  - reflexivity.
  - exact IH.
Qed.

(** The record write is what the statement of a toggle says. *)
Lemma recordWritten_toggled (hid ns : Z) (day stamp : jsstring) (f : Db) :
  recordToggled hid day stamp f
    (update_streak ns hid (recordWritten hid day stamp f)).
Proof.
  unfold recordToggled, recordWritten.
  destruct (recordOf hid day f) as [m|]; rewrite update_streak_master.
  - unfold update_master. cbn [master_tbl]. split.
    + apply map_ext. intros r.
      destruct (m_id r =? m_id m)%Z; [|reflexivity].
      now destruct (Boolean (m_completed m)).
    + apply length_map.
  - reflexivity.
Qed.

(** After the record write the day's record of the habit carries the
    flipped flag. *)
Lemma find_after_update (hid : Z) (day stamp : jsstring) (c : Z)
      (l : list MasterRow) (m : MasterRow) :
  startsWith day stamp = true ->
  find (fun x => (m_habit_id x =? hid)%Z && onDay day x) l = Some m ->
  exists r,
    find (fun x => (m_habit_id x =? hid)%Z && onDay day x)
         (map (fun x => if (m_id x =? m_id m)%Z
                        then mkMasterRow (m_id x) (m_habit_id x) c
                                         (m_completed_repeats x) stamp
                        else x) l) = Some r
    /\ m_completed r = c.
Proof.
  intros Hs. induction l as [|x l IH]; cbn [find map]; [discriminate|].
  destruct ((m_habit_id x =? hid)%Z && onDay day x) eqn:Ex.
  - intros [= <-]. rewrite Z.eqb_refl.
    apply andb_true_iff in Ex as [Eh _].
    unfold onDay at 1. cbn [m_habit_id m_date]. rewrite Eh, Hs.
    eexists. split; reflexivity.
  - intros Hm. destruct (m_id x =? m_id m)%Z.
    + unfold onDay at 1. cbn [m_habit_id m_date]. rewrite Hs.
      destruct (m_habit_id x =? hid)%Z; cbn [andb].
      * eexists. split; reflexivity.
      * now apply IH.
    + rewrite Ex. now apply IH.
Qed.

Lemma find_app_none {A} (p : A -> bool) (l l' : list A) :
  find p l = None -> find p (l ++ l') = find p l'.
Proof.
  induction l as [|x l IH]; cbn [find app]; [reflexivity|].
  destruct (p x); [discriminate|exact IH].
Qed.

Lemma completedOn_recordWritten (hid : Z) (day stamp : jsstring) (f : Db) :
  startsWith day stamp = true ->
  completedOn hid day (recordWritten hid day stamp f)
  = negb (completedOn hid day f).
Proof.
  intros Hs. unfold completedOn at 2, recordWritten.
  destruct (recordOf hid day f) as [m|] eqn:Em.
  - unfold recordOf in Em.
    destruct (find_after_update hid day stamp
                (if negb (Boolean (m_completed m)) then 1 else 0)%Z
                _ m Hs Em) as (r & Hr & Hc).
    unfold completedOn, recordOf, update_master. cbn [master_tbl].
    rewrite Hr, Hc. now destruct (Boolean (m_completed m)).
  - unfold completedOn, recordOf, insert_master in *. cbn [master_tbl].
    rewrite (find_app_none _ _ _ Em). cbn [find m_habit_id].
    unfold onDay. cbn [m_date]. now rewrite Z.eqb_refl, Hs.
Qed.

(** The streak over a pair of toggles: up then down, or down then up. *)
Lemma adjust_pair (flag : bool) (s : Z) :
  (0 <= s)%Z -> (flag = true -> s <> 0%Z) ->
  adjust flag (adjust (negb flag) s) = s.
Proof. unfold adjust. destruct flag; cbn [negb]; intros; lia. Qed.

Lemma filter_map_same {A} (p : A -> bool) (g : A -> A) (l : list A) :
  (forall x, In x l -> p (g x) = p x /\ (p x = true -> g x = x)) ->
  filter p (map g l) = filter p l.
Proof.
  induction l as [|x l IH]; intros H; cbn [map filter]; [reflexivity|].
  destruct (H x (or_introl eq_refl)) as [H1 H2]. rewrite H1.
  rewrite IH by (intros y Hy; apply H; now right).
  destruct (p x); [now rewrite H2|reflexivity].
Qed.

(** A primary key names one row. *)
Lemma key_names_one_row (l : list MasterRow) (x y : MasterRow) :
  NoDup (map m_id l) -> In x l -> In y l -> m_id x = m_id y -> x = y.
Proof.
  induction l as [|z l IH]; cbn [map]; intros Hnd Hx Hy Hk; [easy|].
  inversion Hnd as [|? ? Hz Hnd']; subst.
  destruct Hx as [->|Hx], Hy as [->|Hy]; auto.
  - exfalso. apply Hz. rewrite Hk. now apply in_map.
  - exfalso. apply Hz. rewrite <- Hk. now apply in_map.
Qed.

(** The record write touches records of the habit on the day only. *)
Lemma recordWritten_frame (p : MasterRow -> bool) (hid : Z)
      (day stamp : jsstring) (f : Db) :
  NoDup (map m_id (master_tbl f)) ->
  startsWith day stamp = true ->
  (forall x, m_habit_id x = hid -> onDay day x = true -> p x = false) ->
  filter p (master_tbl (recordWritten hid day stamp f))
  = filter p (master_tbl f).
Proof.
  intros Hnd Hs Hp. unfold recordWritten.
  destruct (recordOf hid day f) as [m|] eqn:Em.
  - unfold recordOf in Em. apply find_some in Em as [Hin Hm].
    apply andb_true_iff in Hm as [Hh Hd]. apply Z.eqb_eq in Hh.
    unfold update_master. cbn [master_tbl]. apply filter_map_same.
    intros x Hx. destruct (m_id x =? m_id m)%Z eqn:E; [|auto].
    apply Z.eqb_eq in E.
    assert (x = m) as -> by (eapply key_names_one_row; eauto).
    rewrite (Hp m Hh Hd). rewrite Hp; [split; [reflexivity|discriminate]| |].
    + exact Hh.
    + exact Hs.
  - unfold insert_master. cbn [master_tbl]. rewrite filter_app.
    cbn [filter]. rewrite Hp; [apply app_nil_r|reflexivity|exact Hs].
Qed.

Lemma completedOn_filter (k : Z) (day : jsstring) (f f' : Db) :
  filter (onDay day) (master_tbl f') = filter (onDay day) (master_tbl f) ->
  completedOn k day f' = completedOn k day f.
Proof.
  intros H. unfold completedOn, recordOf.
  assert (forall l,
    find (fun m => (m_habit_id m =? k)%Z && onDay day m) l
    = find (fun m => (m_habit_id m =? k)%Z) (filter (onDay day) l)) as Hf.
  { intros l. rewrite find_filter. apply find_ext. intros m. apply andb_comm. }
  now rewrite !Hf, H.
Qed.

(** The frame of one toggle: the record write on [day1] followed by the
    streak write. *)
Lemma toggle_frame (hid : Z) (day1 day2 stamp : jsstring) (s : Z)
      (flag : bool) (f : Db) :
  NoDup (map m_id (master_tbl f)) ->
  startsWith day1 stamp = true ->
  length day1 = 10%nat -> length day2 = 10%nat -> day1 <> day2 ->
  toggleFrame hid day2 s flag f
    (update_streak (adjust flag s) hid (recordWritten hid day1 stamp f)).
Proof.
  intros Hnd Hs H1 H2 Hne.
  assert (filter (onDay day2)
            (master_tbl (recordWritten hid day1 stamp f))
          = filter (onDay day2) (master_tbl f)) as Hday.
  { apply recordWritten_frame; try assumption.
    intros x _ Hx. unfold onDay in *.
    now apply two_days_apart with day1. }
  unfold toggleFrame. rewrite !update_streak_master. repeat split.
  - intros k. rewrite completedOn_update_streak.
    now apply completedOn_filter.
  - exact Hday.
  - unfold update_streak. cbn [habits_tbl]. rewrite recordWritten_habits.
    apply filter_map_same. intros r _.
    destruct (h_id r =? hid)%Z eqn:E; cbn [h_id]; rewrite ?E; auto.
    split; [reflexivity|discriminate].
  - apply recordWritten_frame; try assumption.
    intros x Hx _. apply negb_false_iff. now apply Z.eqb_eq.
  - intros Hsome. rewrite streakOf_update_streak.
    unfold streakOf in *. rewrite recordWritten_habits.
    destruct (find _ (habits_tbl f)); [reflexivity|now elim Hsome].
Qed.

Lemma shownAs_index (hid : Z) (hs : list Habit) (h : Habit) :
  shownAs hid hs = Some h ->
  exists i, findIndex (fun x => (id x =? hid)%Z) hs = Some i
            /\ nth_error hs i = Some h.
Proof.
  unfold shownAs. intros H.
  pose proof (findIndex_find (fun x => (id x =? hid)%Z) hs) as Hf.
  now rewrite H in Hf.
Qed.

Lemma shownAs_entryWritten (hid : Z) (i : nat) (h : Habit) (flag : bool)
      (hs : list Habit) :
  findIndex (fun x => (id x =? hid)%Z) hs = Some i ->
  nth_error hs i = Some h ->
  let h' := mkHabit (id h) (name h) (adjust flag (streak h)) flag in
  findIndex (fun x => (id x =? hid)%Z) (entryWritten i h flag hs) = Some i
  /\ nth_error (entryWritten i h flag hs) i = Some h'
  /\ shownAs hid (entryWritten i h flag hs) = Some h'.
Proof.
  intros Hi Hh h'. unfold entryWritten. fold h'.
  destruct (findIndex_setAt hid i h h' hs Hi Hh eq_refl) as [H1 H2].
  repeat split; try assumption.
  destruct (findIndex_Some _ _ _ H1) as (x & Hx & Hf & _).
  unfold shownAs. congruence.
Qed.

(** Two toggles in a row on one day, as writes: flag and streak are back
    where they were. *)
Lemma pair_restores (hid : Z) (day stamp1 stamp2 : jsstring) (f : Db)
      (hs : list Habit) (i : nat) (h : Habit) :
  startsWith day stamp1 = true -> startsWith day stamp2 = true ->
  findIndex (fun x => (id x =? hid)%Z) hs = Some i ->
  nth_error hs i = Some h ->
  streakOf hid f = Some (streak h) ->
  (0 <= streak h)%Z ->
  (completedOn hid day f = true -> streak h <> 0%Z) ->
  let u1 := negb (completedOn hid day f) in
  let h1 := mkHabit (id h) (name h) (adjust u1 (streak h)) u1 in
  let f1 := update_streak (adjust u1 (streak h)) hid
              (recordWritten hid day stamp1 f) in
  let u2 := negb (completedOn hid day f1) in
  let f2 := update_streak (adjust u2 (streak h1)) hid
              (recordWritten hid day stamp2 f1) in
  pairRestores hid day h f f2
    (entryWritten i h1 u2 (entryWritten i h u1 hs)).
Proof.
  intros Hs1 Hs2 Hi Hh Hst Hpos Hfloor u1 h1 f1 u2 f2.
  assert (completedOn hid day f1 = u1) as Hc1.
  { subst f1. rewrite completedOn_update_streak.
    now apply completedOn_recordWritten. }
  assert (u2 = completedOn hid day f) as Hu2.
  { subst u2. rewrite Hc1. subst u1. apply negb_involutive. }
  assert (adjust u2 (streak h1) = streak h) as Hback.
  { rewrite Hu2. subst h1 u1. cbn [streak]. now apply adjust_pair. }
  unfold pairRestores. repeat split.
  - subst f2. rewrite completedOn_update_streak.
    rewrite completedOn_recordWritten by assumption.
    rewrite Hc1. subst u1. apply negb_involutive.
  - subst f2. rewrite streakOf_update_streak.
    unfold streakOf at 1. rewrite recordWritten_habits. fold (streakOf hid f1).
    subst f1. rewrite streakOf_update_streak.
    unfold streakOf at 1. rewrite recordWritten_habits. fold (streakOf hid f).
    rewrite Hst. cbn [option_map]. now rewrite Hback.
  - destruct (shownAs_entryWritten hid i h u1 hs Hi Hh) as (Hi1 & Hh1 & _).
    fold h1 in Hh1.
    destruct (shownAs_entryWritten hid i h1 u2 _ Hi1 Hh1) as (_ & _ & Hsh).
    rewrite Hsh, Hback, Hu2. reflexivity.
Qed.

(* ===================================================================== *)
(** ** The progress percentage *)
(* ===================================================================== *)

Section ProgressFacts.

Variable round : Q -> Q.
Hypothesis round_monotone : forall x y : Q, x <= y -> round x <= round y.
Hypothesis round_0 : round 0 == 0.
Hypothesis round_1 : round 1 == 1.
Hypothesis round_100 : round 100 == 100.

Lemma completedCount_le (habits : list Habit) :
  (Progress.completedCount habits <= length habits)%nat.
Proof. apply filter_length_le. Qed.

Lemma ratio_bounds (c n : nat) :
  (c <= n)%nat -> (0 < n)%nat ->
  0 <= round (Progress.number c / Progress.number n) <= 1.
Proof.
  intros Hcn Hn. unfold Progress.number.
  assert (0 < inject_Z (Z.of_nat n)) as Hpos.
  { change 0 with (inject_Z 0). rewrite <- Zlt_Qlt. lia. }
  assert (0 <= inject_Z (Z.of_nat c)) as Hc.
  { change 0 with (inject_Z 0). rewrite <- Zle_Qle. lia. }
  assert (inject_Z (Z.of_nat c) <= inject_Z (Z.of_nat n)) as Hle.
  { rewrite <- Zle_Qle. lia. }
  split.
  - rewrite <- round_0. apply round_monotone.
    apply Qle_shift_div_l; [exact Hpos|]. now rewrite Qmult_0_l.
  - rewrite <- round_1. apply round_monotone.
    apply Qle_shift_div_r; [exact Hpos|]. now rewrite Qmult_1_l.
Qed.

Lemma percent_bounds (q : Q) :
  0 <= q <= 1 -> 0 <= Progress.times round q 100 <= 100.
Proof.
  intros [Hq0 Hq1]. unfold Progress.times. split.
  - apply Qle_trans with (round 0).
    + rewrite round_0. apply Qle_refl.
    + apply round_monotone.
      apply Qmult_le_0_compat; [exact Hq0|discriminate].
  - apply Qle_trans with (round 100).
    + apply round_monotone.
      apply Qle_trans with (1 * 100); [|discriminate].
      apply Qmult_le_compat_r; [exact Hq1|discriminate].
    + rewrite round_100. apply Qle_refl.
Qed.

End ProgressFacts.

(* ===================================================================== *)
(** ** The statements of the specification *)
(* ===================================================================== *)

(** C1.  Along every sequence of user actions from a fresh install, with
    the store answering or failing any of its calls, no streak is ever
    negative: neither a streak stored in the habits table nor a streak on
    the mounted page.  A failing call cuts an action short, so the states
    between the writes of one action are among the states covered. *)
Theorem C1_streak_never_negative (ops : list App.Op) :
  streaksOk (App.file (App.run ops App.init))
            (App.shown (App.run ops App.init)).
Proof. apply (run_sound ops App.init init_sound). Qed.

(** C10.  The progress percentage is a number for every list of habits: 0
    for the empty list, and otherwise the rounded product by 100 of the
    rounded quotient of the completed count by the length, the division
    being reached with a non-zero length only.  It lies between 0 and 100.
    Rounding is any monotone map that keeps 0, 1 and 100. *)
Theorem C10_progress_percent_total_bounded
    (round : Q -> Q)
    (round_monotone : forall x y : Q, x <= y -> round x <= round y)
    (round_0 : round 0 == 0) (round_1 : round 1 == 1)
    (round_100 : round 100 == 100)
    (habits : list Habit) :
  exists p : Q,
    Progress.progressPercent round habits = Some p
    /\ 0 <= p <= 100
    /\ (habits = [] -> p = 0)
    /\ (habits <> [] ->
        p = round (round (Progress.number (Progress.completedCount habits)
                          / Progress.number (length habits)) * 100)).
Proof.
  unfold Progress.progressPercent.
  destruct habits as [|h hs].
  - exists 0. cbn. repeat split; try discriminate. congruence.
  - set (l := h :: hs).
    assert (0 < length l)%nat as Hn by (cbn; lia).
    destruct (Nat.eqb_spec (length l) 0) as [E|_]; [lia|].
    unfold Progress.divide.
    assert (Qeq_bool (Progress.number (length l)) 0 = false) as ->.
    { destruct (Qeq_bool (Progress.number (length l)) 0) eqn:E;
        [|reflexivity].
      apply Qeq_bool_eq in E. unfold Progress.number in E.
      unfold Qeq in E. cbn in E. lia. }
    eexists. split; [reflexivity|]. split; [|split].
    + apply percent_bounds; try assumption.
      apply ratio_bounds; try assumption. apply completedCount_le.
    + discriminate.
    + reflexivity.
Qed.

Lemma C10_progress_percent_witness :
  exists p : Q,
    Progress.progressPercent Sample.milli (Today.habits (vars Sample.toggled))
    = Some p /\ 0 <= p <= 100.
Proof.
  destruct (C10_progress_percent_total_bounded Sample.milli) with
    (habits := Today.habits (vars Sample.toggled)) as (p & Hp & Hb & _).
  - intros x y Hxy. unfold Sample.milli, Qle. cbn [Qnum Qden].
    apply Z.mul_le_mono_nonneg_r; [lia|].
    apply Qfloor_resp_le. apply Qmult_le_compat_r; [exact Hxy|discriminate].
  - reflexivity.
  - reflexivity.
  - reflexivity.
  - exists p. split; assumption.
Defined.

Lemma completedOn_no_record (k : Z) (day : jsstring) (f : Db) :
  existsb (onDay day) (master_tbl f) = false -> completedOn k day f = false.
Proof.
  intros H. unfold completedOn, recordOf.
  assert (find (fun m => (m_habit_id m =? k)%Z && onDay day m) (master_tbl f)
          = None) as ->; [|reflexivity].
  apply find_none_all. intros m Hm.
  assert (onDay day m = false) as ->; [|apply andb_false_r].
  destruct (onDay day m) eqn:E; [|reflexivity].
  rewrite <- H. symmetry. apply existsb_exists. now exists m.
Qed.

(** C7.  For a day on which the master table holds no record, listing
    returns every row of the habits table, in the order of the table (the
    order of insertion), each with [completed = false] and with its stored
    id, name and streak: on the today page for the day of the clock, on the
    history page for the day asked for. *)
Theorem C7_listing_without_records
    (f : Db) (now : Date) (day : jsstring)
    (v : Today.Vars) (u : History.Vars) :
  (Today.db v = true ->
   existsb (onDay (isoDay now)) (master_tbl f) = false ->
   exec (Today.getHabits now) [] (mkWorld f v)
   = (Ok (map unchecked (habits_tbl f)), mkWorld f v))
  /\
  (History.db u = true -> isDay day = true ->
   existsb (onDay day) (master_tbl f) = false ->
   exec (History.getHabitsForDate day) [] (mkWorld f u)
   = (Ok (map unchecked (habits_tbl f)), mkWorld f u)).
Proof.
  split.
  - intros Hdb Hno. rewrite today_getHabits_reliable by exact Hdb.
    f_equal. f_equal. apply map_ext. intros r. unfold unchecked.
    now rewrite completedOn_no_record.
  - intros Hdb Hday Hno.
    rewrite history_getHabitsForDate_reliable
      by (try exact Hdb; now apply isDay_plain).
    f_equal. f_equal. apply map_ext. intros r. unfold unchecked.
    now rewrite completedOn_no_record.
Qed.

Lemma C7_listing_witness :
  exec (Today.getHabits Sample.nextDay) [] Sample.toggled
  = (Ok (map unchecked (habits_tbl (disk Sample.toggled))), Sample.toggled)
  /\ exec (History.getHabitsForDate (lit "2025-04-13")) [] Sample.history
     = (Ok (map unchecked (habits_tbl (disk Sample.history))), Sample.history).
Proof.
  destruct (C7_listing_without_records
              (disk Sample.toggled) Sample.nextDay (lit "2025-04-13")
              (vars Sample.toggled) (vars Sample.history)) as [HT HH].
  split.
  - apply HT; reflexivity.
  - apply HH; reflexivity.
Defined.

(** C2, amended.  A toggle of a listed habit finds the day's record of the
    habit by the test that the stored date starts with the text of the day
    [YYYY-MM-DD].  When there is one, it is rewritten in place, its flag
    flipped, and the table keeps its length; when there is none, one row is
    appended with [completed = 1].  The date written is, on the today page,
    the timestamp of the clock and, on the history page, midnight UTC of
    the selected day, [selectedDate] followed by [T00:00:00.000Z]. *)
Theorem C2_toggle_flips_or_inserts
    (hid : Z) (f : Db) (now : Date)
    (v : Today.Vars) (u : History.Vars) (h h' : Habit) :
  (Today.db v = true ->
   shownAs hid (Today.habits v) = Some h ->
   recordToggled hid (isoDay now) (toISOString now) f
     (disk (snd (exec (Today.toggleHabit hid now) [] (mkWorld f v)))))
  /\
  (History.db u = true ->
   shownAs hid (History.habitsForDate u) = Some h' ->
   isDay (History.selectedDate u) = true ->
   recordToggled hid (History.selectedDate u)
     (History.selectedDate u ++ lit "T00:00:00.000Z") f
     (disk (snd (exec (History.toggleHabit hid) [] (mkWorld f u))))).
Proof.
  split.
  - intros Hdb Hsh. destruct (shownAs_index _ _ _ Hsh) as (i & Hi & Hh).
    rewrite (today_toggle_reliable hid now f v i h Hdb Hi Hh).
    cbn [snd disk]. apply recordWritten_toggled.
  - intros Hdb Hsh Hday. destruct (shownAs_index _ _ _ Hsh) as (i & Hi & Hh).
    unfold isDay in Hday.
    destruct (parseDate (History.selectedDate u)) as [d|] eqn:Hd;
      [|discriminate].
    rewrite (history_toggle_reliable hid f u i h' d Hdb Hi Hh Hd).
    cbn [snd disk]. apply recordWritten_toggled.
Qed.

Lemma C2_toggle_witness :
  recordToggled 2 (isoDay Sample.evening) (toISOString Sample.evening)
    (disk Sample.toggled)
    (disk (snd (exec (Today.toggleHabit 2 Sample.evening) [] Sample.toggled)))
  /\ recordToggled 1 (lit "2025-04-14") (lit "2025-04-14T00:00:00.000Z")
       (disk (Sample.picked "2025-04-14"))
       (disk (snd (exec (History.toggleHabit 1) []
                     (Sample.picked "2025-04-14")))).
Proof.
  destruct (C2_toggle_flips_or_inserts
              2 (disk Sample.toggled) Sample.evening
              (vars Sample.toggled) (vars Sample.history)
              (mkHabit 2 (lit "Read") 0 false) (mkHabit 2 (lit "Read") 0 false))
    as [HT _].
  destruct (C2_toggle_flips_or_inserts
              1 (disk (Sample.picked "2025-04-14")) Sample.evening
              (vars Sample.toggled) (vars (Sample.picked "2025-04-14"))
              (mkHabit 1 (lit "Drink water") 1 true)
              (mkHabit 1 (lit "Drink water") 1 true))
    as [_ HH].
  split.
  - apply HT; reflexivity.
  - apply HH; reflexivity.
Defined.

(** C2 as stated fails on the history page.  With the date input on
    2025-04-13 and the clock past 2025-04-15 08:00, the toggle of habit 1
    finds no record and appends one whose date is 2025-04-13 at midnight,
    not the timestamp of the clock. *)
Lemma C2_history_date_counterexample :
  let w := Sample.picked "2025-04-13" in
  let w' := snd (exec (History.toggleHabit 1) [] w) in
  recordOf 1 (History.selectedDate (vars w)) (disk w) = None
  /\ master_tbl (disk w')
     = master_tbl (disk w)
       ++ [mkMasterRow 2 1 1 0 (lit "2025-04-13T00:00:00.000Z")]
  /\ lit "2025-04-13T00:00:00.000Z" <> toISOString Sample.nextDay.
Proof.
  cbv zeta. split; [reflexivity|]. split; [reflexivity|].
  vm_compute. discriminate.
Qed.

(** C3.  Two toggles in a row of a listed habit for one calendar day (on
    the today page two clicks on the same day, on the history page two
    clicks with the date input unchanged) bring the day's flag of the habit
    back, and the streak too, in the store and on the page, provided the
    decrement of the pair does not meet the floor: if the day was completed
    before the pair, the streak was not 0.  The page is assumed to show the
    stored streak, which is not negative. *)
Theorem C3_toggle_twice_restores
    (hid : Z) (f : Db) (now1 now2 : Date)
    (v : Today.Vars) (u : History.Vars) (h h' : Habit) :
  (Today.db v = true ->
   shownAs hid (Today.habits v) = Some h ->
   isoDay now1 = isoDay now2 ->
   streakOf hid f = Some (streak h) ->
   (0 <= streak h)%Z ->
   (completedOn hid (isoDay now1) f = true -> streak h <> 0%Z) ->
   let w1 := snd (exec (Today.toggleHabit hid now1) [] (mkWorld f v)) in
   let w2 := snd (exec (Today.toggleHabit hid now2) [] w1) in
   pairRestores hid (isoDay now1) h f (disk w2) (Today.habits (vars w2)))
  /\
  (History.db u = true ->
   shownAs hid (History.habitsForDate u) = Some h' ->
   isDay (History.selectedDate u) = true ->
   streakOf hid f = Some (streak h') ->
   (0 <= streak h')%Z ->
   (completedOn hid (History.selectedDate u) f = true -> streak h' <> 0%Z) ->
   let w1 := snd (exec (History.toggleHabit hid) [] (mkWorld f u)) in
   let w2 := snd (exec (History.toggleHabit hid) [] w1) in
   pairRestores hid (History.selectedDate u) h' f (disk w2)
     (History.habitsForDate (vars w2))).
Proof.
  split.
  - intros Hdb Hsh Hday Hst Hpos Hfloor.
    destruct (shownAs_index _ _ _ Hsh) as (i & Hi & Hh).
    rewrite (today_toggle_reliable hid now1 f v i h Hdb Hi Hh).
    cbn [snd]. cbv zeta.
    set (u1 := negb (completedOn hid (isoDay now1) f)).
    destruct (shownAs_entryWritten hid i h u1 _ Hi Hh) as (Hi1 & Hh1 & _).
    rewrite (today_toggle_reliable hid now2 _
               (Today.set_habits (entryWritten i h u1 (Today.habits v)) v)
               i _ Hdb Hi1 Hh1).
    cbn [snd disk vars Today.habits Today.set_habits]. rewrite <- Hday.
    apply pair_restores; try assumption.
    + apply startsWith_toISOString.
    + rewrite Hday. apply startsWith_toISOString.
  - intros Hdb Hsh Hday Hst Hpos Hfloor.
    destruct (shownAs_index _ _ _ Hsh) as (i & Hi & Hh).
    unfold isDay in Hday.
    destruct (parseDate (History.selectedDate u)) as [d|] eqn:Hd;
      [|discriminate].
    rewrite (history_toggle_reliable hid f u i h' d Hdb Hi Hh Hd).
    cbn [snd]. cbv zeta.
    set (u1 := negb (completedOn hid (History.selectedDate u) f)).
    destruct (shownAs_entryWritten hid i h' u1 _ Hi Hh) as (Hi1 & Hh1 & _).
    rewrite (history_toggle_reliable hid _
               (History.set_habitsForDate
                  (entryWritten i h' u1 (History.habitsForDate u)) u)
               i _ d Hdb Hi1 Hh1 Hd).
    cbn [snd disk vars History.habitsForDate History.set_habitsForDate
         History.selectedDate].
    apply pair_restores; try assumption; apply startsWith_app.
Qed.

Lemma C3_toggle_twice_witness :
  (let w1 := snd (exec (Today.toggleHabit 1 Sample.morning) []
                    Sample.toggled) in
   let w2 := snd (exec (Today.toggleHabit 1 Sample.evening) [] w1) in
   pairRestores 1 (isoDay Sample.morning)
     (mkHabit 1 (lit "Drink water") 1 true)
     (disk Sample.toggled) (disk w2) (Today.habits (vars w2)))
  /\
  (let w1 := snd (exec (History.toggleHabit 2) []
                    (Sample.picked "2025-04-13")) in
   let w2 := snd (exec (History.toggleHabit 2) [] w1) in
   pairRestores 2 (lit "2025-04-13") (mkHabit 2 (lit "Read") 0 false)
     (disk (Sample.picked "2025-04-13")) (disk w2)
     (History.habitsForDate (vars w2))).
Proof.
  split.
  - apply (proj1 (C3_toggle_twice_restores
                    1 (disk Sample.toggled) Sample.morning Sample.evening
                    (vars Sample.toggled) (vars Sample.history)
                    (mkHabit 1 (lit "Drink water") 1 true)
                    (mkHabit 1 (lit "Drink water") 1 true)));
      try reflexivity.
    + cbn [streak]. lia.
    + intros _. discriminate.
  - apply (proj2 (C3_toggle_twice_restores
                    2 (disk (Sample.picked "2025-04-13"))
                    Sample.morning Sample.evening
                    (vars Sample.toggled) (vars (Sample.picked "2025-04-13"))
                    (mkHabit 2 (lit "Read") 0 false)
                    (mkHabit 2 (lit "Read") 0 false)));
      try reflexivity.
    vm_compute. discriminate.
Defined.

(** C8.  A toggle of a listed habit on one calendar day leaves, for every
    other calendar day, the records of that day and so every flag of that
    day as they were; it leaves the rows and the records of the other
    habits as they were; and it moves the one streak of the habit's row,
    whatever the day: up by one when the day's flag ends set, down by one
    and not below 0 when it ends cleared.  The master table is assumed to
    have distinct primary keys. *)
Theorem C8_toggle_frame
    (hid : Z) (f : Db) (now : Date) (day2 : jsstring)
    (v : Today.Vars) (u : History.Vars) (h h' : Habit) :
  (Today.db v = true ->
   shownAs hid (Today.habits v) = Some h ->
   NoDup (map m_id (master_tbl f)) ->
   isDay day2 = true -> day2 <> isoDay now ->
   let f' := disk (snd (exec (Today.toggleHabit hid now) [] (mkWorld f v))) in
   toggleFrame hid day2 (streak h) (completedOn hid (isoDay now) f') f f')
  /\
  (History.db u = true ->
   shownAs hid (History.habitsForDate u) = Some h' ->
   NoDup (map m_id (master_tbl f)) ->
   isDay (History.selectedDate u) = true ->
   isDay day2 = true -> day2 <> History.selectedDate u ->
   let f' := disk (snd (exec (History.toggleHabit hid) [] (mkWorld f u))) in
   toggleFrame hid day2 (streak h')
     (completedOn hid (History.selectedDate u) f') f f').
Proof.
  split.
  - intros Hdb Hsh Hnd Hd2 Hne.
    destruct (shownAs_index _ _ _ Hsh) as (i & Hi & Hh).
    rewrite (today_toggle_reliable hid now f v i h Hdb Hi Hh).
    cbn [snd disk]. cbv zeta.
    rewrite completedOn_update_streak at 1.
    rewrite completedOn_recordWritten by apply startsWith_toISOString.
    apply toggle_frame; try assumption.
    + apply startsWith_toISOString.
    + apply isoDay_length.
    + now apply isDay_length.
    + congruence.
  - intros Hdb Hsh Hnd Hd1 Hd2 Hne.
    destruct (shownAs_index _ _ _ Hsh) as (i & Hi & Hh).
    pose proof (isDay_length _ Hd1) as Hl1. unfold isDay in Hd1.
    destruct (parseDate (History.selectedDate u)) as [d|] eqn:Hd;
      [|discriminate].
    rewrite (history_toggle_reliable hid f u i h' d Hdb Hi Hh Hd).
    cbn [snd disk]. cbv zeta.
    rewrite completedOn_update_streak at 1.
    rewrite completedOn_recordWritten by apply startsWith_app.
    apply toggle_frame; try assumption.
    + apply startsWith_app.
    + now apply isDay_length.
    + congruence.
Qed.

Lemma C8_toggle_frame_witness :
  (let f := disk Sample.toggled in
   let f' := disk (snd (exec (Today.toggleHabit 1 Sample.nextDay) []
                          Sample.toggled)) in
   toggleFrame 1 (lit "2025-04-14") 1
     (completedOn 1 (isoDay Sample.nextDay) f') f f')
  /\
  (let f := disk (Sample.picked "2025-04-13") in
   let f' := disk (snd (exec (History.toggleHabit 1) []
                          (Sample.picked "2025-04-13"))) in
   toggleFrame 1 (lit "2025-04-14") 1
     (completedOn 1 (lit "2025-04-13") f') f f').
Proof.
  assert (NoDup (map m_id (master_tbl (disk Sample.toggled)))) as Hnd.
  { vm_compute. repeat constructor. intros []. }
  split.
  - apply (proj1 (C8_toggle_frame
                    1 (disk Sample.toggled) Sample.nextDay (lit "2025-04-14")
                    (vars Sample.toggled) (vars Sample.history)
                    (mkHabit 1 (lit "Drink water") 1 true)
                    (mkHabit 1 (lit "Drink water") 1 true)));
      try reflexivity; [exact Hnd|vm_compute; discriminate].
  - apply (proj2 (C8_toggle_frame
                    1 (disk (Sample.picked "2025-04-13")) Sample.nextDay
                    (lit "2025-04-14")
                    (vars Sample.toggled) (vars (Sample.picked "2025-04-13"))
                    (mkHabit 1 (lit "Drink water") 1 false)
                    (mkHabit 1 (lit "Drink water") 1 false)));
      try reflexivity; [exact Hnd|vm_compute; discriminate].
Defined.

(* ===================================================================== *)
(** ** Deleting, adding, and toggling what is not there *)
(* ===================================================================== *)

Lemma filter_all {A} (p : A -> bool) (l : list A) :
  (forall x, In x l -> p x = true) -> filter p l = l.
Proof.
  induction l as [|x l IH]; cbn [filter]; intros H; [reflexivity|].
  rewrite (H x) by now left. f_equal. apply IH. intros y Hy. apply H. now right.
Qed.

Lemma filter_idem {A} (p : A -> bool) (l : list A) :
  filter p (filter p l) = filter p l.
Proof.
  apply filter_all. intros x Hx. now apply filter_In in Hx.
Qed.

Lemma streakOf_None (hid : Z) (f : Db) :
  streakOf hid f = None <->
  forall r, In r (habits_tbl f) -> (h_id r =? hid)%Z = false.
Proof.
  unfold streakOf. rewrite <- find_none_all.
  destruct (find _ (habits_tbl f)); cbn [option_map]; split; congruence.
Qed.

(** A page that lists the stored habits lists no other id. *)
Lemma showsStore_absent (hid : Z) (f : Db) (hs : list Habit) :
  showsStore f hs -> streakOf hid f = None ->
  forall h, In h hs -> (id h =? hid)%Z = false.
Proof.
  unfold showsStore. intros Hsh Hno h Hh.
  rewrite streakOf_None in Hno.
  apply (in_map (fun h => (id h, name h, streak h))) in Hh.
  rewrite Hsh in Hh. apply in_map_iff in Hh as (r & Hr & Hin).
  injection Hr as <- _ _. now apply Hno.
Qed.

Lemma findIndex_None {A} (p : A -> bool) (l : list A) :
  (forall x, In x l -> p x = false) -> findIndex p l = None.
Proof.
  intros H. pose proof (findIndex_find p l) as Hf.
  now rewrite (proj2 (find_none_all p l) H) in Hf.
Qed.

Lemma trimStart_nil (s : jsstring) :
  trimStart s = [] <-> forallb isWhiteSpace s = true.
Proof.
  induction s as [|c s IH]; cbn [trimStart forallb]; [easy|].
  destruct (isWhiteSpace c); cbn [andb]; [exact IH|easy].
Qed.

Lemma trimStart_keeps_nonspace (s : jsstring) :
  forallb isWhiteSpace s = false -> forallb isWhiteSpace (trimStart s) = false.
Proof.
  induction s as [|c s IH]; cbn [trimStart forallb]; [easy|].
  destruct (isWhiteSpace c) eqn:E; cbn [andb]; [exact IH|].
  intros _. cbn [forallb]. now rewrite E.
Qed.

(** A name trims to the empty string exactly when it is empty or made of
    white space. *)
Lemma trim_nil (s : jsstring) :
  trim s = [] <-> forallb isWhiteSpace s = true.
Proof.
  unfold trim, trimEnd. split.
  - intros H. destruct (forallb isWhiteSpace s) eqn:E; [reflexivity|].
    exfalso. apply trimStart_keeps_nonspace in E.
    apply (f_equal (@rev N)) in H. rewrite rev_involutive in H.
    cbn [rev] in H. apply trimStart_nil in H.
    rewrite forallb_forall in H.
    assert (forallb isWhiteSpace (trimStart s) = true) as E'.
    { apply forallb_forall. intros x Hx. apply H. now apply in_rev in Hx. }
    congruence.
  - intros H. apply trimStart_nil in H. now rewrite H.
Qed.

(** C4.  Once the user accepts the confirmation dialog, [deleteHabit] on
    a store that answers removes the row of the habit and every master row
    that refers to it, and drops the habit from the page: no row, no record
    and no entry with that id is left.  It returns without an error whether
    or not the id exists; when no habit has the id, the habits table is
    untouched, and on a store without orphans shown by the page nothing
    changes at all.  Deleting again changes nothing. *)
Theorem C4_delete_cascades_and_is_idempotent
    (hid : Z) (f : Db) (v : Today.Vars) :
  Today.db v = true ->
  let r := exec (Today.deleteHabit hid true) [] (mkWorld f v) in
  let w' := snd r in
  fst r = Ok tt
  /\ habits_tbl (disk w')
     = filter (fun x => negb (h_id x =? hid)%Z) (habits_tbl f)
  /\ master_tbl (disk w')
     = filter (fun m => negb (m_habit_id m =? hid)%Z) (master_tbl f)
  /\ streakOf hid (disk w') = None
  /\ (forall m, In m (master_tbl (disk w')) -> m_habit_id m <> hid)
  /\ shownAs hid (Today.habits (vars w')) = None
  /\ (streakOf hid f = None -> habits_tbl (disk w') = habits_tbl f)
  /\ (streakOf hid f = None -> noOrphans f ->
      showsStore f (Today.habits v) -> w' = mkWorld f v)
  /\ exec (Today.deleteHabit hid true) [] w' = (Ok tt, w').
Proof.
  intros Hdb r w'. subst w' r.
  rewrite (today_deleteHabit_reliable hid f v Hdb).
  cbn [fst snd disk vars]. unfold delete_master_of, delete_habit.
  cbn [habits_tbl master_tbl habits_seq master_seq Today.habits
       Today.set_habits].
  assert (forall hs, shownAs hid
            (filter (fun h => negb (id h =? hid)%Z) hs) = None) as Hview.
  { intros hs. apply find_none_all. intros x Hx.
    apply filter_In in Hx as [_ Hx]. now apply negb_true_iff in Hx. }
  repeat split.
  - apply streakOf_None. cbn [habits_tbl]. intros x Hx.
    apply filter_In in Hx as [_ Hx]. now apply negb_true_iff in Hx.
  - intros m Hm. apply filter_In in Hm as [_ Hm].
    apply negb_true_iff, Z.eqb_neq in Hm. exact Hm.
  - apply Hview.
  - intros Hno. rewrite streakOf_None in Hno. apply filter_all.
    intros x Hx. now rewrite (Hno x Hx).
  - intros Hno Hor Hsh.
    pose proof (showsStore_absent hid f _ Hsh Hno) as Hv.
    rewrite streakOf_None in Hno.
    rewrite (filter_all _ (habits_tbl f))
      by (intros x Hx; now rewrite (Hno x Hx)).
    rewrite (filter_all _ (Today.habits v))
      by (intros x Hx; now rewrite (Hv x Hx)).
    rewrite (filter_all _ (master_tbl f)).
    + destruct f, v; reflexivity.
    + intros m Hm. apply negb_true_iff, Z.eqb_neq. intros E.
      apply Hor in Hm. rewrite E in Hm.
      apply in_map_iff in Hm as (x & Hx & Hin).
      specialize (Hno x Hin). apply Z.eqb_neq in Hno. contradiction.
  - rewrite today_deleteHabit_reliable by exact Hdb.
    unfold delete_master_of, delete_habit.
    cbn [habits_tbl master_tbl habits_seq master_seq Today.habits
         Today.set_habits Today.db Today.newHabitName Today.isAddingHabit].
    now rewrite !filter_idem.
Qed.

Lemma C4_delete_witness :
  let r := exec (Today.deleteHabit 1 true) [] Sample.toggled in
  fst r = Ok tt
  /\ streakOf 1 (disk (snd r)) = None
  /\ (forall m, In m (master_tbl (disk (snd r))) -> m_habit_id m <> 1%Z)
  /\ exec (Today.deleteHabit 1 true) [] (snd r) = (Ok tt, snd r).
Proof.
  destruct (C4_delete_cascades_and_is_idempotent
              1 (disk Sample.toggled) (vars Sample.toggled) eq_refl)
    as (H1 & _ & _ & H4 & H5 & _ & _ & _ & H9).
  repeat split; assumption.
Defined.

(** C5, amended.  With an empty or white-space name, [addHabit] returns at
    once: no error is raised, no store call is made and nothing changes.
    With any other name, on a store that answers, it appends to the habits
    table one row with the next id, the trimmed name and streak 0, leaves
    the master table alone and lists the new habit unchecked; no master row
    refers to the new id. *)
Theorem C5_addHabit_blank_or_inserted
    (now : Date) (f : Db) (v : Today.Vars) (fs : list bool) :
  (forallb isWhiteSpace (Today.newHabitName v) = true ->
   exec (Today.addHabit now) fs (mkWorld f v) = (Ok tt, mkWorld f v))
  /\
  (forallb isWhiteSpace (Today.newHabitName v) = false ->
   Today.db v = true ->
   idsIssued f (Today.habits v) ->
   let r := exec (Today.addHabit now) [] (mkWorld f v) in
   let hid := (habits_seq f + 1)%Z in
   let nm := trim (Today.newHabitName v) in
   fst r = Ok tt
   /\ habits_tbl (disk (snd r)) = habits_tbl f ++ [mkHabitRow hid nm 0]
   /\ master_tbl (disk (snd r)) = master_tbl f
   /\ (forall m, In m (master_tbl (disk (snd r))) -> m_habit_id m <> hid)
   /\ In (mkHabit hid nm 0 false) (Today.habits (vars (snd r)))).
Proof.
  split.
  - intros Hblank. apply trim_nil in Hblank.
    unfold exec, Today.addHabit, bind, get. cbn [vars].
    rewrite Hblank. reflexivity.
  - intros Hname Hdb (_ & Hm & _) r hid nm. subst r hid nm.
    assert (trim (Today.newHabitName v) <> []) as Hne.
    { intros E. apply trim_nil in E. congruence. }
    rewrite (today_addHabit_reliable now f v Hdb Hne).
    cbn [fst snd disk vars Today.habits]. unfold insert_habit.
    cbn [habits_tbl master_tbl].
    assert (forall m, In m (master_tbl f) ->
                      m_habit_id m <> (habits_seq f + 1)%Z) as Hfresh.
    { intros m Hin. rewrite Forall_forall in Hm. specialize (Hm m Hin). lia. }
    repeat split.
    + exact Hfresh.
    + rewrite map_app. apply in_or_app. right. left. cbn [h_id h_name h_streak].
      f_equal. unfold completedOn, recordOf. cbn [master_tbl].
      assert (find (fun m => (m_habit_id m =? habits_seq f + 1)%Z
                             && onDay (isoDay now) m) (master_tbl f) = None)
        as ->; [|reflexivity].
      apply find_none_all. intros m Hin.
      specialize (Hfresh m Hin). apply Z.eqb_neq in Hfresh.
      now rewrite Hfresh.
Qed.

Lemma C5_addHabit_witness :
  exec (Today.addHabit Sample.morning) [true]
       (Sample.typed "   " Sample.added)
  = (Ok tt, Sample.typed "   " Sample.added)
  /\ habits_tbl (disk (snd (exec (Today.addHabit Sample.morning) []
                              (Sample.typed " Stretch " Sample.added))))
     = habits_tbl (disk Sample.added) ++ [mkHabitRow 3 (lit "Stretch") 0].
Proof.
  split.
  - apply (proj1 (C5_addHabit_blank_or_inserted
                    Sample.morning (disk Sample.added)
                    (vars (Sample.typed "   " Sample.added)) [true])).
    reflexivity.
  - destruct (proj2 (C5_addHabit_blank_or_inserted
                       Sample.morning (disk Sample.added)
                       (vars (Sample.typed " Stretch " Sample.added)) []))
      as (_ & H & _).
    + reflexivity.
    + reflexivity.
    + vm_compute. repeat split; repeat constructor; discriminate.
    + exact H.
Defined.

(** C5 as stated fails: a white-space name raises no error.  [addHabit]
    returns normally and leaves the store and the page as they were. *)
Lemma C5_blank_name_counterexample :
  let w := Sample.typed "  " Sample.mounted in
  forallb isWhiteSpace (Today.newHabitName (vars w)) = true
  /\ exec (Today.addHabit Sample.morning) [] w = (Ok tt, w)
  /\ (forall e, fst (exec (Today.addHabit Sample.morning) [] w) <> Throw e).
Proof.
  cbv zeta. split; [reflexivity|]. split; [reflexivity|].
  intros e. vm_compute. discriminate.
Qed.

Lemma shownAs_None_findIndex (hid : Z) (hs : list Habit) :
  shownAs hid hs = None ->
  findIndex (fun x => (id x =? hid)%Z) hs = None.
Proof.
  unfold shownAs. intros H.
  pose proof (findIndex_find (fun x => (id x =? hid)%Z) hs) as Hf.
  now rewrite H in Hf.
Qed.

Lemma showsStore_unlisted (hid : Z) (f : Db) (hs : list Habit) :
  showsStore f hs -> streakOf hid f = None -> shownAs hid hs = None.
Proof.
  intros Hsh Hno. unfold shownAs. apply find_none_all.
  exact (showsStore_absent hid f hs Hsh Hno).
Qed.

(** The streak write of a toggle finds no row when the habit has none. *)
Lemma update_streak_absent (ns hid : Z) (f : Db) :
  streakOf hid f = None -> update_streak ns hid f = f.
Proof.
  intros Hno. rewrite streakOf_None in Hno.
  destruct f as [hb ms hq mq]. unfold update_streak.
  cbn [habits_tbl master_tbl habits_seq master_seq] in *. f_equal.
  transitivity (map (fun r : HabitRow => r) hb); [|apply map_id].
  apply map_ext_in. intros r Hr. now rewrite (Hno r Hr).
Qed.

Lemma streakOf_recordWritten (k hid : Z) (day stamp : jsstring) (f : Db) :
  streakOf k (recordWritten hid day stamp f) = streakOf k f.
Proof. unfold streakOf. now rewrite recordWritten_habits. Qed.

(** C6, amended.  The guard of a toggle is the list of the page, not the
    store.  A toggle of an id that the page does not list returns at once
    on both pages: no error is raised, no store call is made and nothing
    changes, whatever the store would answer.  On a page that lists the
    stored habits, an id that no stored habit has is not listed, so its
    toggle is that silent return.  An id that is still listed while its
    row is gone is toggled like any other: on a store that answers, the
    day's record is written, the streak write finds no row, and the entry
    on the page is rewritten. *)
Theorem C6_toggle_of_unknown_habit
    (hid : Z) (f : Db) (now : Date)
    (v : Today.Vars) (u : History.Vars) (fs : list bool) :
  (shownAs hid (Today.habits v) = None ->
   exec (Today.toggleHabit hid now) fs (mkWorld f v) = (Ok tt, mkWorld f v))
  /\ (shownAs hid (History.habitsForDate u) = None ->
      exec (History.toggleHabit hid) fs (mkWorld f u) = (Ok tt, mkWorld f u))
  /\ (streakOf hid f = None ->
      (showsStore f (Today.habits v) -> shownAs hid (Today.habits v) = None)
      /\ (showsStore f (History.habitsForDate u) ->
          shownAs hid (History.habitsForDate u) = None))
  /\ (forall h : Habit,
        streakOf hid f = None -> Today.db v = true ->
        shownAs hid (Today.habits v) = Some h ->
        let day := isoDay now in
        let flag := negb (completedOn hid day f) in
        let r := exec (Today.toggleHabit hid now) [] (mkWorld f v) in
        fst r = Ok tt
        /\ disk (snd r) = recordWritten hid day (toISOString now) f
        /\ completedOn hid day (disk (snd r)) = flag
        /\ shownAs hid (Today.habits (vars (snd r)))
           = Some (mkHabit (id h) (name h) (adjust flag (streak h)) flag))
  /\ (forall h : Habit,
        streakOf hid f = None -> History.db u = true ->
        isDay (History.selectedDate u) = true ->
        shownAs hid (History.habitsForDate u) = Some h ->
        let day := History.selectedDate u in
        let flag := negb (completedOn hid day f) in
        let r := exec (History.toggleHabit hid) [] (mkWorld f u) in
        fst r = Ok tt
        /\ disk (snd r)
           = recordWritten hid day (day ++ lit "T00:00:00.000Z") f
        /\ completedOn hid day (disk (snd r)) = flag
        /\ shownAs hid (History.habitsForDate (vars (snd r)))
           = Some (mkHabit (id h) (name h) (adjust flag (streak h)) flag)).
Proof.
  split; [|split; [|split; [|split]]].
  - intros Hno. apply shownAs_None_findIndex in Hno.
    unfold exec, Today.toggleHabit, bind, get. cbn [vars].
    rewrite Hno. reflexivity.
  - intros Hno. apply shownAs_None_findIndex in Hno.
    unfold exec, History.toggleHabit, bind, get. cbn [vars].
    rewrite Hno. reflexivity.
  - intros Hno. split; intros Hsh; now apply showsStore_unlisted with f.
  - intros h Hno Hdb Hh. cbv zeta.
    destruct (shownAs_index _ _ _ Hh) as (i & Hi & Hn).
    rewrite (today_toggle_reliable hid now f v i h Hdb Hi Hn).
    cbn [fst snd disk vars Today.set_habits Today.habits].
    rewrite update_streak_absent
      by (now rewrite streakOf_recordWritten).
    split; [reflexivity|]. split; [reflexivity|]. split.
    + apply completedOn_recordWritten, startsWith_toISOString.
    + now apply shownAs_entryWritten.
  - intros h Hno Hdb Hd Hh. cbv zeta. unfold isDay in Hd.
    destruct (parseDate (History.selectedDate u)) as [d|] eqn:Ed;
      [|discriminate].
    destruct (shownAs_index _ _ _ Hh) as (i & Hi & Hn).
    rewrite (history_toggle_reliable hid f u i h d Hdb Hi Hn Ed).
    cbn [fst snd disk vars History.set_habitsForDate History.habitsForDate].
    rewrite update_streak_absent
      by (now rewrite streakOf_recordWritten).
    split; [reflexivity|]. split; [reflexivity|]. split.
    + apply completedOn_recordWritten, startsWith_app.
    + now apply shownAs_entryWritten.
Qed.

Lemma C6_toggle_unknown_witness :
  exec (Today.toggleHabit 7 Sample.morning) [true]
       (mkWorld (disk Sample.toggled) (vars Sample.toggled))
  = (Ok tt, mkWorld (disk Sample.toggled) (vars Sample.toggled))
  /\ exec (History.toggleHabit 7) [true]
          (mkWorld (disk Sample.toggled) (vars Sample.history))
     = (Ok tt, mkWorld (disk Sample.toggled) (vars Sample.history))
  /\ disk (snd (exec (Today.toggleHabit 1 Sample.evening) []
                  (mkWorld (disk Sample.halfDeleted)
                           (vars Sample.halfDeleted))))
     = recordWritten 1 (isoDay Sample.evening) (toISOString Sample.evening)
         (disk Sample.halfDeleted)
  /\ disk (snd (exec (History.toggleHabit 1) []
                  (mkWorld (disk Sample.halfDeleted)
                           (vars Sample.history))))
     = recordWritten 1 (History.selectedDate (vars Sample.history))
         (History.selectedDate (vars Sample.history)
          ++ lit "T00:00:00.000Z")
         (disk Sample.halfDeleted).
Proof.
  destruct (C6_toggle_of_unknown_habit
              7 (disk Sample.toggled) Sample.morning
              (vars Sample.toggled) (vars Sample.history) [true])
    as (HT & HH & HS & _ & _).
  destruct (C6_toggle_of_unknown_habit
              1 (disk Sample.halfDeleted) Sample.evening
              (vars Sample.halfDeleted) (vars Sample.history) [])
    as (_ & _ & _ & HL & HM).
  assert (streakOf 7 (disk Sample.toggled) = None) as H7
    by (vm_compute; reflexivity).
  assert (showsStore (disk Sample.toggled)
            (Today.habits (vars Sample.toggled))) as Hst
    by (vm_compute; reflexivity).
  assert (showsStore (disk Sample.toggled)
            (History.habitsForDate (vars Sample.history))) as Hsh
    by (vm_compute; reflexivity).
  destruct (HS H7) as [HSt HSh].
  split; [exact (HT (HSt Hst))|].
  split; [exact (HH (HSh Hsh))|].
  split.
  - apply (HL (mkHabit 1 (lit "Drink water") 0 false));
      vm_compute; reflexivity.
  - apply (HM (mkHabit 1 (lit "Drink water") 1 false));
      vm_compute; reflexivity.
Defined.

(** C6 as stated fails: the toggle of an id that does not exist raises no
    error.  It returns normally, with nothing changed. *)
Lemma C6_no_error_counterexample :
  streakOf 7 (disk Sample.toggled) = None
  /\ exec (Today.toggleHabit 7 Sample.morning) [] Sample.toggled
     = (Ok tt, Sample.toggled)
  /\ (forall e,
        fst (exec (Today.toggleHabit 7 Sample.morning) [] Sample.toggled)
        <> Throw e).
Proof.
  split; [reflexivity|]. split; [reflexivity|].
  intros e. vm_compute. discriminate.
Qed.

(* ===================================================================== *)
(** ** A toggle on a store that fails partway *)
(* ===================================================================== *)

Lemma today_toggle_cut (hid : Z) (now : Date) (f : Db) (v : Today.Vars)
      (i : nat) (h : Habit) :
  Today.db v = true ->
  findIndex (fun x => (id x =? hid)%Z) (Today.habits v) = Some i ->
  nth_error (Today.habits v) i = Some h ->
  let w := mkWorld f v in
  exec (Today.toggleHabit hid now) [true] w = (Throw StoreError, w)
  /\ exec (Today.toggleHabit hid now) [false; true] w = (Throw StoreError, w)
  /\ exec (Today.toggleHabit hid now) [false; false; true] w
     = (Throw StoreError,
        mkWorld (recordWritten hid (isoDay now) (toISOString now) f) v).
Proof.
  intros Hdb Hi Hh w. subst w.
  repeat split;
    unfold exec, Today.toggleHabit, bind at 1, get at 1; cbn [vars];
    rewrite Hi, beforeT_toISOString;
    unfold Today.dbSelect, Today.dbExecute, Today.printTables, try_catch,
      select, execute, bind, get, call, modify, ret; cbn [vars disk];
    rewrite Hdb; cbn [vars disk]; try reflexivity;
    rewrite select_master_of_plain by apply isoDay_plain;
    unfold recordWritten;
    destruct (recordOf hid (isoDay now) f) as [m|];
    repeat (cbn; rewrite ?Hdb, ?Hh); reflexivity.
Qed.

Lemma history_toggle_cut (hid : Z) (f : Db) (v : History.Vars)
      (i : nat) (h : Habit) (d : Date) :
  History.db v = true ->
  findIndex (fun x => (id x =? hid)%Z) (History.habitsForDate v) = Some i ->
  nth_error (History.habitsForDate v) i = Some h ->
  parseDate (History.selectedDate v) = Some d ->
  let w := mkWorld f v in
  let day := History.selectedDate v in
  exec (History.toggleHabit hid) [true] w = (Throw StoreError, w)
  /\ exec (History.toggleHabit hid) [false; true] w = (Throw StoreError, w)
  /\ exec (History.toggleHabit hid) [false; false; true] w
     = (Throw StoreError,
        mkWorld (recordWritten hid day (day ++ lit "T00:00:00.000Z") f) v).
Proof.
  intros Hdb Hi Hh Hd w day. subst w day.
  destruct (parseDate_Some _ _ Hd) as (_ & Hiso & Hplain & _).
  repeat split;
    unfold exec, History.toggleHabit, bind at 1, get at 1; cbn [vars];
    rewrite Hi; unfold History.isoOfSelected; rewrite Hd, Hiso;
    unfold History.dbSelect, History.dbExecute, select, execute, bind, get,
      call, modify, ret; cbn [vars disk];
    rewrite Hdb; cbn [vars disk]; try reflexivity;
    rewrite select_master_of_plain by exact Hplain;
    unfold recordWritten;
    destruct (recordOf hid (History.selectedDate v) f) as [m|];
    repeat (cbn; rewrite ?Hdb, ?Hh); reflexivity.
Qed.

(** C9, amended.  A toggle makes three store calls in a row, with no
    transaction around them: the lookup of the day's record, the record
    write and the streak write.  When the lookup or the record write
    fails, the toggle throws and nothing has changed.  When the streak
    write fails, the toggle throws with the record write in place and
    with the habits table and the page as they were.  When no call fails
    both writes are made. *)
Theorem C9_toggle_writes_are_separate
    (hid : Z) (f : Db) (now : Date)
    (v : Today.Vars) (u : History.Vars) (h h' : Habit) :
  (Today.db v = true ->
   shownAs hid (Today.habits v) = Some h ->
   let w := mkWorld f v in
   let written := recordWritten hid (isoDay now) (toISOString now) f in
   let flag := negb (completedOn hid (isoDay now) f) in
   exec (Today.toggleHabit hid now) [true] w = (Throw StoreError, w)
   /\ exec (Today.toggleHabit hid now) [false; true] w
      = (Throw StoreError, w)
   /\ exec (Today.toggleHabit hid now) [false; false; true] w
      = (Throw StoreError, mkWorld written v)
   /\ (fst (exec (Today.toggleHabit hid now) [] w) = Ok tt
       /\ disk (snd (exec (Today.toggleHabit hid now) [] w))
          = update_streak (adjust flag (streak h)) hid written))
  /\
  (History.db u = true ->
   shownAs hid (History.habitsForDate u) = Some h' ->
   isDay (History.selectedDate u) = true ->
   let w := mkWorld f u in
   let day := History.selectedDate u in
   let written := recordWritten hid day (day ++ lit "T00:00:00.000Z") f in
   let flag := negb (completedOn hid day f) in
   exec (History.toggleHabit hid) [true] w = (Throw StoreError, w)
   /\ exec (History.toggleHabit hid) [false; true] w = (Throw StoreError, w)
   /\ exec (History.toggleHabit hid) [false; false; true] w
      = (Throw StoreError, mkWorld written u)
   /\ (fst (exec (History.toggleHabit hid) [] w) = Ok tt
       /\ disk (snd (exec (History.toggleHabit hid) [] w))
          = update_streak (adjust flag (streak h')) hid written)).
Proof.
  split.
  - intros Hdb Hsh. destruct (shownAs_index _ _ _ Hsh) as (i & Hi & Hh).
    destruct (today_toggle_cut hid now f v i h Hdb Hi Hh) as (H1 & H2 & H3).
    cbv zeta. rewrite (today_toggle_reliable hid now f v i h Hdb Hi Hh).
    repeat split; assumption.
  - intros Hdb Hsh Hday. destruct (shownAs_index _ _ _ Hsh) as (i & Hi & Hh).
    unfold isDay in Hday.
    destruct (parseDate (History.selectedDate u)) as [d|] eqn:Hd;
      [|discriminate].
    destruct (history_toggle_cut hid f u i h' d Hdb Hi Hh Hd)
      as (H1 & H2 & H3).
    cbv zeta. rewrite (history_toggle_reliable hid f u i h' d Hdb Hi Hh Hd).
    repeat split; assumption.
Qed.

Lemma C9_toggle_writes_witness :
  exec (Today.toggleHabit 1 Sample.morning) [false; true] Sample.added
  = (Throw StoreError, Sample.added)
  /\ exec (History.toggleHabit 1) [false; false; true]
          (Sample.picked "2025-04-13")
     = (Throw StoreError,
        mkWorld (recordWritten 1 (lit "2025-04-13")
                   (lit "2025-04-13T00:00:00.000Z")
                   (disk (Sample.picked "2025-04-13")))
                (vars (Sample.picked "2025-04-13"))).
Proof.
  destruct (C9_toggle_writes_are_separate
              1 (disk Sample.added) Sample.morning
              (vars Sample.added) (vars Sample.history)
              (mkHabit 1 (lit "Drink water") 0 false)
              (mkHabit 1 (lit "Drink water") 0 false)) as [HT _].
  destruct (C9_toggle_writes_are_separate
              1 (disk (Sample.picked "2025-04-13")) Sample.morning
              (vars Sample.added) (vars (Sample.picked "2025-04-13"))
              (mkHabit 1 (lit "Drink water") 1 false)
              (mkHabit 1 (lit "Drink water") 1 false)) as [_ HH].
  split.
  - apply HT; reflexivity.
  - apply HH; reflexivity.
Defined.

(** C9 as stated fails: the writes of a toggle are not one transaction.
    When the store fails on the streak write, the record of the day is
    left completed while the stored streak and the page still show the
    habit as it was. *)
Lemma C9_split_write_counterexample :
  let day := isoDay Sample.morning in
  let r := exec (Today.toggleHabit 1 Sample.morning) [false; false; true]
                Sample.added in
  fst r = Throw StoreError
  /\ completedOn 1 day (disk Sample.added) = false
  /\ completedOn 1 day (disk (snd r)) = true
  /\ streakOf 1 (disk Sample.added) = Some 0%Z
  /\ streakOf 1 (disk (snd r)) = Some 0%Z
  /\ shownAs 1 (Today.habits (vars (snd r)))
     = Some (mkHabit 1 (lit "Drink water") 0 false).
Proof. cbv zeta. repeat split. Qed.

(* ===================================================================== *)
(** ** Runs on a store that answers every call *)
(* ===================================================================== *)

(** The assumptions of the statements above on the store and on the page
    (distinct primary keys, no orphans, a page that shows the stored
    habits) hold along every run in which no store call fails. *)

Lemma showsStore_merge (f : Db) (ms : list MasterRow) :
  showsStore f (mergeHabits (select_habits f) ms).
Proof.
  unfold showsStore, mergeHabits, select_habits. rewrite map_map.
  apply map_ext. reflexivity.
Qed.

Lemma showsStore_listing (f : Db) (flag : Z -> bool) :
  showsStore f (map (fun r => mkHabit (h_id r) (h_name r) (h_streak r)
                                      (flag (h_id r))) (habits_tbl f)).
Proof. unfold showsStore. rewrite map_map. apply map_ext. reflexivity. Qed.

Lemma showsStore_ids (f : Db) (hs : list Habit) :
  showsStore f hs -> map id hs = map h_id (habits_tbl f).
Proof.
  unfold showsStore. intros H.
  apply (f_equal (map (fun t : Z * jsstring * Z => fst (fst t)))) in H.
  rewrite !map_map in H. exact H.
Qed.

Lemma showsStore_toggle (hid ns : Z) (u : bool) (rows : list HabitRow)
      (hs : list Habit) (i : nat) (h : Habit) :
  map (fun x => (id x, name x, streak x)) hs
  = map (fun r => (h_id r, h_name r, h_streak r)) rows ->
  NoDup (map h_id rows) ->
  findIndex (fun x => (id x =? hid)%Z) hs = Some i ->
  nth_error hs i = Some h ->
  map (fun x => (id x, name x, streak x))
      (setAt i (mkHabit (id h) (name h) ns u) hs)
  = map (fun r => (h_id r, h_name r, h_streak r))
        (map (fun r => if (h_id r =? hid)%Z
                       then mkHabitRow (h_id r) (h_name r) ns else r) rows).
Proof.
  revert rows i. induction hs as [|x hs IH]; intros [|r rows] i Hsh Hnd;
    cbn [map findIndex] in *; try discriminate.
  injection Hsh as Hid Hnm Hst Hsh. inversion Hnd as [|? ? Hr Hnd']; subst.
  destruct (id x =? hid)%Z eqn:Ex.
  - intros [= <-] [= <-]. cbn [setAt map id name streak].
    rewrite <- Hid, Ex. cbn [h_id h_name h_streak]. rewrite Hid, Hnm.
    f_equal. rewrite Hsh. f_equal. symmetry.
    transitivity (map (fun r' : HabitRow => r') rows); [|apply map_id].
    apply map_ext_in.
    intros r' Hr'. destruct (h_id r' =? hid)%Z eqn:E; [|reflexivity].
    exfalso. apply Hr. apply Z.eqb_eq in E, Ex.
    rewrite <- Hid, Ex, <- E. now apply in_map.
  - destruct (findIndex _ hs) as [j|] eqn:Ej; [|discriminate].
    intros [= <-] Hn. cbn [setAt map nth_error] in *.
    rewrite <- Hid, Ex. rewrite (IH rows j Hsh Hnd' eq_refl Hn).
    now rewrite Hid, Hnm, Hst.
Qed.

Lemma showsStore_filter (hid : Z) (rows : list HabitRow) (hs : list Habit) :
  map (fun x => (id x, name x, streak x)) hs
  = map (fun r => (h_id r, h_name r, h_streak r)) rows ->
  map (fun x => (id x, name x, streak x))
      (filter (fun x => negb (id x =? hid)%Z) hs)
  = map (fun r => (h_id r, h_name r, h_streak r))
        (filter (fun r => negb (h_id r =? hid)%Z) rows).
Proof.
  revert rows. induction hs as [|x hs IH]; intros [|r rows] Hsh;
    cbn [map filter] in *; try discriminate; [reflexivity|].
  injection Hsh as Hid Hnm Hst Hsh. rewrite <- Hid.
  destruct (id x =? hid)%Z; cbn [negb map]; rewrite (IH rows Hsh);
    [reflexivity|]. now rewrite Hid, Hnm, Hst.
Qed.

Lemma NoDup_map_filter {A B} (k : A -> B) (p : A -> bool) (l : list A) :
  NoDup (map k l) -> NoDup (map k (filter p l)).
Proof.
  induction l as [|x l IH]; cbn [map filter]; intros H; [constructor|].
  inversion H as [|? ? Hx Hl]; subst.
  destruct (p x); [|now apply IH]. cbn [map]. constructor; [|now apply IH].
  intros Hin. apply Hx. apply in_map_iff in Hin as (y & Hy & Hin).
  apply filter_In in Hin as [Hin _]. rewrite <- Hy. now apply in_map.
Qed.

Lemma storeOk_insert_habit (nm : jsstring) (f : Db) (hs : list Habit) :
  storeOk f -> sound f hs -> storeOk (insert_habit nm 0 f).
Proof.
  intros (H1 & H2 & H3 & H4) [_ (Hid & _ & _)].
  unfold storeOk, noOrphans, insert_habit.
  cbn [habits_tbl master_tbl master_seq]. repeat split; try assumption.
  - rewrite map_app. cbn [map h_id].
    apply NoDup_app; [exact H1|repeat constructor; intros []|].
    intros x Hx [<-|[]]. apply in_map_iff in Hx as (r & Hr & Hin).
    rewrite Forall_forall in Hid. specialize (Hid r Hin). lia.
  - intros m Hm. rewrite map_app. apply in_or_app. left. now apply H4.
Qed.

Lemma storeOk_delete (hid : Z) (f : Db) :
  storeOk f -> storeOk (delete_master_of hid (delete_habit hid f)).
Proof.
  intros (H1 & H2 & H3 & H4). unfold storeOk, noOrphans.
  unfold delete_master_of, delete_habit.
  cbn [habits_tbl master_tbl master_seq]. repeat split.
  - now apply NoDup_map_filter.
  - now apply NoDup_map_filter.
  - now apply Forall_filter.
  - intros m Hm. apply filter_In in Hm as [Hin Hne].
    specialize (H4 m Hin). apply in_map_iff in H4 as (r & Hr & Hrin).
    apply in_map_iff. exists r. split; [exact Hr|].
    apply filter_In. split; [exact Hrin|]. now rewrite Hr.
Qed.

Lemma storeOk_toggle (hid ns : Z) (day stamp : jsstring) (f : Db) :
  storeOk f -> In hid (map h_id (habits_tbl f)) ->
  storeOk (update_streak ns hid (recordWritten hid day stamp f)).
Proof.
  intros (H1 & H2 & H3 & H4) Hin.
  assert (map h_id (habits_tbl (update_streak ns hid
                                  (recordWritten hid day stamp f)))
          = map h_id (habits_tbl f)) as Hids.
  { unfold update_streak. cbn [habits_tbl]. rewrite recordWritten_habits.
    rewrite map_map. apply map_ext. intros r.
    now destruct (h_id r =? hid)%Z. }
  unfold storeOk, noOrphans. rewrite Hids, update_streak_master.
  unfold update_streak at 1. cbn [master_seq].
  unfold recordWritten. destruct (recordOf hid day f) as [m|].
  - unfold update_master. cbn [master_tbl master_seq].
    assert (forall c, map m_id
              (map (fun x => if (m_id x =? m_id m)%Z
                             then mkMasterRow (m_id x) (m_habit_id x) c
                                    (m_completed_repeats x) stamp
                             else x) (master_tbl f))
            = map m_id (master_tbl f)) as Hk.
    { intros c. rewrite map_map. apply map_ext. intros x.
      now destruct (m_id x =? m_id m)%Z. }
    repeat split; try assumption.
    + now rewrite Hk.
    + apply Forall_map. revert H3. apply Forall_impl. intros x Hx.
      now destruct (m_id x =? m_id m)%Z.
    + intros x Hx. apply in_map_iff in Hx as (y & Hy & Hyin).
      specialize (H4 y Hyin). destruct (m_id y =? m_id m)%Z; now subst x.
  - unfold insert_master. cbn [master_tbl master_seq].
    repeat split; try assumption.
    + rewrite map_app. cbn [map m_id].
      apply NoDup_app; [exact H2|repeat constructor; intros []|].
      intros x Hx [<-|[]]. apply in_map_iff in Hx as (r & Hr & Hrin).
      rewrite Forall_forall in H3. specialize (H3 r Hrin). lia.
    + apply Forall_app. split.
      * revert H3. apply Forall_impl. intros; lia.
      * constructor; [cbn; lia|constructor].
    + intros x Hx. apply in_app_or in Hx as [Hx|[<-|[]]]; [now apply H4|].
      exact Hin.
Qed.

Lemma today_onMount_reliable (now : Date) (f : Db) :
  exec (Today.onMount now) [] (mkWorld f Today.initial)
  = (Ok tt,
     mkWorld f
       (Today.mkVars true
          (mergeHabits (select_habits f)
             (select_master_like (dayPattern (beforeT (toISOString now))) f))
          [] false)).
Proof. reflexivity. Qed.

Lemma history_onMount_reliable (now : Date) (f : Db) :
  exec History.onMount [] (mkWorld f (History.initial now))
  = (Ok tt,
     mkWorld f
       (History.mkVars true
          (mergeHabits (select_habits f)
             (select_master_like (dayPattern (beforeT (toISOString now))) f))
          (beforeT (toISOString now)))).
Proof. reflexivity. Qed.

Lemma history_handleDateChange_reliable (value : jsstring) (f : Db)
      (v : History.Vars) :
  History.db v = true ->
  exec (History.handleDateChange value) [] (mkWorld f v)
  = (Ok tt,
     mkWorld f
       (History.mkVars true
          (mergeHabits (select_habits f)
             (select_master_like (dayPattern value) f))
          value)).
Proof.
  intros Hdb.
  unfold exec, History.handleDateChange, detached, History.fetchHabits,
    History.getHabitsForDate, History.dbSelect, select, bind, get, call,
    modify, ret.
  repeat (cbn; rewrite ?Hdb).
  unfold History.set_habitsForDate, History.set_selectedDate. cbn.
  now rewrite Hdb.
Qed.

Lemma today_toggle_unlisted (hid : Z) (now : Date) (fs : list bool)
      (w : World Today.Vars) :
  findIndex (fun x => (id x =? hid)%Z) (Today.habits (vars w)) = None ->
  exec (Today.toggleHabit hid now) fs w = (Ok tt, w).
Proof.
  intros Hi. unfold exec, Today.toggleHabit, bind, get. now rewrite Hi.
Qed.

Lemma history_toggle_unlisted (hid : Z) (fs : list bool)
      (w : World History.Vars) :
  findIndex (fun x => (id x =? hid)%Z) (History.habitsForDate (vars w)) = None ->
  exec (History.toggleHabit hid) fs w = (Ok tt, w).
Proof.
  intros Hi. unfold exec, History.toggleHabit, bind, get. now rewrite Hi.
Qed.

(** With the date input empty, a toggle on the history page stops at
    [toISOString], before any store call. *)
Lemma history_toggle_invalid_date (hid : Z) (fs : list bool)
      (w : World History.Vars) (i : nat) :
  findIndex (fun x => (id x =? hid)%Z) (History.habitsForDate (vars w))
  = Some i ->
  parseDate (History.selectedDate (vars w)) = None ->
  exec (History.toggleHabit hid) fs w = (Throw RangeError, w).
Proof.
  intros Hi Hd.
  unfold exec, History.toggleHabit, History.isoOfSelected, bind, get, throw.
  now rewrite Hi, Hd.
Qed.

Lemma today_addHabit_blank (now : Date) (fs : list bool)
      (w : World Today.Vars) :
  trim (Today.newHabitName (vars w)) = [] ->
  exec (Today.addHabit now) fs w = (Ok tt, w).
Proof.
  intros Hb. unfold exec, Today.addHabit, bind, get. now rewrite Hb.
Qed.

Lemma showsStore_after_toggle (hid : Z) (day stamp : jsstring) (flag : bool)
      (f : Db) (hs : list Habit) (i : nat) (h : Habit) :
  showsStore f hs -> NoDup (map h_id (habits_tbl f)) ->
  findIndex (fun x => (id x =? hid)%Z) hs = Some i ->
  nth_error hs i = Some h ->
  showsStore (update_streak (adjust flag (streak h)) hid
                (recordWritten hid day stamp f))
             (entryWritten i h flag hs).
Proof.
  intros Hsh Hnd Hi Hh. unfold showsStore, entryWritten, update_streak.
  cbn [habits_tbl]. rewrite recordWritten_habits.
  now apply showsStore_toggle.
Qed.

Lemma listed_is_stored (hid : Z) (f : Db) (hs : list Habit) (i : nat) :
  showsStore f hs ->
  findIndex (fun x => (id x =? hid)%Z) hs = Some i ->
  In hid (map h_id (habits_tbl f)).
Proof.
  intros Hsh Hi. destruct (findIndex_Some _ _ _ Hi) as (x & Hx & _ & Hid).
  apply Z.eqb_eq in Hid. rewrite <- (showsStore_ids f hs Hsh), <- Hid.
  apply in_map. now apply nth_error_In in Hx.
Qed.

(** One action whose store calls are all answered keeps the store and the
    page consistent. *)
Lemma step_consistent (s : App.State) (op : App.Op) :
  App.outcomes op = [] ->
  sound (App.file s) (App.shown s) ->
  App.loaded s = true /\ storeOk (App.file s)
  /\ showsStore (App.file s) (App.shown s) ->
  App.loaded (App.step s op) = true /\ storeOk (App.file (App.step s op))
  /\ showsStore (App.file (App.step s op)) (App.shown (App.step s op)).
Proof.
  intros Hout Hsound (Hdb & Hok & Hsh). destruct s as [f pg].
  unfold App.loaded, App.shown in *. cbn [App.file App.page] in *.
  destruct op; cbn [App.outcomes] in Hout; subst;
    destruct pg as [v|v]; cbn [App.step App.page App.file];
    unfold App.runToday, App.runHistory; cbn [App.file App.page];
    try (split; [assumption|split; assumption]);
    rewrite ?today_onMount_reliable, ?history_onMount_reliable;
    try (cbn [snd disk vars Today.db Today.habits History.db
              History.habitsForDate];
         repeat split; try apply Hok; apply showsStore_merge).
  - (* addHabit *)
    destruct (trim (Today.newHabitName v)) as [|c n] eqn:Et.
    + rewrite today_addHabit_blank by exact Et. auto.
    + rewrite today_addHabit_reliable by (try assumption; congruence).
      cbn [snd disk vars Today.db Today.habits]. rewrite Et.
      split; [reflexivity|]. split.
      * now apply storeOk_insert_habit with (Today.habits v).
      * apply (showsStore_listing _
                 (fun k => completedOn k (isoDay now)
                             (insert_habit (c :: n) 0 f))).
  - (* toggleHabit, today *)
    destruct (findIndex (fun x => (id x =? hid)%Z) (Today.habits v))
      as [i|] eqn:Hi.
    + destruct (findIndex_Some _ _ _ Hi) as (h & Hh & _).
      rewrite (today_toggle_reliable hid now f v i h Hdb Hi Hh).
      cbn [snd disk vars Today.db Today.habits Today.set_habits].
      split; [exact Hdb|]. split.
      * apply storeOk_toggle; [exact Hok|].
        now apply listed_is_stored with (Today.habits v) i.
      * apply showsStore_after_toggle; try assumption. apply Hok.
    + rewrite today_toggle_unlisted by exact Hi. auto.
  - (* deleteHabit *)
    destruct answer; [|auto].
    rewrite today_deleteHabit_reliable by exact Hdb.
    cbn [snd disk vars Today.db Today.habits Today.set_habits].
    split; [exact Hdb|]. split; [now apply storeOk_delete|].
    unfold showsStore, delete_master_of, delete_habit. cbn [habits_tbl].
    now apply showsStore_filter.
  - (* handleDateChange *)
    rewrite history_handleDateChange_reliable by exact Hdb.
    cbn [snd disk vars History.db History.habitsForDate].
    repeat split; try apply Hok. apply showsStore_merge.
  - (* toggleHabit, history *)
    destruct (findIndex (fun x => (id x =? hid)%Z) (History.habitsForDate v))
      as [i|] eqn:Hi.
    + destruct (parseDate (History.selectedDate v)) as [d|] eqn:Hd.
      * destruct (findIndex_Some _ _ _ Hi) as (h & Hh & _).
        rewrite (history_toggle_reliable hid f v i h d Hdb Hi Hh Hd).
        cbn [snd disk vars History.db History.habitsForDate
             History.set_habitsForDate].
        split; [exact Hdb|]. split.
        -- apply storeOk_toggle; [exact Hok|].
           now apply listed_is_stored with (History.habitsForDate v) i.
        -- apply showsStore_after_toggle; try assumption. apply Hok.
      * rewrite (history_toggle_invalid_date hid [] (mkWorld f v) i Hi Hd).
        auto.
    + rewrite history_toggle_unlisted by exact Hi. auto.
Qed.

(** Along every run that starts by mounting the today page on a fresh
    install and in which the store answers every call, the page is
    connected and shows the stored habits, streaks are non-negative, and
    the store has distinct keys and no orphan. *)
Lemma answered_runs_consistent (now : Date) (ops : list App.Op) :
  Forall (fun op => App.outcomes op = []) ops ->
  let s := App.run ops (App.step App.init (App.VisitToday now [])) in
  App.loaded s = true /\ storeOk (App.file s)
  /\ showsStore (App.file s) (App.shown s)
  /\ sound (App.file s) (App.shown s).
Proof.
  intros Hops. cbv zeta.
  set (s0 := App.step App.init (App.VisitToday now [])).
  assert (sound (App.file s0) (App.shown s0)) as Hs0
    by (apply step_sound, init_sound).
  assert (App.loaded s0 = true /\ storeOk (App.file s0)
          /\ showsStore (App.file s0) (App.shown s0)) as Hc0.
  { repeat split; try constructor. intros m []. }
  clearbody s0. revert s0 Hs0 Hc0.
  induction Hops as [|op ops Hop Hops IH]; intros s Hs Hc.
  - cbn [App.run fold_left]. tauto.
  - cbn [App.run fold_left]. apply IH.
    + now apply step_sound.
    + now apply step_consistent.
Qed.

(** On a page that shows the stored habits, the streak shown for a habit
    is its stored streak. *)
Lemma shown_streak_is_stored (hid : Z) (f : Db) (hs : list Habit) (h : Habit) :
  showsStore f hs -> shownAs hid hs = Some h ->
  streakOf hid f = Some (streak h).
Proof.
  unfold showsStore, shownAs, streakOf.
  generalize (habits_tbl f) as rows. induction hs as [|x hs IH];
    intros [|r rows] Hsh; cbn [map find] in *; try discriminate.
  injection Hsh as Hid Hnm Hst Hsh. rewrite <- Hid.
  destruct (id x =? hid)%Z.
  - intros [= <-]. cbn [option_map]. now rewrite Hst.
  - now apply IH.
Qed.

(* ===================================================================== *)
(** ** The scenarios of the specification, run *)
(* ===================================================================== *)

(** Create "Drink water": streak 0, not completed today.  Toggle it:
    completed, streak 1.  Again: not completed, streak 0.  A third time:
    completed, streak 1. *)
Example scenario_three_toggles :
  let w0 := snd (exec (Today.addHabit Sample.morning) []
                   (Sample.typed "Drink water" Sample.mounted)) in
  let w1 := snd (exec (Today.toggleHabit 1 Sample.morning) [] w0) in
  let w2 := snd (exec (Today.toggleHabit 1 Sample.evening) [] w1) in
  let w3 := snd (exec (Today.toggleHabit 1 Sample.evening) [] w2) in
  map (fun w => Today.habits (vars w)) [w0; w1; w2; w3]
  = [[mkHabit 1 (lit "Drink water") 0 false];
     [mkHabit 1 (lit "Drink water") 1 true];
     [mkHabit 1 (lit "Drink water") 0 false];
     [mkHabit 1 (lit "Drink water") 1 true]]
  /\ map (fun w => streakOf 1 (disk w)) [w0; w1; w2; w3]
     = [Some 0; Some 1; Some 0; Some 1]%Z
  /\ length (master_tbl (disk w3)) = 1%nat.
Proof. cbv zeta. repeat split. Qed.

(** Two days of one habit are two records and one streak: a toggle on the
    history page for 2025-04-13 leaves the record of 2025-04-14 completed
    and takes the streak from 1 to 2. *)
Example scenario_two_days :
  let w := snd (exec (History.toggleHabit 1) [] (Sample.picked "2025-04-13")) in
  completedOn 1 (lit "2025-04-14") (disk w) = true
  /\ completedOn 1 (lit "2025-04-13") (disk w) = true
  /\ length (master_tbl (disk w)) = 2%nat
  /\ streakOf 1 (disk w) = Some 2%Z.
Proof. cbv zeta. repeat split. Qed.

(** The floor at work.  The streak write of a first toggle fails, so the
    day is recorded as completed with the streak still 0; after a reload,
    the toggle back to incomplete keeps the streak at 0. *)
Example scenario_floor :
  let s := App.run
             [App.VisitToday Sample.morning [];
              App.TypeName (lit "Drink water");
              App.AddHabit Sample.morning [];
              App.ToggleToday 1 Sample.morning [false; false; true];
              App.VisitToday Sample.evening [];
              App.ToggleToday 1 Sample.evening []]
             App.init in
  App.shown s = [mkHabit 1 (lit "Drink water") 0 false]
  /\ streakOf 1 (App.file s) = Some 0%Z
  /\ completedOn 1 (isoDay Sample.evening) (App.file s) = false.
Proof. cbv zeta. repeat split. Qed.

(** The LIKE of SQLite on the patterns of the pages and beyond. *)
Example scenario_like :
  like (lit "2025-04-14%") (lit "2025-04-14T09:30:15.123Z") = true
  /\ like (lit "2025-04-14%") (lit "2025-04-15T09:30:15.123Z") = false
  /\ like (lit "%") (lit "2025-04-15T09:30:15.123Z") = true
  /\ like (lit "a_c%") (lit "ABCD") = true
  /\ toISOString Sample.morning = lit "2025-04-14T09:30:15.123Z"
  /\ trim (lit "  Drink water ") = lit "Drink water".
Proof. repeat split. Qed.

(* ===================================================================== *)
(** ** Predicates kept by every action *)
(* ===================================================================== *)

Lemma select_nil_recordWritten (hid : Z) (day stamp : jsstring) (f : Db) :
  plainDay day = true ->
  select_master_of hid (dayPattern day) f = [] ->
  insert_master hid 1 stamp f = recordWritten hid day stamp f.
Proof.
  intros Hp Hs. rewrite select_master_of_plain in Hs by exact Hp.
  unfold recordWritten. now destruct (recordOf hid day f).
Qed.

Lemma select_cons_recordWritten (hid : Z) (day stamp : jsstring) (f : Db)
      (m : MasterRow) (l : list MasterRow) :
  plainDay day = true ->
  select_master_of hid (dayPattern day) f = m :: l ->
  update_master (if negb (Boolean (m_completed m)) then 1 else 0)%Z
                stamp (m_id m) f
  = recordWritten hid day stamp f.
Proof.
  intros Hp Hs. rewrite select_master_of_plain in Hs by exact Hp.
  unfold recordWritten. destruct (recordOf hid day f); [|discriminate].
  now injection Hs as <- _.
Qed.

Section KeptByActions.

Variable I : Db -> list Habit -> Prop.
Hypothesis HI : Kept I.

Let todayI (w : World Today.Vars) : Prop :=
  I (disk w) (Today.habits (vars w)).
Let historyI (w : World History.Vars) : Prop :=
  I (disk w) (History.habitsForDate (vars w)).

Lemma today_onMount_keeps (now : Date) (w : World Today.Vars) :
  todayI w -> wp (Today.onMount now) (fun _ => todayI) todayI w.
Proof.
  intros Hw. unfold Today.onMount, todayI in *.
  wp_run; cbn [Today.habits Today.set_habits Today.set_db];
    try assumption; eapply (@kept_list I HI); eassumption.
Qed.

Lemma today_addHabit_keeps (now : Date) (w : World Today.Vars) :
  todayI w -> wp (Today.addHabit now) (fun _ => todayI) todayI w.
Proof.
  intros Hw. unfold Today.addHabit, todayI in *. wp_step. wp_step.
  destruct (trim (Today.newHabitName (vars w))) as [|c n] eqn:Et;
    cbn [truthy negb]; [wp_step; exact Hw|].
  assert (I (insert_habit (trim (Today.newHabitName (vars w))) 0 (disk w))
            (Today.habits (vars w))) as Hins.
  { apply (@kept_insert_habit I HI); [exact Hw|congruence]. }
  rewrite Et in Hins.
  wp_run;
    cbn [Today.habits Today.set_habits Today.set_newHabitName
         Today.set_isAddingHabit];
    try assumption; eapply (@kept_list I HI); eassumption.
Qed.

Lemma today_deleteHabit_keeps (hid : Z) (answer : bool)
      (w : World Today.Vars) :
  todayI w -> wp (Today.deleteHabit hid answer) (fun _ => todayI) todayI w.
Proof.
  intros Hw. unfold Today.deleteHabit, todayI in *.
  pose proof (@kept_delete_habit I HI _ _ hid Hw) as H1.
  pose proof (@kept_delete_master I HI _ _ hid H1) as H2.
  pose proof (@kept_filter I HI _ _ (fun h => negb (id h =? hid)%Z) H2) as H3.
  destruct answer; wp_run; cbn [Today.habits Today.set_habits]; assumption.
Qed.

Lemma today_toggle_keeps (hid : Z) (now : Date) (w : World Today.Vars) :
  todayI w -> wp (Today.toggleHabit hid now) (fun _ => todayI) todayI w.
Proof.
  intros Hw. unfold Today.toggleHabit, todayI in *. wp_step. wp_step.
  destruct (findIndex _ _) as [i|] eqn:Hi; [|wp_step; exact Hw].
  rewrite beforeT_toISOString.
  pose proof (@kept_record I HI _ _ hid i (isoDay now) (toISOString now)
                Hw Hi (isoDay_plain now) (isoDay_length now)
                (startsWith_toISOString now)) as Hrec.
  wp_step. wp_run; try assumption;
    first [ rewrite (select_nil_recordWritten hid _ (toISOString now) _
                       (isoDay_plain now) Heql)
          | rewrite (select_cons_recordWritten hid _ (toISOString now) _ _ _
                       (isoDay_plain now) Heql) ];
    try assumption;
    rewrite Heqo; cbn [Today.habits Today.set_habits];
    first [ exact (@kept_streak I HI _ _ hid i h true Hrec Hi Heqo)
          | exact (@kept_streak I HI _ _ hid i h
                     (negb (Boolean (m_completed m))) Hrec Hi Heqo) ].
Qed.

Lemma history_onMount_keeps (w : World History.Vars) :
  historyI w -> wp History.onMount (fun _ => historyI) historyI w.
Proof.
  intros Hw. unfold History.onMount, historyI in *.
  wp_run;
    cbn [History.habitsForDate History.set_habitsForDate History.set_db];
    try assumption; eapply (@kept_list I HI); eassumption.
Qed.

Lemma history_handleDateChange_keeps (value : jsstring)
      (w : World History.Vars) :
  historyI w ->
  wp (History.handleDateChange value) (fun _ => historyI) historyI w.
Proof.
  intros Hw. unfold History.handleDateChange, historyI in *.
  wp_run;
    cbn [History.habitsForDate History.set_habitsForDate
         History.set_selectedDate];
    try assumption; eapply (@kept_list I HI); eassumption.
Qed.

Lemma history_toggle_keeps (hid : Z) (w : World History.Vars) :
  historyI w -> wp (History.toggleHabit hid) (fun _ => historyI) historyI w.
Proof.
  intros Hw. unfold History.toggleHabit, historyI in *. wp_step. wp_step.
  destruct (findIndex _ _) as [i|] eqn:Hi; [|wp_step; exact Hw].
  wp_step. unfold History.isoOfSelected.
  destruct (parseDate (History.selectedDate (vars w))) as [d|] eqn:Hd;
    [|wp_step; exact Hw].
  destruct (parseDate_Some _ _ Hd) as (_ & Hiso & Hplain & Hlen).
  assert (startsWith (History.selectedDate (vars w)) (toISOString d) = true)
    as Hst by (rewrite Hiso; apply startsWith_app).
  pose proof (@kept_record I HI _ _ hid i (History.selectedDate (vars w))
                (toISOString d) Hw Hi Hplain Hlen Hst) as Hrec.
  wp_step. wp_step. wp_run; try assumption;
    first [ rewrite (select_nil_recordWritten hid _ (toISOString d) _
                       Hplain Heql)
          | rewrite (select_cons_recordWritten hid _ (toISOString d) _ _ _
                       Hplain Heql) ];
    try assumption;
    rewrite Heqo;
    cbn [History.habitsForDate History.set_habitsForDate];
    first [ exact (@kept_streak I HI _ _ hid i h true Hrec Hi Heqo)
          | exact (@kept_streak I HI _ _ hid i h
                     (negb (Boolean (m_completed m))) Hrec Hi Heqo) ].
Qed.

(** One action keeps the predicate, on the database file and the list of
    the mounted page. *)
Lemma step_keeps (s : App.State) (op : App.Op) :
  I (App.file s) (App.shown s) ->
  I (App.file (App.step s op)) (App.shown (App.step s op)).
Proof.
  intros Hs. destruct s as [f pg]. unfold App.shown in *.
  cbn [App.file App.page] in *.
  assert (I f []) as Hnil by (eapply (@kept_nil I HI); exact Hs).
  destruct op, pg as [v|v]; cbn [App.step App.page App.file]; try exact Hs;
    unfold App.runToday, App.runHistory; cbn [App.file App.page];
    try (apply (wp_exec _ todayI);
         first [ apply today_onMount_keeps | apply today_addHabit_keeps
               | apply today_toggle_keeps | apply today_deleteHabit_keeps ];
         assumption);
    try (apply (wp_exec _ historyI);
         first [ apply history_onMount_keeps
               | apply history_handleDateChange_keeps
               | apply history_toggle_keeps ];
         assumption).
Qed.

(** A predicate closed under the writes of the pages holds after every
    run from a state in which it holds, whatever the store answers. *)
Lemma run_keeps (ops : list App.Op) (s : App.State) :
  I (App.file s) (App.shown s) ->
  I (App.file (App.run ops s)) (App.shown (App.run ops s)).
Proof.
  revert s. induction ops as [|op ops IH]; intros s Hs; [exact Hs|].
  cbn [App.run fold_left]. apply IH. now apply step_keeps.
Qed.

End KeptByActions.

(* ===================================================================== *)
(** ** Names, keys and days: an order every run keeps *)
(* ===================================================================== *)

Lemma trimStart_suffix (s : jsstring) :
  exists pre, s = pre ++ trimStart s.
Proof.
  induction s as [|c s [pre IH]]; [now exists []|].
  cbn [trimStart]. destruct (isWhiteSpace c).
  - exists (c :: pre). cbn [app]. now rewrite <- IH.
  - now exists [].
Qed.

Lemma trimStart_firstOk (s : jsstring) :
  trimStart s <> [] -> firstOk (trimStart s) = true.
Proof.
  induction s as [|c s IH]; cbn [trimStart]; [easy|].
  destruct (isWhiteSpace c) eqn:E; [exact IH|].
  intros _. cbn [firstOk]. now rewrite E.
Qed.

Lemma firstOk_app (a b : jsstring) :
  a <> [] -> firstOk (a ++ b) = firstOk a.
Proof. destruct a; [easy|reflexivity]. Qed.

(** What [trim] leaves, when it leaves something, has no white space at
    either end. *)
Lemma trim_trimmed (s : jsstring) : trim s <> [] -> trimmedName (trim s) = true.
Proof.
  unfold trim, trimEnd, trimmedName. intros Hne.
  set (t := trimStart s) in *. set (u := trimStart (rev t)) in *.
  assert (u <> []) as Hu by (intros E; apply Hne; now rewrite E).
  rewrite rev_involutive. apply andb_true_iff. split.
  - destruct (trimStart_suffix (rev t)) as [pre Hpre]. fold u in Hpre.
    apply (f_equal (@rev N)) in Hpre.
    rewrite rev_involutive, rev_app_distr in Hpre.
    assert (t <> []) as Ht.
    { intros E. rewrite E in Hpre. symmetry in Hpre.
      apply app_eq_nil in Hpre as [Hpre _]. apply Hne. exact Hpre. }
    rewrite <- (firstOk_app (rev u) (rev pre)) by exact Hne.
    rewrite <- Hpre. now apply trimStart_firstOk.
  - now apply trimStart_firstOk.
Qed.

Lemma filter_none {A} (p : A -> bool) (l : list A) :
  (forall x, In x l -> p x = false) -> filter p l = [].
Proof.
  induction l as [|x l IH]; cbn [filter]; intros H; [reflexivity|].
  rewrite (H x) by now left. apply IH. intros y Hy. apply H. now right.
Qed.

Lemma NoDup_filter_one {A B} (k : A -> B) (p : A -> bool) (c : B)
      (l : list A) :
  NoDup (map k l) -> (forall x, In x l -> p x = true -> k x = c) ->
  (length (filter p l) <= 1)%nat.
Proof.
  induction l as [|x l IH]; cbn [map filter]; intros Hnd Hk; [cbn; lia|].
  inversion Hnd as [|? ? Hx Hnd']; subst.
  assert (forall y, In y l -> p y = true -> k y = c) as Hk'
    by (intros y Hy; apply Hk; now right).
  destruct (p x) eqn:Ex; [|now apply IH].
  assert (filter p l = []) as ->; [|cbn; lia].
  apply filter_none. intros y Hy.
  destruct (p y) eqn:Ey; [|reflexivity]. exfalso. apply Hx.
  rewrite (Hk x (or_introl eq_refl) Ex), <- (Hk' y Hy Ey). now apply in_map.
Qed.

Lemma namesOk_kept : Kept namesOk.
Proof.
  unfold namesOk. constructor.
  - intros f hs [H1 _]. split; [exact H1|constructor].
  - intros f hs ms [H1 _]. split; [exact H1|].
    unfold mergeHabits, select_habits. apply Forall_map. exact H1.
  - intros f hs p [H1 H2]. split; [exact H1|now apply Forall_filter].
  - intros f hs s [H1 H2] Hne. split; [|exact H2].
    unfold insert_habit. cbn [habits_tbl]. apply Forall_app. split; [exact H1|].
    constructor; [|constructor]. now apply trim_trimmed.
  - intros f hs hid [H1 H2]. split; [|exact H2].
    unfold delete_habit. cbn [habits_tbl]. now apply Forall_filter.
  - intros f hs hid [H1 H2]. split; assumption.
  - intros f hs hid i day stamp [H1 H2] _ _ _ _. rewrite recordWritten_habits.
    split; assumption.
  - intros f hs hid i h flag [H1 H2] Hi Hh. split.
    + unfold update_streak. cbn [habits_tbl]. apply Forall_map.
      revert H1. apply Forall_impl. intros r Hr.
      now destruct (h_id r =? hid)%Z.
    + unfold entryWritten. apply setAt_Forall; [|exact H2]. cbn [name].
      apply nth_error_In in Hh. rewrite Forall_forall in H2. now apply H2.
Qed.

Lemma sound_kept : Kept sound.
Proof.
  constructor.
  - apply sound_nil.
  - intros f hs ms H. now apply sound_merge with hs.
  - intros f hs p. apply sound_filter.
  - intros f hs s H _. now apply sound_insert_habit.
  - intros f hs hid. apply sound_delete_habit.
  - intros f hs hid. apply sound_delete_master_of.
  - intros f hs hid i day stamp H Hi _ _ _.
    destruct (findIndex_Some _ _ _ Hi) as (x & Hx & _ & Hid).
    apply Z.eqb_eq in Hid. destruct (sound_entry _ _ _ _ H Hx) as [_ Hle].
    rewrite Hid in Hle. unfold recordWritten.
    destruct (recordOf hid day f).
    + now apply sound_update_master.
    + now apply sound_insert_master.
  - intros f hs hid i h flag H Hi Hh.
    destruct (sound_entry _ _ _ _ H Hh) as [Hs _].
    unfold entryWritten. apply sound_setAt; try assumption.
    + apply sound_update_streak; [exact H|]. unfold adjust. destruct flag; lia.
    + unfold adjust. destruct flag; lia.
Qed.

Lemma keysOk_record (hid : Z) (day stamp : jsstring) (f : Db) :
  keysOk f -> keysOk (recordWritten hid day stamp f).
Proof.
  intros (H1 & H2 & H3). unfold keysOk. rewrite recordWritten_habits.
  unfold recordWritten. destruct (recordOf hid day f) as [m|].
  - unfold update_master. cbn [master_tbl master_seq].
    repeat split; try assumption.
    + rewrite map_map.
      rewrite (map_ext _ m_id); [exact H2|].
      intros x. now destruct (m_id x =? m_id m)%Z.
    + apply Forall_map. revert H3. apply Forall_impl. intros x Hx.
      now destruct (m_id x =? m_id m)%Z.
  - unfold insert_master. cbn [master_tbl master_seq].
    repeat split; try assumption.
    + rewrite map_app. cbn [map m_id].
      apply NoDup_app; [exact H2|repeat constructor; intros []|].
      intros x Hx [<-|[]]. apply in_map_iff in Hx as (r & Hr & Hrin).
      rewrite Forall_forall in H3. specialize (H3 r Hrin). lia.
    + apply Forall_app. split.
      * revert H3. apply Forall_impl. intros; lia.
      * constructor; [cbn; lia|constructor].
Qed.

Lemma startsWith_firstn10 (day s : jsstring) :
  length day = 10%nat -> (startsWith day s = true <-> firstn 10 s = day).
Proof. intros Hl. rewrite startsWith_firstn, Hl. reflexivity. Qed.

Lemma onePerDay_record (hid : Z) (day stamp : jsstring) (f : Db) :
  NoDup (map m_id (master_tbl f)) ->
  length day = 10%nat -> startsWith day stamp = true ->
  onePerDay f -> onePerDay (recordWritten hid day stamp f).
Proof.
  intros Hnd Hl Hs Hone. unfold onePerDay, recordWritten in *.
  destruct (recordOf hid day f) as [m|] eqn:Em; unfold recordOf in Em.
  - apply find_some in Em as [Hin Hm].
    apply andb_true_iff in Hm as [Hh Hd]. apply Z.eqb_eq in Hh.
    unfold update_master. cbn [master_tbl]. rewrite map_map.
    erewrite map_ext_in; [exact Hone|].
    intros x Hx. cbn beta. destruct (m_id x =? m_id m)%Z eqn:E; [|reflexivity].
    apply Z.eqb_eq in E.
    assert (x = m) as -> by (eapply key_names_one_row; eauto).
    unfold dayKey. cbn [m_habit_id m_date]. f_equal.
    apply (startsWith_firstn10 day) in Hs, Hd; try assumption. congruence.
  - unfold insert_master. cbn [master_tbl]. rewrite map_app. cbn [map].
    apply NoDup_app; [exact Hone|repeat constructor; intros []|].
    intros k Hk [<-|[]]. apply in_map_iff in Hk as (x & Hx & Hin).
    unfold dayKey in Hx. cbn [m_habit_id m_date] in Hx.
    pose proof (f_equal fst Hx) as Hh. pose proof (f_equal snd Hx) as Hd.
    cbn [fst snd] in Hh, Hd.
    apply (startsWith_firstn10 day) in Hs; [|assumption].
    rewrite Hs in Hd. apply (startsWith_firstn10 day) in Hd; [|assumption].
    pose proof (find_none _ _ Em x Hin) as Hno. cbn beta in Hno.
    unfold onDay in Hno. rewrite Hd, Hh, Z.eqb_refl in Hno. discriminate.
Qed.

Lemma orderly_kept : Kept orderly.
Proof.
  pose proof sound_kept as KS. pose proof namesOk_kept as KN.
  unfold orderly. constructor.
  - intros f hs (H1 & H2 & H3 & H4).
    split; [eapply (@kept_nil _ KS); eassumption|].
    split; [eapply (@kept_nil _ KN); eassumption|]. split; assumption.
  - intros f hs ms (H1 & H2 & H3 & H4).
    split; [now apply (@kept_list _ KS) with hs|].
    split; [now apply (@kept_list _ KN) with hs|]. split; assumption.
  - intros f hs p (H1 & H2 & H3 & H4).
    split; [now apply (@kept_filter _ KS)|].
    split; [now apply (@kept_filter _ KN)|]. split; assumption.
  - intros f hs s (H1 & H2 & (K1 & K2 & K3) & H4) Hne.
    split; [now apply (@kept_insert_habit _ KS)|].
    split; [now apply (@kept_insert_habit _ KN)|].
    split; [|exact H4]. unfold keysOk, insert_habit.
    cbn [habits_tbl master_tbl master_seq]. repeat split; try assumption.
    rewrite map_app. cbn [map h_id].
    apply NoDup_app; [exact K1|repeat constructor; intros []|].
    intros x Hx [<-|[]]. apply in_map_iff in Hx as (r & Hr & Hin).
    destruct H1 as [_ (Hid & _ & _)]. rewrite Forall_forall in Hid.
    specialize (Hid r Hin). lia.
  - intros f hs hid (H1 & H2 & (K1 & K2 & K3) & H4).
    split; [now apply (@kept_delete_habit _ KS)|].
    split; [now apply (@kept_delete_habit _ KN)|].
    split; [|exact H4]. unfold keysOk, delete_habit.
    cbn [habits_tbl master_tbl master_seq]. repeat split; try assumption.
    now apply NoDup_map_filter.
  - intros f hs hid (H1 & H2 & (K1 & K2 & K3) & H4).
    split; [now apply (@kept_delete_master _ KS)|].
    split; [now apply (@kept_delete_master _ KN)|].
    unfold keysOk, onePerDay, delete_master_of.
    cbn [habits_tbl master_tbl master_seq]. repeat split; try assumption.
    + now apply NoDup_map_filter.
    + now apply Forall_filter.
    + now apply NoDup_map_filter.
  - intros f hs hid i day stamp (H1 & H2 & H3 & H4) Hi Hp Hl Hs.
    split; [now apply (@kept_record _ KS) with i|].
    split; [now apply (@kept_record _ KN) with i|].
    split; [now apply keysOk_record|].
    apply onePerDay_record; try assumption. apply H3.
  - intros f hs hid i h flag (H1 & H2 & (K1 & K2 & K3) & H4) Hi Hh.
    split; [now apply (@kept_streak _ KS)|].
    split; [now apply (@kept_streak _ KN)|].
    split; [|exact H4]. unfold keysOk, update_streak.
    cbn [habits_tbl master_tbl master_seq]. repeat split; try assumption.
    rewrite map_map. rewrite (map_ext _ h_id); [exact K1|].
    intros r. now destruct (h_id r =? hid)%Z.
Qed.

Lemma gone_kept (K k : Z) : Kept (gone K k).
Proof.
  unfold gone. constructor; try (intros; assumption).
  - intros f hs s (H1 & H2 & H3) _. unfold insert_habit.
    cbn [habits_tbl habits_seq]. repeat split; [lia|lia|].
    rewrite map_app. intros Hin. apply in_app_or in Hin as [Hin|[Hin|[]]].
    + contradiction.
    + cbn [h_id] in Hin. lia.
  - intros f hs hid (H1 & H2 & H3). unfold delete_habit.
    cbn [habits_tbl habits_seq]. repeat split; try assumption.
    intros Hin. apply H3. apply in_map_iff in Hin as (r & Hr & Hin).
    apply filter_In in Hin as [Hin _]. rewrite <- Hr. now apply in_map.
  - intros f hs hid i day stamp (H1 & H2 & H3) _ _ _ _.
    rewrite recordWritten_habits. unfold recordWritten.
    destruct (recordOf hid day f); repeat split; assumption.
  - intros f hs hid i h flag (H1 & H2 & H3) _ _. unfold update_streak.
    cbn [habits_tbl habits_seq]. repeat split; try assumption.
    rewrite map_map. rewrite (map_ext _ h_id); [exact H3|].
    intros r. now destruct (h_id r =? hid)%Z.
Qed.

Lemma init_orderly : orderly (App.file App.init) (App.shown App.init).
Proof.
  split; [apply init_sound|]. repeat split; constructor.
Qed.

(** X1.  Whatever the user does with a date input that holds a day
    [YYYY-MM-DD] or is empty, and wherever the store fails, the master
    table never holds two records of one habit for one calendar day: for
    every habit and every valid day, at most one row of the habit has a
    date that starts with the day. *)
Theorem X1_one_record_per_habit_and_day
    (ops : list App.Op) (hid : Z) (day : jsstring) :
  forallb fromDateInput ops = true ->
  isDay day = true ->
  (length (filter (fun m => (m_habit_id m =? hid)%Z && onDay day m)
                  (master_tbl (App.file (App.run ops App.init)))) <= 1)%nat.
Proof.
  intros _ Hday.
  destruct (run_keeps orderly orderly_kept ops App.init init_orderly)
    as (_ & _ & _ & Hone).
  apply (NoDup_filter_one dayKey _ (hid, day)); [exact Hone|].
  intros x _ Hx. apply andb_true_iff in Hx as [Hh Hd].
  apply Z.eqb_eq in Hh. unfold onDay in Hd.
  apply (startsWith_firstn10 day) in Hd; [|now apply isDay_length].
  unfold dayKey. now rewrite Hh, Hd.
Qed.

Lemma X1_one_record_witness :
  (length (filter (fun m => (m_habit_id m =? 1)%Z
                            && onDay (lit "2025-04-14") m)
             (master_tbl
                (App.file
                   (App.run
                      [App.VisitToday Sample.morning [];
                       App.TypeName (lit "Drink water");
                       App.AddHabit Sample.morning [];
                       App.ToggleToday 1 Sample.morning [false; false; true];
                       App.ToggleToday 1 Sample.evening [];
                       App.VisitHistory Sample.nextDay [];
                       App.PickDate (lit "2025-04-14") [];
                       App.ToggleHistory 1 []]
                      App.init)))) <= 1)%nat.
Proof.
  apply X1_one_record_per_habit_and_day.
  - vm_compute. reflexivity.
  - vm_compute. reflexivity.
Defined.

(** X2.  Whatever the user does and wherever the store fails, every
    stored habit name, and every name on the mounted page, is what [trim]
    left of a name that was not blank: it is not empty and has no white
    space at either end. *)
Theorem X2_stored_names_are_trimmed (ops : list App.Op) :
  namesOk (App.file (App.run ops App.init)) (App.shown (App.run ops App.init)).
Proof.
  apply (run_keeps namesOk namesOk_kept). split; constructor.
Qed.

(** X3.  Habit ids are never used twice: an id that has been issued and
    that no stored habit has (its habit was deleted) is the id of no
    stored habit after any further actions, whatever the store answers. *)
Theorem X3_habit_id_never_reused (ops1 ops2 : list App.Op) (k : Z) :
  let s1 := App.run ops1 App.init in
  (k <= habits_seq (App.file s1))%Z ->
  ~ In k (map h_id (habits_tbl (App.file s1))) ->
  ~ In k (map h_id (habits_tbl (App.file (App.run ops2 s1)))).
Proof.
  intros s1 Hk Hno.
  apply (run_keeps (gone (habits_seq (App.file s1)) k) (gone_kept _ _)
                   ops2 s1).
  repeat split; [exact Hk|lia|exact Hno].
Qed.

Lemma X3_habit_id_witness :
  ~ In 1%Z
      (map h_id
         (habits_tbl
            (App.file
               (App.run
                  [App.TypeName (lit "Read"); App.AddHabit Sample.evening []]
                  (App.run
                     [App.VisitToday Sample.morning [];
                      App.TypeName (lit "Drink water");
                      App.AddHabit Sample.morning [];
                      App.DeleteHabit 1 true []]
                     App.init))))).
Proof.
  apply X3_habit_id_never_reused.
  - vm_compute. discriminate.
  - vm_compute. intros [].
Defined.

(* ===================================================================== *)
(** ** The streak as a count of completed days *)
(* ===================================================================== *)

Lemma count_after_update (p : MasterRow -> bool) (c : Z) (stamp : jsstring)
      (l : list MasterRow) (m : MasterRow) :
  NoDup (map m_id l) -> In m l ->
  let m' := mkMasterRow (m_id m) (m_habit_id m) c
                        (m_completed_repeats m) stamp in
  (length (filter p
             (map (fun x => if (m_id x =? m_id m)%Z
                            then mkMasterRow (m_id x) (m_habit_id x) c
                                             (m_completed_repeats x) stamp
                            else x) l))
   + (if p m then 1 else 0)
   = length (filter p l) + (if p m' then 1 else 0))%nat.
Proof.
  intros Hnd Hin m'. induction l as [|x l IH]; [easy|].
  pose proof Hnd as Hnd0.
  cbn [map] in Hnd. inversion Hnd as [|? ? Hx Hnd']; subst.
  cbn [map filter]. destruct (m_id x =? m_id m)%Z eqn:E.
  - apply Z.eqb_eq in E.
    assert (x = m) as -> by
      (apply (key_names_one_row (x :: l)); auto; now left).
    fold m'.
    assert (map (fun x => if (m_id x =? m_id m)%Z
                          then mkMasterRow (m_id x) (m_habit_id x) c
                                           (m_completed_repeats x) stamp
                          else x) l = l) as ->.
    { transitivity (map (fun x : MasterRow => x) l); [|apply map_id].
      apply map_ext_in. intros y Hy.
      destruct (m_id y =? m_id m)%Z eqn:Ey; [|reflexivity].
      exfalso. apply Hx. apply Z.eqb_eq in Ey. rewrite <- Ey.
      now apply in_map. }
    destruct (p m), (p m'); cbn [length]; lia.
  - destruct Hin as [->|Hin]; [rewrite Z.eqb_refl in E; discriminate|].
    specialize (IH Hnd' Hin). destruct (p x); cbn [length]; lia.
Qed.

Lemma completedDays_other (k hid : Z) (day stamp : jsstring) (f : Db) :
  NoDup (map m_id (master_tbl f)) -> startsWith day stamp = true ->
  k <> hid ->
  completedDays k (recordWritten hid day stamp f) = completedDays k f.
Proof.
  intros Hnd Hs Hne. unfold completedDays.
  rewrite recordWritten_frame; try assumption; [reflexivity|].
  intros x Hx _. rewrite Hx.
  assert ((hid =? k)%Z = false) as -> by (apply Z.eqb_neq; congruence).
  reflexivity.
Qed.

(** The record write moves the count of the habit by one, up when the
    flag ends set and down when it ends cleared. *)
Lemma completedDays_toggled (hid : Z) (day stamp : jsstring) (f : Db) :
  NoDup (map m_id (master_tbl f)) ->
  let flag := negb (completedOn hid day f) in
  completedDays hid (recordWritten hid day stamp f)
  = adjust flag (completedDays hid f).
Proof.
  intros Hnd flag. subst flag. unfold completedDays, completedOn, recordWritten.
  set (p := fun m => (m_habit_id m =? hid)%Z && Boolean (m_completed m)).
  destruct (recordOf hid day f) as [m|] eqn:Em; unfold recordOf in Em.
  - apply find_some in Em as [Hin Hm].
    apply andb_true_iff in Hm as [Hh _].
    unfold update_master. cbn [master_tbl].
    pose proof (count_after_update p
                  (if negb (Boolean (m_completed m)) then 1 else 0)%Z
                  stamp _ m Hnd Hin) as Hc.
    cbv zeta in Hc.
    assert (p m = Boolean (m_completed m)) as Hpm
      by (unfold p; now rewrite Hh).
    assert (forall c, p (mkMasterRow (m_id m) (m_habit_id m) c
                           (m_completed_repeats m) stamp) = Boolean c) as Hpc
      by (intros c; unfold p; cbn [m_habit_id m_completed]; now rewrite Hh).
    rewrite Hpm, Hpc in Hc. unfold adjust.
    remember (length (filter p (master_tbl f))) as a eqn:Ea.
    remember (length (filter p (map _ (master_tbl f)))) as b eqn:Eb'.
    clear Ea Eb' Hpm Hpc. clearbody p.
    destruct (Boolean (m_completed m)) eqn:Eb; cbn [negb] in *.
    + change (Boolean 0) with false in Hc. cbv iota in Hc. lia.
    + change (Boolean 1) with true in Hc. cbv iota in Hc. lia.
  - unfold insert_master. cbn [master_tbl]. rewrite filter_app, length_app.
    cbn [filter]. unfold p at 2. cbn [m_habit_id m_completed].
    rewrite Z.eqb_refl. cbn. unfold adjust. lia.
Qed.

Lemma streakCounts_toggle (hid s : Z) (day stamp : jsstring) (f : Db) :
  NoDup (map m_id (master_tbl f)) -> startsWith day stamp = true ->
  streakCounts f -> streakOf hid f = Some s ->
  streakCounts
    (update_streak (adjust (negb (completedOn hid day f)) s) hid
       (recordWritten hid day stamp f)).
Proof.
  intros Hnd Hs Hc Hst. unfold streakCounts in *.
  assert (s = completedDays hid f) as ->.
  { unfold streakOf in Hst.
    destruct (find _ (habits_tbl f)) as [r|] eqn:Er; [|discriminate].
    apply find_some in Er as [Hin Hr]. apply Z.eqb_eq in Hr.
    rewrite Forall_forall in Hc. specialize (Hc r Hin).
    injection Hst as <-. now rewrite Hc, Hr. }
  rewrite Forall_forall in *. intros r' Hr'.
  unfold update_streak at 1 in Hr'. cbn [habits_tbl] in Hr'.
  rewrite recordWritten_habits in Hr'.
  apply in_map_iff in Hr' as (r & <- & Hin). specialize (Hc r Hin).
  rename Hc into Hr.
  assert (forall k, completedDays k
            (update_streak (adjust (negb (completedOn hid day f))
                              (completedDays hid f)) hid
               (recordWritten hid day stamp f))
          = completedDays k (recordWritten hid day stamp f)) as Hk
    by reflexivity.
  destruct (h_id r =? hid)%Z eqn:E; cbn [h_streak h_id]; rewrite Hk.
  - apply Z.eqb_eq in E. rewrite E.
    symmetry. now apply completedDays_toggled.
  - apply Z.eqb_neq in E. rewrite Hr. symmetry.
    now apply completedDays_other.
Qed.

Lemma streakCounts_insert_habit (nm : jsstring) (f : Db) (hs : list Habit) :
  sound f hs -> streakCounts f -> streakCounts (insert_habit nm 0 f).
Proof.
  intros [_ (Hid & Hm & _)] Hc. unfold streakCounts, insert_habit in *.
  cbn [habits_tbl]. apply Forall_app. split.
  - revert Hc. apply Forall_impl. intros r Hr. exact Hr.
  - constructor; [|constructor]. cbn [h_streak h_id].
    unfold completedDays. cbn [master_tbl].
    rewrite filter_none; [reflexivity|]. intros m Hin.
    rewrite Forall_forall in Hm. specialize (Hm m Hin).
    assert ((m_habit_id m =? habits_seq f + 1)%Z = false) as ->
      by (apply Z.eqb_neq; lia).
    reflexivity.
Qed.

Lemma streakCounts_delete (hid : Z) (f : Db) :
  streakCounts f -> streakCounts (delete_master_of hid (delete_habit hid f)).
Proof.
  intros Hc. unfold streakCounts, delete_master_of, delete_habit in *.
  cbn [habits_tbl]. rewrite Forall_forall in *. intros r Hr.
  apply filter_In in Hr as [Hin Hne]. rewrite (Hc r Hin).
  unfold completedDays. cbn [master_tbl]. f_equal. f_equal.
  apply negb_true_iff in Hne.
  induction (master_tbl f) as [|m l IH]; [reflexivity|].
  cbn [filter]. destruct (m_habit_id m =? hid)%Z eqn:E; cbn [negb].
  - apply Z.eqb_eq in E. rewrite E, Z.eqb_sym, Hne. cbn [andb]. exact IH.
  - cbn [filter]. destruct ((m_habit_id m =? h_id r)%Z && _);
      cbn [length]; now rewrite IH.
Qed.

Lemma listed_streak_is_stored (hid : Z) (f : Db) (hs : list Habit) (i : nat)
      (h : Habit) :
  showsStore f hs ->
  findIndex (fun x => (id x =? hid)%Z) hs = Some i ->
  nth_error hs i = Some h ->
  streakOf hid f = Some (streak h).
Proof.
  intros Hsh Hi Hh. apply shown_streak_is_stored with hs; [exact Hsh|].
  destruct (findIndex_Some _ _ _ Hi) as (x & Hx & Hf & _).
  unfold shownAs. congruence.
Qed.

Lemma step_counts (s : App.State) (op : App.Op) :
  App.outcomes op = [] ->
  sound (App.file s) (App.shown s) ->
  App.loaded s = true /\ storeOk (App.file s)
  /\ showsStore (App.file s) (App.shown s) ->
  streakCounts (App.file s) -> streakCounts (App.file (App.step s op)).
Proof.
  intros Hout Hsound (Hdb & Hok & Hsh) Hc. destruct s as [f pg].
  unfold App.loaded, App.shown in *. cbn [App.file App.page] in *.
  destruct op; cbn [App.outcomes] in Hout; subst;
    destruct pg as [v|v]; cbn [App.step App.page App.file];
    unfold App.runToday, App.runHistory; cbn [App.file App.page];
    try assumption;
    rewrite ?today_onMount_reliable, ?history_onMount_reliable;
    try (cbn [snd disk vars]; assumption).
  - (* addHabit *)
    destruct (trim (Today.newHabitName v)) as [|c n] eqn:Et.
    + now rewrite today_addHabit_blank by exact Et.
    + rewrite today_addHabit_reliable by (try assumption; congruence).
      cbn [snd disk vars]. rewrite Et.
      now apply streakCounts_insert_habit with (Today.habits v).
  - (* toggleHabit, today *)
    destruct (findIndex (fun x => (id x =? hid)%Z) (Today.habits v))
      as [i|] eqn:Hi.
    + destruct (findIndex_Some _ _ _ Hi) as (h & Hh & _).
      rewrite (today_toggle_reliable hid now f v i h Hdb Hi Hh).
      cbn [snd disk vars].
      apply streakCounts_toggle; try assumption.
      * apply Hok.
      * apply startsWith_toISOString.
      * now apply listed_streak_is_stored with (Today.habits v) i.
    + now rewrite today_toggle_unlisted by exact Hi.
  - (* deleteHabit *)
    destruct answer; [|assumption].
    rewrite today_deleteHabit_reliable by exact Hdb.
    cbn [snd disk vars]. now apply streakCounts_delete.
  - (* handleDateChange *)
    rewrite history_handleDateChange_reliable by exact Hdb.
    cbn [snd disk vars]. assumption.
  - (* toggleHabit, history *)
    destruct (findIndex (fun x => (id x =? hid)%Z) (History.habitsForDate v))
      as [i|] eqn:Hi.
    + destruct (parseDate (History.selectedDate v)) as [d|] eqn:Hd.
      * destruct (findIndex_Some _ _ _ Hi) as (h & Hh & _).
        rewrite (history_toggle_reliable hid f v i h d Hdb Hi Hh Hd).
        cbn [snd disk vars].
        apply streakCounts_toggle; try assumption.
        -- apply Hok.
        -- apply startsWith_app.
        -- now apply listed_streak_is_stored with (History.habitsForDate v) i.
      * now rewrite (history_toggle_invalid_date hid [] (mkWorld f v) i Hi Hd).
    + now rewrite history_toggle_unlisted by exact Hi.
Qed.

(** X4.  On a store that answers every call, starting from a fresh
    install with the today page mounted, the stored streak of every habit
    is, after any sequence of actions on the two pages, the number of days
    recorded as completed for that habit: the streak is a running total
    of completed days, whichever days they are. *)
Theorem X4_streak_counts_completed_days (now : Date) (ops : list App.Op)
        (r : HabitRow) :
  Forall (fun op => App.outcomes op = []) ops ->
  let s := App.run ops (App.step App.init (App.VisitToday now [])) in
  In r (habits_tbl (App.file s)) ->
  h_streak r = completedDays (h_id r) (App.file s).
Proof.
  intros Hops. cbv zeta.
  set (s0 := App.step App.init (App.VisitToday now [])).
  assert (sound (App.file s0) (App.shown s0)) as Hs0
    by (apply step_sound, init_sound).
  assert (App.loaded s0 = true /\ storeOk (App.file s0)
          /\ showsStore (App.file s0) (App.shown s0)) as Hc0.
  { repeat split; try constructor. intros m []. }
  assert (streakCounts (App.file s0)) as Hk0 by constructor.
  clearbody s0. revert s0 Hs0 Hc0 Hk0.
  induction Hops as [|op ops Hop Hops IH]; intros s Hs Hc Hk.
  - cbn [App.run fold_left]. unfold streakCounts in Hk.
    rewrite Forall_forall in Hk. apply Hk.
  - cbn [App.run fold_left]. apply IH.
    + now apply step_sound.
    + now apply step_consistent.
    + now apply step_counts.
Qed.

Lemma X4_streak_counts_witness :
  h_streak (mkHabitRow 1 (lit "Drink water") 2)
  = completedDays 1
      (App.file
         (App.run
            [App.TypeName (lit "Drink water");
             App.AddHabit Sample.morning [];
             App.ToggleToday 1 Sample.morning [];
             App.VisitHistory Sample.nextDay [];
             App.PickDate (lit "2025-04-13") [];
             App.ToggleHistory 1 []]
            (App.step App.init (App.VisitToday Sample.morning [])))).
Proof.
  apply (X4_streak_counts_completed_days Sample.morning
           [App.TypeName (lit "Drink water");
            App.AddHabit Sample.morning [];
            App.ToggleToday 1 Sample.morning [];
            App.VisitHistory Sample.nextDay [];
            App.PickDate (lit "2025-04-13") [];
            App.ToggleHistory 1 []]
           (mkHabitRow 1 (lit "Drink water") 2)).
  - repeat constructor.
  - vm_compute. left. reflexivity.
Defined.

(* ===================================================================== *)
(** ** Errors of the store: where they stop and what they leave *)
(* ===================================================================== *)

Lemma wp_outcome {V A} (m : M V A) (Q : A -> World V -> Prop)
      (E : World V -> Prop) (w : World V) (fs : list bool) :
  wp m Q E w ->
  match exec m fs w with
  | (Ok a, w') => Q a w'
  | (Throw _, w') => E w'
  end.
Proof.
  intros H. specialize (H fs). unfold exec.
  destruct (m fs w) as [[[a|e] fs'] w']; exact H.
Qed.

Lemma try_catch_returns {V} (m : M V unit) (fs : list bool) (w : World V) :
  fst (exec (try_catch m) fs w) = Ok tt.
Proof.
  unfold exec, try_catch. destruct (m fs w) as [[[[]|e] fs'] w']; reflexivity.
Qed.

(** X5.  No failure of the store escapes the actions that wrap their work
    in try and catch: mounting either page, adding a habit, deleting a
    habit and printing the tables return normally whatever the store
    answers and whatever the page holds. *)
Theorem X5_guarded_actions_never_throw (now : Date) (hid : Z) (answer : bool)
        (fs : list bool) (wt : World Today.Vars) (wh : World History.Vars) :
  fst (exec (Today.onMount now) fs wt) = Ok tt
  /\ fst (exec (Today.addHabit now) fs wt) = Ok tt
  /\ fst (exec (Today.deleteHabit hid answer) fs wt) = Ok tt
  /\ fst (exec Today.printTables fs wt) = Ok tt
  /\ fst (exec History.onMount fs wh) = Ok tt.
Proof.
  split; [apply try_catch_returns|].
  split.
  { destruct (trim (Today.newHabitName (vars wt))) as [|c n] eqn:Et.
    - now rewrite today_addHabit_blank.
    - unfold Today.addHabit, exec, bind at 1, get at 1. rewrite Et.
      cbn [truthy negb]. apply (try_catch_returns _ fs wt). }
  split.
  { destruct answer; [apply try_catch_returns|reflexivity]. }
  split; apply try_catch_returns.
Qed.

(** X6.  Mounting a page, listing the habits of a day, printing the
    tables and changing the selected date only read: whatever the store
    answers, the database file after them is the file before them. *)
Theorem X6_reading_actions_keep_the_file (now : Date) (day : jsstring)
        (fs : list bool) (wt : World Today.Vars) (wh : World History.Vars) :
  disk (snd (exec (Today.onMount now) fs wt)) = disk wt
  /\ disk (snd (exec (Today.getHabits now) fs wt)) = disk wt
  /\ disk (snd (exec Today.printTables fs wt)) = disk wt
  /\ disk (snd (exec History.onMount fs wh)) = disk wh
  /\ disk (snd (exec (History.getHabitsForDate day) fs wh)) = disk wh
  /\ disk (snd (exec History.fetchHabits fs wh)) = disk wh
  /\ disk (snd (exec (History.handleDateChange day) fs wh)) = disk wh.
Proof.
  repeat split;
    match goal with
    | |- disk (snd (exec ?m fs ?w)) = _ =>
        apply (wp_exec m (fun w' => disk w' = disk w) w fs)
    end;
    unfold Today.onMount, History.onMount, History.handleDateChange;
    wp_run; reflexivity.
Qed.

Lemma merge_is_listing (day : jsstring) (f : Db) :
  plainDay day = true ->
  mergeHabits (select_habits f) (select_master_like (dayPattern day) f)
  = listing f day.
Proof.
  intros Hp. rewrite select_master_like_plain by exact Hp.
  apply mergeHabits_completedOn.
Qed.

(** X7.  Mounting shows all or nothing.  Whatever the store answers while
    a page mounts, the page ends with an empty list or with the full list
    of the clock's day: every stored habit, in the order of the table,
    with its stored streak and the day's flag.  It never shows a part of
    the table, and a full list comes with a connection. *)
Theorem X7_mount_lists_all_or_nothing (now : Date) (f : Db) (fs : list bool) :
  let vt := vars (snd (exec (Today.onMount now) fs
                         (mkWorld f Today.initial))) in
  let vh := vars (snd (exec History.onMount fs
                         (mkWorld f (History.initial now)))) in
  (Today.habits vt = []
   \/ Today.db vt = true /\ Today.habits vt = listing f (isoDay now))
  /\ (History.habitsForDate vh = []
      \/ History.db vh = true
         /\ History.habitsForDate vh = listing f (isoDay now))
  /\ History.selectedDate vh = isoDay now.
Proof.
  cbv zeta. split; [|split].
  - apply (wp_exec (Today.onMount now)
             (fun w' => disk w' = f
                        /\ (Today.habits (vars w') = []
                            \/ Today.db (vars w') = true
                               /\ Today.habits (vars w')
                                  = listing f (isoDay now)))
             (mkWorld f Today.initial) fs).
    unfold Today.onMount. wp_run; cbn [Today.set_db Today.set_habits
      Today.habits Today.db Today.initial] in *;
      try (split; [reflexivity|left; reflexivity]).
    all: split; [reflexivity|right]; split; [reflexivity|].
    all: rewrite beforeT_toISOString; apply merge_is_listing, isoDay_plain.
  - apply (wp_exec History.onMount
             (fun w' => disk w' = f
                        /\ (History.habitsForDate (vars w') = []
                            \/ History.db (vars w') = true
                               /\ History.habitsForDate (vars w')
                                  = listing f (isoDay now)))
             (mkWorld f (History.initial now)) fs).
    unfold History.onMount. wp_run; cbn [History.set_db
      History.set_habitsForDate History.habitsForDate History.db
      History.selectedDate History.initial negb] in *;
      try discriminate;
      try (split; [reflexivity|left; reflexivity]).
    all: split; [reflexivity|right]; split; [reflexivity|].
    all: rewrite beforeT_toISOString; apply merge_is_listing, isoDay_plain.
  - apply (wp_exec History.onMount
             (fun w' => History.selectedDate (vars w') = isoDay now)
             (mkWorld f (History.initial now)) fs).
    unfold History.onMount. wp_run; cbn [History.set_db
      History.set_habitsForDate History.selectedDate History.initial];
      apply beforeT_toISOString.
Qed.

Lemma today_toggle_throw_wp (hid : Z) (now : Date) (w : World Today.Vars) :
  wp (Today.toggleHabit hid now) (fun _ _ => True)
     (fun w' => vars w' = vars w) w.
Proof.
  unfold Today.toggleHabit. wp_run; auto.
Qed.

Lemma history_toggle_throw_wp (hid : Z) (w : World History.Vars) :
  wp (History.toggleHabit hid) (fun _ _ => True)
     (fun w' => vars w' = vars w) w.
Proof.
  unfold History.toggleHabit. wp_run; auto.
Qed.

(** X8.  A toggle that ends in an error has not touched the page.
    Whatever the store answers, when a toggle on either page throws, the
    list the page shows, its connection and its form or date are what they
    were: the entry is rewritten only after the last write went through. *)
Theorem X8_failed_toggle_leaves_the_page (hid : Z) (now : Date)
        (fs : list bool) (wt : World Today.Vars) (wh : World History.Vars)
        (e : Error) :
  (fst (exec (Today.toggleHabit hid now) fs wt) = Throw e ->
   vars (snd (exec (Today.toggleHabit hid now) fs wt)) = vars wt)
  /\ (fst (exec (History.toggleHabit hid) fs wh) = Throw e ->
      vars (snd (exec (History.toggleHabit hid) fs wh)) = vars wh).
Proof.
  split.
  - pose proof (wp_outcome _ _ _ wt fs (today_toggle_throw_wp hid now wt))
      as H.
    destruct (exec (Today.toggleHabit hid now) fs wt) as [[a|e'] w'];
      cbn [fst snd]; [discriminate|intros _; exact H].
  - pose proof (wp_outcome _ _ _ wh fs (history_toggle_throw_wp hid wh))
      as H.
    destruct (exec (History.toggleHabit hid) fs wh) as [[a|e'] w'];
      cbn [fst snd]; [discriminate|intros _; exact H].
Qed.

Lemma X8_failed_toggle_witness :
  vars (snd (exec (Today.toggleHabit 1 Sample.morning) [false; false; true]
               Sample.added))
  = vars Sample.added
  /\ vars (snd (exec (History.toggleHabit 1) [false; false; true]
                  Sample.history))
     = vars Sample.history.
Proof.
  destruct (X8_failed_toggle_leaves_the_page 1 Sample.morning
              [false; false; true] Sample.added Sample.history StoreError)
    as [Ht Hh].
  split; [apply Ht|apply Hh]; reflexivity.
Defined.

(** X9.  Deleting is two writes and no transaction.  On a connected page
    and whatever the store answers, a confirmed delete ends in one of three
    states: nothing changed; the habit's row is gone while its records and
    its entry on the page remain; or row, records and entry are all gone.
    The middle state is reached when the second write fails.  A declined
    delete changes nothing. *)
Theorem X9_delete_stops_between_its_writes (hid : Z) (f : Db)
        (v : Today.Vars) (fs : list bool) :
  Today.db v = true ->
  let w := mkWorld f v in
  let w' := snd (exec (Today.deleteHabit hid true) fs w) in
  (w' = w
   \/ w' = mkWorld (delete_habit hid f) v
   \/ w' = mkWorld (delete_master_of hid (delete_habit hid f))
             (Today.set_habits
                (filter (fun h => negb (id h =? hid)%Z) (Today.habits v)) v))
  /\ snd (exec (Today.deleteHabit hid true) (true :: fs) w) = w
  /\ snd (exec (Today.deleteHabit hid true) (false :: true :: fs) w)
     = mkWorld (delete_habit hid f) v
  /\ snd (exec (Today.deleteHabit hid false) fs w) = w.
Proof.
  intros Hdb. cbv zeta. split; [|split; [|split]].
  - apply (wp_exec (Today.deleteHabit hid true)
             (fun w' =>
                w' = mkWorld f v
                \/ w' = mkWorld (delete_habit hid f) v
                \/ w' = mkWorld (delete_master_of hid (delete_habit hid f))
                          (Today.set_habits
                             (filter (fun h => negb (id h =? hid)%Z)
                                     (Today.habits v)) v))
             (mkWorld f v) fs).
    unfold Today.deleteHabit. wp_run; auto.
  - unfold exec, Today.deleteHabit, Today.dbExecute, try_catch, bind, get,
      execute, call, modify.
    repeat (cbn [vars disk Today.set_habits Today.db]; rewrite ?Hdb).
    reflexivity.
  - unfold exec, Today.deleteHabit, Today.dbExecute, try_catch, bind, get,
      execute, call, modify.
    repeat (cbn [vars disk Today.set_habits Today.db]; rewrite ?Hdb).
    reflexivity.
  - reflexivity.
Qed.

Lemma X9_delete_witness :
  snd (exec (Today.deleteHabit 1 true) [false; true] Sample.toggled)
  = mkWorld (delete_habit 1 (disk Sample.toggled)) (vars Sample.toggled).
Proof.
  apply (X9_delete_stops_between_its_writes 1 (disk Sample.toggled)
           (vars Sample.toggled) []).
  reflexivity.
Defined.

(** X10.  Adding is one write and one listing.  On a connected page with
    a name that is not blank, and whatever the store answers, adding ends
    in one of three states: nothing changed; the row is stored while the
    page keeps its old list and its open form with the name still typed;
    or the row is stored, the page shows the full list of the clock's day
    and the form is closed and cleared.  The middle state is reached when
    the listing fails after the insert. *)
Theorem X10_add_stores_before_it_lists (now : Date) (f : Db)
        (v : Today.Vars) (fs : list bool) :
  Today.db v = true ->
  trim (Today.newHabitName v) <> [] ->
  let w := mkWorld f v in
  let f' := insert_habit (trim (Today.newHabitName v)) 0 f in
  let w' := snd (exec (Today.addHabit now) fs w) in
  (w' = w
   \/ w' = mkWorld f' v
   \/ w' = mkWorld f' (Today.mkVars true (listing f' (isoDay now)) [] false))
  /\ snd (exec (Today.addHabit now) (true :: fs) w) = w
  /\ snd (exec (Today.addHabit now) (false :: true :: fs) w) = mkWorld f' v
  /\ snd (exec (Today.addHabit now) (false :: false :: true :: fs) w)
     = mkWorld f' v.
Proof.
  intros Hdb Hnm. cbv zeta.
  destruct (trim (Today.newHabitName v)) as [|c n] eqn:Et; [congruence|].
  split; [|split; [|split]].
  - apply (wp_exec (Today.addHabit now)
             (fun w' =>
                w' = mkWorld f v
                \/ w' = mkWorld (insert_habit (c :: n) 0 f) v
                \/ w' = mkWorld (insert_habit (c :: n) 0 f)
                          (Today.mkVars true
                             (listing (insert_habit (c :: n) 0 f)
                                      (isoDay now)) [] false))
             (mkWorld f v) fs).
    unfold Today.addHabit. wp_run; auto; rewrite ?Et in *; auto.
    all: right; right; f_equal.
    all: unfold Today.set_isAddingHabit, Today.set_newHabitName,
           Today.set_habits; cbn [Today.db Today.habits Today.newHabitName].
    all: rewrite Hdb, beforeT_toISOString.
    all: now rewrite merge_is_listing by apply isoDay_plain.
  - unfold exec, Today.addHabit, Today.dbExecute, try_catch, bind, get,
      execute, call, modify.
    repeat (cbn [vars disk truthy negb Today.db]; rewrite ?Hdb, ?Et).
    reflexivity.
  - unfold exec, Today.addHabit, Today.getHabits, Today.dbExecute,
      Today.dbSelect, try_catch, bind, get, execute, select, call, modify.
    repeat (cbn [vars disk truthy negb Today.db]; rewrite ?Hdb, ?Et).
    reflexivity.
  - unfold exec, Today.addHabit, Today.getHabits, Today.dbExecute,
      Today.dbSelect, try_catch, bind, get, execute, select, call, modify.
    repeat (cbn [vars disk truthy negb Today.db]; rewrite ?Hdb, ?Et).
    reflexivity.
Qed.

Lemma X10_add_witness :
  snd (exec (Today.addHabit Sample.evening) [false; true]
         (mkWorld (disk Sample.added)
            (vars (Sample.typed "Walk" Sample.added))))
  = mkWorld
      (insert_habit
         (trim (Today.newHabitName (vars (Sample.typed "Walk" Sample.added))))
         0 (disk Sample.added))
      (vars (Sample.typed "Walk" Sample.added)).
Proof.
  assert (Today.db (vars (Sample.typed "Walk" Sample.added)) = true) as Hdb
    by (vm_compute; reflexivity).
  assert (trim (Today.newHabitName (vars (Sample.typed "Walk" Sample.added)))
          <> []) as Hnm by (vm_compute; discriminate).
  exact (proj1 (proj2 (proj2
           (X10_add_stores_before_it_lists Sample.evening (disk Sample.added)
              (vars (Sample.typed "Walk" Sample.added)) [] Hdb Hnm)))).
Defined.

(* ===================================================================== *)
(** ** The entry a toggle rewrites and the list a reload fetches *)
(* ===================================================================== *)

Lemma find_true_filter {A} (p : A -> bool) (l : list A) :
  find p l = find (fun _ => true) (filter p l).
Proof.
  rewrite find_filter. apply find_ext. intros x. now rewrite andb_true_r.
Qed.

Lemma completedOn_other (k hid : Z) (day stamp : jsstring) (f : Db) :
  NoDup (map m_id (master_tbl f)) -> startsWith day stamp = true ->
  k <> hid ->
  completedOn k day (recordWritten hid day stamp f) = completedOn k day f.
Proof.
  intros Hnd Hs Hne. unfold completedOn, recordOf.
  rewrite (find_true_filter _ (master_tbl (recordWritten hid day stamp f))).
  rewrite (find_true_filter _ (master_tbl f)).
  rewrite recordWritten_frame; try assumption; [reflexivity|].
  intros x Hx _. rewrite Hx.
  assert ((hid =? k)%Z = false) as -> by (apply Z.eqb_neq; congruence).
  reflexivity.
Qed.

(** Rewriting the first entry of a key in the list of a page is listing
    the table with that row rewritten. *)
Lemma setAt_listing (hid ns : Z) (flag : bool) (g g' : Z -> bool)
      (rows : list HabitRow) (i : nat) (h : Habit) :
  NoDup (map h_id rows) ->
  g' hid = flag -> (forall k, k <> hid -> g' k = g k) ->
  let hs := map (fun r => mkHabit (h_id r) (h_name r) (h_streak r)
                                  (g (h_id r))) rows in
  findIndex (fun x => (id x =? hid)%Z) hs = Some i ->
  nth_error hs i = Some h ->
  setAt i (mkHabit (id h) (name h) ns flag) hs
  = map (fun r => mkHabit (h_id r) (h_name r) (h_streak r) (g' (h_id r)))
        (map (fun r => if (h_id r =? hid)%Z
                       then mkHabitRow (h_id r) (h_name r) ns
                       else r) rows).
Proof.
  intros Hnd Hflag Hother. cbv zeta. revert i.
  induction rows as [|r rows IH]; intros i; cbn [map findIndex id];
    [discriminate|].
  cbn [map] in Hnd. inversion Hnd as [|? ? Hr Hnd']; subst.
  destruct (h_id r =? hid)%Z eqn:E.
  - intros [= <-]. cbn [nth_error setAt]. intros [= <-].
    cbn [id name h_id h_name h_streak]. apply Z.eqb_eq in E. rewrite E.
    f_equal. rewrite map_map. apply map_ext_in. intros x Hx.
    destruct (h_id x =? hid)%Z eqn:Ex.
    + exfalso. apply Hr. apply Z.eqb_eq in Ex. rewrite E, <- Ex.
      now apply in_map.
    + rewrite Hother; [reflexivity|]. now apply Z.eqb_neq.
  - destruct (findIndex _ _) as [j|] eqn:Ej; [|discriminate].
    intros [= <-]. cbn [nth_error setAt]. intros Hh.
    rewrite (IH Hnd' j eq_refl Hh). f_equal.
    rewrite Hother; [reflexivity|]. now apply Z.eqb_neq.
Qed.

Lemma update_streak_habits (ns hid : Z) (f : Db) :
  habits_tbl (update_streak ns hid f)
  = map (fun r => if (h_id r =? hid)%Z
                  then mkHabitRow (h_id r) (h_name r) ns
                  else r) (habits_tbl f).
Proof. reflexivity. Qed.

Lemma listing_after_toggle (hid : Z) (day stamp : jsstring) (f : Db)
      (i : nat) (h : Habit) :
  NoDup (map h_id (habits_tbl f)) -> NoDup (map m_id (master_tbl f)) ->
  startsWith day stamp = true ->
  findIndex (fun x => (id x =? hid)%Z) (listing f day) = Some i ->
  nth_error (listing f day) i = Some h ->
  let flag := negb (completedOn hid day f) in
  entryWritten i h flag (listing f day)
  = listing (update_streak (adjust flag (streak h)) hid
               (recordWritten hid day stamp f)) day.
Proof.
  intros Hh Hm Hs Hi Hn flag. subst flag. unfold entryWritten, listing in *.
  rewrite update_streak_habits, recordWritten_habits.
  apply (setAt_listing hid
           (adjust (negb (completedOn hid day f)) (streak h))
           (negb (completedOn hid day f))
           (fun k => completedOn k day f)
           (fun k => completedOn k day
                       (update_streak
                          (adjust (negb (completedOn hid day f)) (streak h))
                          hid (recordWritten hid day stamp f))));
    try assumption.
  - rewrite completedOn_update_streak. now apply completedOn_recordWritten.
  - intros k Hk. rewrite completedOn_update_streak.
    now apply completedOn_other.
Qed.

(** X11.  The entry a toggle rewrites on the page is the entry a reload
    would fetch.  On a connected page that shows the list of its day, over
    a store with distinct keys that answers every call, the list after a
    toggle is what listing the day from the store then returns: the flag
    and the streak written to the page agree with the two writes. *)
Theorem X11_toggled_page_equals_reload (hid : Z) (now : Date) (f : Db)
        (vt : Today.Vars) (vh : History.Vars) :
  NoDup (map h_id (habits_tbl f)) -> NoDup (map m_id (master_tbl f)) ->
  (Today.db vt = true ->
   Today.habits vt = listing f (isoDay now) ->
   let w' := snd (exec (Today.toggleHabit hid now) [] (mkWorld f vt)) in
   fst (exec (Today.getHabits now) [] w') = Ok (Today.habits (vars w')))
  /\ (History.db vh = true ->
      isDay (History.selectedDate vh) = true ->
      History.habitsForDate vh = listing f (History.selectedDate vh) ->
      let w' := snd (exec (History.toggleHabit hid) [] (mkWorld f vh)) in
      fst (exec (History.getHabitsForDate (History.selectedDate (vars w')))
             [] w')
      = Ok (History.habitsForDate (vars w'))).
Proof.
  intros Hh Hm. split.
  - intros Hdb Hl. cbv zeta.
    destruct (findIndex (fun x => (id x =? hid)%Z) (Today.habits vt))
      as [i|] eqn:Hi.
    + destruct (findIndex_Some _ _ _ Hi) as (h & Hn & _).
      rewrite (today_toggle_reliable hid now f vt i h Hdb Hi Hn).
      cbn [snd]. rewrite today_getHabits_reliable by exact Hdb.
      cbn [fst vars Today.set_habits Today.habits]. f_equal.
      rewrite Hl in *. symmetry.
      apply (listing_after_toggle hid (isoDay now) (toISOString now) f i h);
        try assumption.
      apply startsWith_toISOString.
    + rewrite today_toggle_unlisted by exact Hi. cbn [snd].
      rewrite today_getHabits_reliable by exact Hdb.
      cbn [fst vars]. now rewrite Hl.
  - intros Hdb Hd Hl. cbv zeta. unfold isDay in Hd.
    destruct (parseDate (History.selectedDate vh)) as [d|] eqn:Ed;
      [|discriminate].
    destruct (parseDate_Some _ _ Ed) as (_ & _ & Hplain & _).
    destruct (findIndex (fun x => (id x =? hid)%Z) (History.habitsForDate vh))
      as [i|] eqn:Hi.
    + destruct (findIndex_Some _ _ _ Hi) as (h & Hn & _).
      rewrite (history_toggle_reliable hid f vh i h d Hdb Hi Hn Ed).
      cbn [snd vars History.set_habitsForDate History.selectedDate].
      rewrite history_getHabitsForDate_reliable by assumption.
      cbn [fst History.habitsForDate]. f_equal.
      rewrite Hl in *. symmetry.
      apply (listing_after_toggle hid (History.selectedDate vh)
               (History.selectedDate vh ++ lit "T00:00:00.000Z") f i h);
        try assumption.
      apply startsWith_app.
    + rewrite history_toggle_unlisted by exact Hi. cbn [snd vars].
      rewrite history_getHabitsForDate_reliable by assumption.
      cbn [fst]. now rewrite Hl.
Qed.

Lemma NoDup_checked (l : list Z) : nodup Z.eq_dec l = l -> NoDup l.
Proof. intros <-. apply NoDup_nodup. Qed.

Lemma X11_toggled_page_witness :
  fst (exec (Today.getHabits Sample.evening) []
         (snd (exec (Today.toggleHabit 2 Sample.evening) []
                 Sample.toggled)))
  = Ok (Today.habits
          (vars (snd (exec (Today.toggleHabit 2 Sample.evening) []
                        Sample.toggled))))
  /\ fst (exec (History.getHabitsForDate (lit "2025-04-14")) []
            (snd (exec (History.toggleHabit 1) []
                    (Sample.picked "2025-04-14"))))
     = Ok (History.habitsForDate
             (vars (snd (exec (History.toggleHabit 1) []
                           (Sample.picked "2025-04-14"))))).
Proof.
  destruct (X11_toggled_page_equals_reload 2 Sample.evening
              (disk Sample.toggled) (vars Sample.toggled)
              (vars (Sample.picked "2025-04-14"))) as [Ht _].
  { apply NoDup_checked. vm_compute. reflexivity. }
  { apply NoDup_checked. vm_compute. reflexivity. }
  destruct (X11_toggled_page_equals_reload 1 Sample.evening
              (disk (Sample.picked "2025-04-14")) (vars Sample.toggled)
              (vars (Sample.picked "2025-04-14"))) as [_ Hh].
  { apply NoDup_checked. vm_compute. reflexivity. }
  { apply NoDup_checked. vm_compute. reflexivity. }
  split.
  - apply Ht; reflexivity.
  - apply Hh; reflexivity.
Defined.

(* ===================================================================== *)
(** ** The date input: cleared, changed on a failing store *)
(* ===================================================================== *)

Lemma findIndex_In {A} (p : A -> bool) (l : list A) (x : A) :
  In x l -> p x = true -> exists i, findIndex p l = Some i.
Proof.
  intros Hin Hp. destruct (findIndex p l) as [i|] eqn:E; [now exists i|].
  exfalso. revert Hin E. induction l as [|y l IH]; cbn [In findIndex];
    [easy|].
  destruct (p y) eqn:Ey; [discriminate|].
  destruct (findIndex p l); [discriminate|].
  intros [->|Hin] _; [congruence|now apply IH].
Qed.

Lemma startsWith_nil (s : jsstring) : startsWith [] s = true.
Proof. apply (startsWith_app [] s). Qed.

(** X12.  The date input cleared.  With an empty selected date the
    pattern of the listing is a bare "%", which every stored date matches:
    on a store that answers, the history page then lists every habit with
    the flag of the first record the habit has in the table, whatever its
    day.  A toggle of a listed habit in that state stops at the conversion
    of the date: it throws a RangeError before any call to the store, and
    file and page are unchanged whatever the store would have answered. *)
Theorem X12_cleared_date_lists_oldest_and_blocks_toggle (hid : Z) (f : Db)
        (v : History.Vars) (fs : list bool) :
  (History.db v = true ->
   History.habitsForDate
     (vars (snd (exec (History.handleDateChange []) [] (mkWorld f v))))
   = map (fun r =>
            mkHabit (h_id r) (h_name r) (h_streak r)
              match find (fun m => (m_habit_id m =? h_id r)%Z)
                         (master_tbl f) with
              | Some m => Boolean (m_completed m)
              | None => false
              end) (habits_tbl f))
  /\ (History.selectedDate v = [] ->
      In hid (map id (History.habitsForDate v)) ->
      exec (History.toggleHabit hid) fs (mkWorld f v)
      = (Throw RangeError, mkWorld f v)).
Proof.
  split.
  - intros Hdb. rewrite history_handleDateChange_reliable by exact Hdb.
    cbn [snd vars History.habitsForDate].
    rewrite merge_is_listing by reflexivity. unfold listing.
    apply map_ext. intros r. f_equal. unfold completedOn, recordOf.
    rewrite (find_ext _ (fun m => (m_habit_id m =? h_id r)%Z));
      [reflexivity|].
    intros m. unfold onDay. now rewrite startsWith_nil, andb_true_r.
  - intros Hd Hin. apply in_map_iff in Hin as (h & Hh & Hin).
    destruct (findIndex_In (fun x => (id x =? hid)%Z) _ h Hin) as [i Hi];
      [now apply Z.eqb_eq|].
    apply (history_toggle_invalid_date hid fs (mkWorld f v) i Hi).
    cbn [vars]. now rewrite Hd.
Qed.

Lemma X12_cleared_date_witness :
  History.habitsForDate
    (vars (snd (exec (History.handleDateChange []) []
                  (Sample.picked "2025-04-13"))))
  = [mkHabit 1 (lit "Drink water") 1 true; mkHabit 2 (lit "Read") 0 false]
  /\ exec (History.toggleHabit 1) [false; false; false] (Sample.picked "")
     = (Throw RangeError, Sample.picked "").
Proof.
  destruct (X12_cleared_date_lists_oldest_and_blocks_toggle 1
              (disk (Sample.picked "2025-04-13"))
              (vars (Sample.picked "2025-04-13")) []) as [Hl _].
  destruct (X12_cleared_date_lists_oldest_and_blocks_toggle 1
              (disk (Sample.picked ""))
              (vars (Sample.picked "")) [false; false; false]) as [_ Ht].
  split.
  - apply Hl. reflexivity.
  - apply Ht; [reflexivity|]. vm_compute. left. reflexivity.
Defined.

(** X13.  Changing the date stores the date and starts the listing
    without waiting for it, with nothing to catch a failure of it.  The
    handler never throws.  Whatever the store answers, once the listing
    has settled the file is unchanged and the selected date is the new
    value; the list is the merge for the new date when the page is
    connected and the store answered both reads, and otherwise the old
    list, now under the new date: on a page without a connection, and when
    either read failed. *)
Theorem X13_date_change_outcomes (value : jsstring) (f : Db)
        (v : History.Vars) (fs : list bool) :
  let after := fun gs => exec (History.handleDateChange value) gs
                           (mkWorld f v) in
  let stale := mkWorld f (History.set_selectedDate value v) in
  let fresh := mkWorld f
                 (History.mkVars true
                    (mergeHabits (select_habits f)
                       (select_master_like (dayPattern value) f))
                    value) in
  fst (after fs) = Ok tt
  /\ (snd (after fs) = stale
      \/ History.db v = true /\ snd (after fs) = fresh)
  /\ (History.db v = false -> snd (after fs) = stale)
  /\ (History.db v = true ->
      snd (after []) = fresh
      /\ snd (after (true :: fs)) = stale
      /\ snd (after (false :: true :: fs)) = stale).
Proof.
  cbv zeta. destruct v as [d hs sd].
  unfold History.handleDateChange, History.fetchHabits,
    History.getHabitsForDate, History.dbSelect, History.set_selectedDate,
    History.set_habitsForDate.
  cbn [History.db History.habitsForDate History.selectedDate].
  split; [|split; [|split]].
  - destruct d, fs as [|[|] [|[|] fs]]; reflexivity.
  - destruct d; [|left; reflexivity].
    destruct fs as [|[|] [|[|] fs]];
      first [left; reflexivity|right; split; reflexivity].
  - intros ->. destruct fs as [|[|] [|[|] fs]]; reflexivity.
  - intros ->. repeat split.
Qed.

Lemma X13_date_change_witness :
  snd (exec (History.handleDateChange (lit "2025-04-14")) [false; true]
         (mkWorld (disk Sample.history) (vars Sample.history)))
  = mkWorld (disk Sample.history)
      (History.set_selectedDate (lit "2025-04-14") (vars Sample.history)).
Proof.
  assert (History.db (vars Sample.history) = true) as Hdb
    by (vm_compute; reflexivity).
  destruct (X13_date_change_outcomes (lit "2025-04-14")
              (disk Sample.history) (vars Sample.history) [])
    as (_ & _ & _ & H).
  destruct (H Hdb) as (_ & _ & Hstale). exact Hstale.
Defined.

(** X14.  The two pages list a day in the same way.  For the day of the
    clock, the listing of the today page and the listing of the history
    page return the same result on the same file: the same list when the
    store answers, the same error when it fails, whatever it answers. *)
Theorem X14_pages_list_alike (now : Date) (f : Db) (vt : Today.Vars)
        (vh : History.Vars) (fs : list bool) :
  Today.db vt = History.db vh ->
  fst (exec (Today.getHabits now) fs (mkWorld f vt))
  = fst (exec (History.getHabitsForDate (isoDay now)) fs (mkWorld f vh)).
Proof.
  intros Hdb. unfold Today.getHabits, History.getHabitsForDate.
  rewrite beforeT_toISOString.
  generalize (dayPattern (isoDay now)) as pat. intros pat.
  destruct vt as [dt hs nm ad], vh as [dh hd sd].
  cbn [Today.db History.db] in Hdb. subst dt.
  destruct dh; destruct fs as [|[|] [|[|] fs]]; reflexivity.
Qed.

Lemma X14_pages_list_witness :
  fst (exec (Today.getHabits Sample.nextDay) [false; true] Sample.toggled)
  = fst (exec (History.getHabitsForDate (isoDay Sample.nextDay))
           [false; true] Sample.history).
Proof.
  apply (X14_pages_list_alike Sample.nextDay (disk Sample.toggled)
           (vars Sample.toggled) (vars Sample.history) [false; true]).
  reflexivity.
Defined.

(** X15.  A page without a connection is inert.  When mounting failed to
    open the database, adding, deleting and toggling change neither the
    file nor the page, whatever the store would answer. *)
Theorem X15_unconnected_page_is_inert (hid : Z) (now : Date) (answer : bool)
        (fs : list bool) (wt : World Today.Vars) (wh : World History.Vars) :
  Today.db (vars wt) = false -> History.db (vars wh) = false ->
  snd (exec (Today.addHabit now) fs wt) = wt
  /\ snd (exec (Today.deleteHabit hid answer) fs wt) = wt
  /\ snd (exec (Today.toggleHabit hid now) fs wt) = wt
  /\ snd (exec (History.toggleHabit hid) fs wh) = wh.
Proof.
  destruct wt as [ft [dt hs nm ad]], wh as [fh [dh hd sd]].
  cbn [vars Today.db History.db]. intros -> ->.
  split; [|split; [|split]].
  - unfold exec, Today.addHabit, bind at 1, get at 1.
    cbn [vars Today.newHabitName].
    destruct (truthy (trim nm)); reflexivity.
  - destruct answer; reflexivity.
  - unfold exec, Today.toggleHabit, bind at 1, get at 1.
    cbn [vars Today.habits].
    destruct (findIndex _ hs); reflexivity.
  - unfold exec, History.toggleHabit, History.isoOfSelected, bind at 1,
      get at 1.
    cbn [vars History.habitsForDate History.selectedDate].
    destruct (findIndex _ hd); [|reflexivity].
    destruct (parseDate sd); reflexivity.
Qed.

Lemma X15_unconnected_page_witness :
  snd (exec (Today.addHabit Sample.morning) []
         (mkWorld Sql.empty (Today.set_newHabitName (lit "Read")
                               Today.initial)))
  = mkWorld Sql.empty (Today.set_newHabitName (lit "Read") Today.initial).
Proof.
  apply (X15_unconnected_page_is_inert 1 Sample.morning true []
           (mkWorld Sql.empty (Today.set_newHabitName (lit "Read")
                                 Today.initial))
           (mkWorld Sql.empty (History.initial Sample.morning)));
    reflexivity.
Defined.

(* ===================================================================== *)
(** ** The progress bar: its label, its colour, its growth *)
(* ===================================================================== *)

Section DisplayFacts.

Variable round : Q -> Q.
Hypothesis round_monotone : forall x y : Q, x <= y -> round x <= round y.
Hypothesis round_0 : round 0 == 0.
Hypothesis round_1 : round 1 == 1.
Hypothesis round_100 : round 100 == 100.

Lemma round_proper (x y : Q) : x == y -> round x == round y.
Proof.
  intros H. apply Qle_antisym; apply round_monotone; rewrite H; apply Qle_refl.
Qed.

Lemma progressPercent_cons (h : Habit) (hs : list Habit) :
  Progress.progressPercent round (h :: hs)
  = Some (round (round (Progress.number (Progress.completedCount (h :: hs))
                        / Progress.number (length (h :: hs))) * 100)).
Proof.
  unfold Progress.progressPercent, Progress.divide, Progress.times.
  cbn [length Nat.eqb].
  assert (Qeq_bool (Progress.number (S (length hs))) 0 = false) as ->;
    [|reflexivity].
  destruct (Qeq_bool (Progress.number (S (length hs))) 0) eqn:E;
    [|reflexivity].
  apply Qeq_bool_eq in E. unfold Progress.number, Qeq in E. cbn in E. lia.
Qed.

Lemma number_pos (n : nat) : (0 < n)%nat -> 0 < Progress.number n.
Proof.
  intros H. unfold Progress.number. change 0 with (inject_Z 0).
  rewrite <- Zlt_Qlt. lia.
Qed.

Lemma percent_full (n : nat) :
  (0 < n)%nat ->
  round (round (Progress.number n / Progress.number n) * 100) == 100.
Proof.
  intros Hn. apply Qeq_trans with (round 100); [|exact round_100].
  apply round_proper.
  rewrite (round_proper (Progress.number n / Progress.number n) 1).
  - rewrite round_1. reflexivity.
  - unfold Qdiv. apply Qmult_inv_r. intros H.
    pose proof (number_pos n Hn) as Hp. rewrite H in Hp.
    now apply Qlt_irrefl in Hp.
Qed.

Lemma percent_empty (n : nat) :
  round (round (Progress.number 0 / Progress.number n) * 100) == 0.
Proof.
  apply Qeq_trans with (round 0); [|exact round_0].
  apply round_proper.
  rewrite (round_proper (Progress.number 0 / Progress.number n) 0).
  - rewrite round_0. reflexivity.
  - unfold Qdiv, Progress.number. cbn [Z.of_nat inject_Z]. apply Qmult_0_l.
Qed.

Lemma percent_monotone (c1 c2 n : nat) :
  (c1 <= c2)%nat ->
  round (round (Progress.number c1 / Progress.number n) * 100)
  <= round (round (Progress.number c2 / Progress.number n) * 100).
Proof.
  intros Hc. apply round_monotone.
  apply Qmult_le_compat_r; [|discriminate].
  apply round_monotone. unfold Qdiv.
  apply Qmult_le_compat_r.
  - unfold Progress.number. rewrite <- Zle_Qle. lia.
  - apply Qinv_le_0_compat. unfold Progress.number.
    change 0 with (inject_Z 0). rewrite <- Zle_Qle. lia.
Qed.

End DisplayFacts.

Lemma mathRound_monotone (x y : Q) :
  x <= y -> (Display.mathRound x <= Display.mathRound y)%Z.
Proof.
  intros H. unfold Display.mathRound. apply Qfloor_resp_le.
  now apply Qplus_le_l.
Qed.

Lemma mathRound_proper (x y : Q) :
  x == y -> Display.mathRound x = Display.mathRound y.
Proof.
  intros H. unfold Display.mathRound. apply Qfloor_comp. now rewrite H.
Qed.

Lemma progressColor_proper (x y : Q) :
  x == y -> Display.progressColor x = Display.progressColor y.
Proof.
  intros H. unfold Display.progressColor.
  assert (forall k, Qle_bool k x = Qle_bool k y) as Hk.
  { intros k. destruct (Qle_bool k x) eqn:Ex, (Qle_bool k y) eqn:Ey;
      try reflexivity.
    - apply Qle_bool_iff in Ex. rewrite H in Ex. apply Qle_bool_iff in Ex.
      congruence.
    - apply Qle_bool_iff in Ey. rewrite <- H in Ey. apply Qle_bool_iff in Ey.
      congruence. }
  now rewrite !Hk.
Qed.

Lemma completedCount_all (hs : list Habit) :
  forallb completed hs = true -> Progress.completedCount hs = length hs.
Proof.
  intros H. unfold Progress.completedCount. rewrite filter_all; [reflexivity|].
  now apply forallb_forall.
Qed.

Lemma completedCount_none (hs : list Habit) :
  forallb (fun h => negb (completed h)) hs = true ->
  Progress.completedCount hs = 0%nat.
Proof.
  intros H. unfold Progress.completedCount. rewrite filter_none; [reflexivity|].
  intros x Hx. apply negb_true_iff.
  exact (proj1 (forallb_forall _ hs) H x Hx).
Qed.

(** X16.  What the progress bar shows.  The label [Math.round] prints is a
    whole number from 0 to 100.  With every habit of a list that is not
    empty completed, the percentage is 100, the label is 100 and the bar is
    green; with no habit completed, or no habit at all, the percentage is
    0, the label is 0 and the bar is red.  Rounding is any monotone map
    that keeps 0, 1 and 100. *)
Theorem X16_progress_bar_extremes
    (round : Q -> Q)
    (round_monotone : forall x y : Q, x <= y -> round x <= round y)
    (round_0 : round 0 == 0) (round_1 : round 1 == 1)
    (round_100 : round 100 == 100)
    (habits : list Habit) :
  exists p : Q,
    Progress.progressPercent round habits = Some p
    /\ (0 <= Display.mathRound p <= 100)%Z
    /\ (habits <> [] -> forallb completed habits = true ->
        p == 100 /\ Display.mathRound p = 100%Z
        /\ Display.progressColor p = "bg-green-500"%string)
    /\ (forallb (fun h => negb (completed h)) habits = true ->
        p == 0 /\ Display.mathRound p = 0%Z
        /\ Display.progressColor p = "bg-red-500"%string).
Proof.
  destruct habits as [|h hs].
  - exists 0. split; [reflexivity|]. split; [split; discriminate|].
    split; [congruence|]. intros _. repeat split.
  - rewrite progressPercent_cons. eexists. split; [reflexivity|].
    set (l := h :: hs).
    assert (0 < length l)%nat as Hn by (cbn; lia).
    split; [|split].
    + assert (0 <= round (round (Progress.number (Progress.completedCount l)
                                 / Progress.number (length l)) * 100) <= 100)
        as [H0 H1].
      { apply percent_bounds; try assumption.
        apply ratio_bounds; try assumption. apply completedCount_le. }
      split.
      * change 0%Z with (Display.mathRound 0).
        now apply mathRound_monotone.
      * change 100%Z with (Display.mathRound 100).
        now apply mathRound_monotone.
    + intros _ Hall. rewrite completedCount_all by exact Hall.
      pose proof (percent_full round round_monotone round_1 round_100
                    (length l) Hn) as Hp.
      split; [exact Hp|]. split.
      * now rewrite (mathRound_proper _ _ Hp).
      * now rewrite (progressColor_proper _ _ Hp).
    + intros Hnone. rewrite completedCount_none by exact Hnone.
      pose proof (percent_empty round round_monotone round_0 (length l))
        as Hp.
      split; [exact Hp|]. split.
      * now rewrite (mathRound_proper _ _ Hp).
      * now rewrite (progressColor_proper _ _ Hp).
Qed.

Lemma milli_monotone (x y : Q) : x <= y -> Sample.milli x <= Sample.milli y.
Proof.
  intros Hxy. unfold Sample.milli, Qle. cbn [Qnum Qden].
  apply Z.mul_le_mono_nonneg_r; [lia|].
  apply Qfloor_resp_le. apply Qmult_le_compat_r; [exact Hxy|discriminate].
Qed.

Lemma X16_progress_bar_witness :
  exists p : Q,
    Progress.progressPercent Sample.milli
      [mkHabit 1 (lit "Drink water") 1 true; mkHabit 2 (lit "Read") 1 true]
    = Some p
    /\ p == 100 /\ Display.mathRound p = 100%Z
    /\ Display.progressColor p = "bg-green-500"%string.
Proof.
  destruct (X16_progress_bar_extremes Sample.milli milli_monotone
              eq_refl eq_refl eq_refl
              [mkHabit 1 (lit "Drink water") 1 true;
               mkHabit 2 (lit "Read") 1 true])
    as (p & Hp & _ & Hall & _).
  exists p. split; [exact Hp|]. apply Hall; [discriminate|reflexivity].
Defined.

(** X17.  More completed habits never lower the bar.  Of two lists of the
    same length, the one with at least as many completed habits has at
    least the percentage and at least the label of the other.  Rounding is
    any monotone map. *)
Theorem X17_progress_grows_with_completions
    (round : Q -> Q)
    (round_monotone : forall x y : Q, x <= y -> round x <= round y)
    (hs1 hs2 : list Habit) (p1 p2 : Q) :
  length hs1 = length hs2 ->
  (Progress.completedCount hs1 <= Progress.completedCount hs2)%nat ->
  Progress.progressPercent round hs1 = Some p1 ->
  Progress.progressPercent round hs2 = Some p2 ->
  p1 <= p2 /\ (Display.mathRound p1 <= Display.mathRound p2)%Z.
Proof.
  intros Hlen Hc H1 H2.
  assert (p1 <= p2) as Hp.
  { destruct hs1 as [|a l1], hs2 as [|b l2]; try discriminate.
    - cbn in H1, H2. injection H1 as <-. injection H2 as <-. apply Qle_refl.
    - rewrite progressPercent_cons in H1, H2. rewrite Hlen in H1.
      injection H1 as <-. injection H2 as <-.
      now apply percent_monotone. }
  split; [exact Hp|now apply mathRound_monotone].
Qed.

Lemma X17_progress_grows_witness :
  Sample.milli (Sample.milli (0 / 2) * 100)
  <= Sample.milli (Sample.milli (1 / 2) * 100)
  /\ (Display.mathRound (Sample.milli (Sample.milli (0 / 2) * 100))
      <= Display.mathRound (Sample.milli (Sample.milli (1 / 2) * 100)))%Z.
Proof.
  apply (X17_progress_grows_with_completions Sample.milli milli_monotone
           (Today.habits (vars Sample.added))
           (Today.habits (vars Sample.toggled))).
  - vm_compute. reflexivity.
  - vm_compute. lia.
  - vm_compute. reflexivity.
  - vm_compute. reflexivity.
Defined.
